(** * Double-reset detector (drd_handler.cpp): shallow embedding and properties

    The detector of [src/drd_handler.cpp] is embedded as a program of a small
    state-and-trace monad over a [World]: the detector object, the RTC cell
    [s_rtc_magic], and the platform services the code calls (reset reason,
    application descriptor, NVS, esp_timer, log sink).  Every platform call
    appends an event to the trace, with the status it returned, so that the
    order of side effects and their outcomes can be stated.  A log line is
    recorded with its format string; its arguments are left out, and with
    them [reset_reason_to_string]; the formatting helper [sha256_to_hex] is
    embedded on its own.  [check_and_clear] is written a second time as a
    tree of steps, with the same runs, so that the moments between two of
    its steps can be named. *)

From Stdlib Require Import ZArith List Bool Lia.
From stdpp Require Import base decidable option list gmap strings fin_maps.

Local Open Scope string_scope.
Local Open Scope list_scope.
Local Open Scope Z_scope.

(** ** Platform types *)

(** [Backend] of drd_handler.hpp. *)
Inductive Backend := RTC | NVS.

(** The reset reasons of [esp_system.h] that the source names. *)
Inductive esp_reset_reason_t :=
| ESP_RST_UNKNOWN | ESP_RST_POWERON | ESP_RST_EXT | ESP_RST_SW | ESP_RST_PANIC
| ESP_RST_INT_WDT | ESP_RST_TASK_WDT | ESP_RST_WDT | ESP_RST_DEEPSLEEP
| ESP_RST_BROWNOUT | ESP_RST_SDIO | ESP_RST_USB | ESP_RST_JTAG.

(** The status codes of [esp_err.h] and [nvs.h] that the platform model
    returns. *)
Inductive esp_err_t :=
| ESP_OK | ESP_FAIL | ESP_ERR_NO_MEM | ESP_ERR_INVALID_ARG
| ESP_ERR_INVALID_STATE
| ESP_ERR_NVS_NOT_INITIALIZED | ESP_ERR_NVS_NOT_FOUND
| ESP_ERR_NVS_TYPE_MISMATCH | ESP_ERR_NVS_INVALID_HANDLE
| ESP_ERR_NVS_NOT_ENOUGH_SPACE | ESP_ERR_NVS_INVALID_LENGTH
| ESP_ERR_NVS_NO_FREE_PAGES | ESP_ERR_NVS_NEW_VERSION_FOUND
| ESP_ERR_FLASH_OP_FAIL.

(** A failure the platform can inject into a call: flash, heap or timer
    service trouble.  None of them is [ESP_OK] or [ESP_ERR_NVS_NOT_FOUND]. *)
Inductive fault :=
| FaultFail | FaultNoMem | FaultInvalidState | FaultFlashOp
| FaultNvsNotEnoughSpace | FaultNvsNoFreePages | FaultNvsNewVersion.

Definition fault_code (f : fault) : esp_err_t :=
  match f with
  | FaultFail => ESP_FAIL
  | FaultNoMem => ESP_ERR_NO_MEM
  | FaultInvalidState => ESP_ERR_INVALID_STATE
  | FaultFlashOp => ESP_ERR_FLASH_OP_FAIL
  | FaultNvsNotEnoughSpace => ESP_ERR_NVS_NOT_ENOUGH_SPACE
  | FaultNvsNoFreePages => ESP_ERR_NVS_NO_FREE_PAGES
  | FaultNvsNewVersion => ESP_ERR_NVS_NEW_VERSION_FOUND
  end.

#[global] Instance Backend_eq_dec : EqDecision Backend.
Proof. solve_decision. Defined.
#[global] Instance esp_reset_reason_eq_dec : EqDecision esp_reset_reason_t.
Proof. solve_decision. Defined.
#[global] Instance esp_err_eq_dec : EqDecision esp_err_t.
Proof. solve_decision. Defined.

(** A typed NVS entry; integers are kept as [Z] in the range of their C
    type, a blob as its bytes. *)
Inductive nvs_value :=
| U8 (v : Z) | U32 (v : Z) | U64 (v : Z) | Blob (bs : list Z).

#[global] Instance nvs_value_eq_dec : EqDecision nvs_value.
Proof. solve_decision. Defined.

(** Which static callback a timer was created with. *)
Inductive timer_cb := DisarmCb | ArmCb.

#[global] Instance timer_cb_eq_dec : EqDecision timer_cb.
Proof. solve_decision. Defined.

(** An [esp_timer] object: [t_armed = Some us] while a one-shot of [us]
    microseconds is pending. *)
Record esp_timer := mkTimer {
  t_callback : timer_cb;
  t_name : string;
  t_armed : option Z }.

(** The NVS partition as seen through the detector's namespace.  Writes and
    erasures act on [nvs_staged]; [nvs_commit] makes them durable. *)
Record Nvs := mkNvs {
  nvs_initialized : bool;
  nvs_handles : list Z;
  nvs_next_handle : Z;
  nvs_staged : gmap string nvs_value;
  nvs_durable : gmap string nvs_value }.

Record Platform := mkPlatform {
  reset_reason : esp_reset_reason_t;
  app_elf_sha256 : option (list Z);
  nvs : Nvs;
  timers : gmap nat esp_timer;
  next_timer : nat;
  faults : list (option fault) }.

(** The private members of [DoubleResetDetector]; a timer handle
    ([esp_timer_handle_t], a pointer) is [None] for [nullptr]. *)
Record Detector := mkDetector {
  backend_ : Backend;
  nvs_namespace_ : string;
  configured_ : bool;
  nvs_ready_ : bool;
  nvs_handle_ : Z;
  evaluated_ : bool;
  cached_result_ : bool;
  disarm_timer_ : option nat;
  arm_timer_ : option nat;
  arm_window_s_ : Z;
  firmware_id_dirty_ : bool }.

Record World := mkWorld {
  det : Detector;
  s_rtc_magic : Z;
  plat : Platform }.

Inductive log_level := LOGI | LOGW.

(** One entry of the trace per platform call, with the status returned. *)
Inductive Event :=
| EvLog (lvl : log_level) (fmt : string)
| EvResetReason (r : esp_reset_reason_t)
| EvAppDescription (found : bool)
| EvRtcRead (v : Z)
| EvRtcWrite (v : Z)
| EvNvsFlashInit (err : esp_err_t)
| EvNvsOpen (ns : string) (err : esp_err_t)
| EvNvsClose (h : Z)
| EvNvsGet (key : string) (err : esp_err_t)
| EvNvsSet (key : string) (v : nvs_value) (err : esp_err_t)
| EvNvsEraseKey (key : string) (err : esp_err_t)
| EvNvsCommit (err : esp_err_t)
| EvTimerCreate (cb : timer_cb) (err : esp_err_t)
| EvTimerStartOnce (h : option nat) (timeout_us : Z) (err : esp_err_t)
| EvTimerStop (h : option nat) (err : esp_err_t)
| EvTimerDelete (h : option nat) (err : esp_err_t).

(** ** Constants of the anonymous namespace *)

Definition kDrdMagic : Z := 0xD0B1E5E5.
Definition kKeyMagic : string := "magic".
Definition kKeyBoot : string := "last_boot_us".
Definition kKeyAppHash : string := "app_hash".
Definition kKeyAppSha256 : string := "app_sha256".
Definition kKeyDirty : string := "fw_dirty".
Definition kKeyFirstBoot : string := "first_boot".
Definition kSha256Len : Z := 32.

(** ** Record updates *)

Definition with_det (f : Detector -> Detector) (w : World) : World :=
  mkWorld (f (det w)) (s_rtc_magic w) (plat w).
Definition with_rtc (v : Z) (w : World) : World :=
  mkWorld (det w) v (plat w).
Definition with_plat (p : Platform) (w : World) : World :=
  mkWorld (det w) (s_rtc_magic w) p.

Definition set_backend_ (v : Backend) (d : Detector) : Detector :=
  mkDetector v (nvs_namespace_ d) (configured_ d) (nvs_ready_ d)
    (nvs_handle_ d) (evaluated_ d) (cached_result_ d) (disarm_timer_ d)
    (arm_timer_ d) (arm_window_s_ d) (firmware_id_dirty_ d).
Definition set_configured_ (v : bool) (d : Detector) : Detector :=
  mkDetector (backend_ d) (nvs_namespace_ d) v (nvs_ready_ d)
    (nvs_handle_ d) (evaluated_ d) (cached_result_ d) (disarm_timer_ d)
    (arm_timer_ d) (arm_window_s_ d) (firmware_id_dirty_ d).
Definition set_nvs_ready_ (v : bool) (d : Detector) : Detector :=
  mkDetector (backend_ d) (nvs_namespace_ d) (configured_ d) v
    (nvs_handle_ d) (evaluated_ d) (cached_result_ d) (disarm_timer_ d)
    (arm_timer_ d) (arm_window_s_ d) (firmware_id_dirty_ d).
Definition set_nvs_handle_ (v : Z) (d : Detector) : Detector :=
  mkDetector (backend_ d) (nvs_namespace_ d) (configured_ d) (nvs_ready_ d)
    v (evaluated_ d) (cached_result_ d) (disarm_timer_ d)
    (arm_timer_ d) (arm_window_s_ d) (firmware_id_dirty_ d).
Definition set_evaluated_ (v : bool) (d : Detector) : Detector :=
  mkDetector (backend_ d) (nvs_namespace_ d) (configured_ d) (nvs_ready_ d)
    (nvs_handle_ d) v (cached_result_ d) (disarm_timer_ d)
    (arm_timer_ d) (arm_window_s_ d) (firmware_id_dirty_ d).
Definition set_cached_result_ (v : bool) (d : Detector) : Detector :=
  mkDetector (backend_ d) (nvs_namespace_ d) (configured_ d) (nvs_ready_ d)
    (nvs_handle_ d) (evaluated_ d) v (disarm_timer_ d)
    (arm_timer_ d) (arm_window_s_ d) (firmware_id_dirty_ d).
Definition set_disarm_timer_ (v : option nat) (d : Detector) : Detector :=
  mkDetector (backend_ d) (nvs_namespace_ d) (configured_ d) (nvs_ready_ d)
    (nvs_handle_ d) (evaluated_ d) (cached_result_ d) v
    (arm_timer_ d) (arm_window_s_ d) (firmware_id_dirty_ d).
Definition set_arm_timer_ (v : option nat) (d : Detector) : Detector :=
  mkDetector (backend_ d) (nvs_namespace_ d) (configured_ d) (nvs_ready_ d)
    (nvs_handle_ d) (evaluated_ d) (cached_result_ d) (disarm_timer_ d)
    v (arm_window_s_ d) (firmware_id_dirty_ d).
Definition set_arm_window_s_ (v : Z) (d : Detector) : Detector :=
  mkDetector (backend_ d) (nvs_namespace_ d) (configured_ d) (nvs_ready_ d)
    (nvs_handle_ d) (evaluated_ d) (cached_result_ d) (disarm_timer_ d)
    (arm_timer_ d) v (firmware_id_dirty_ d).
Definition set_firmware_id_dirty_ (v : bool) (d : Detector) : Detector :=
  mkDetector (backend_ d) (nvs_namespace_ d) (configured_ d) (nvs_ready_ d)
    (nvs_handle_ d) (evaluated_ d) (cached_result_ d) (disarm_timer_ d)
    (arm_timer_ d) (arm_window_s_ d) v.

Definition set_nvs (n : Nvs) (p : Platform) : Platform :=
  mkPlatform (reset_reason p) (app_elf_sha256 p) n (timers p) (next_timer p)
    (faults p).
Definition set_timers (t : gmap nat esp_timer) (nx : nat) (p : Platform)
  : Platform :=
  mkPlatform (reset_reason p) (app_elf_sha256 p) (nvs p) t nx (faults p).
Definition set_faults (fs : list (option fault)) (p : Platform) : Platform :=
  mkPlatform (reset_reason p) (app_elf_sha256 p) (nvs p) (timers p)
    (next_timer p) fs.

Definition set_staged (m : gmap string nvs_value) (n : Nvs) : Nvs :=
  mkNvs (nvs_initialized n) (nvs_handles n) (nvs_next_handle n) m
    (nvs_durable n).

(** ** The state-and-trace monad *)

Definition M (A : Type) : Type := World -> A * World * list Event.

Definition ret {A} (a : A) : M A := fun w => (a, w, []).

Definition bind {A B} (m : M A) (f : A -> M B) : M B :=
  fun w =>
    let '(a, w1, e1) := m w in
    let '(b, w2, e2) := f a w1 in
    (b, w2, e1 ++ e2).

Declare Scope drd_scope.
Delimit Scope drd_scope with drd.
Notation "x <- m ;; k" := (bind m (fun x => k))
  (at level 100, m at next level, right associativity) : drd_scope.
Notation "m ;; k" := (bind m (fun _ => k))
  (at level 100, right associativity) : drd_scope.
Local Open Scope drd_scope.

Definition emit (ev : Event) : M unit := fun w => (tt, w, [ev]).
Definition gets {A} (f : Detector -> A) : M A := fun w => (f (det w), w, []).
Definition modify (f : Detector -> Detector) : M unit :=
  fun w => (tt, with_det f w, []).
Definition when (b : bool) (m : M unit) : M unit := if b then m else ret tt.

(** Projections of a run. *)
Definition result {A} (r : A * World * list Event) : A := fst (fst r).
Definition world {A} (r : A * World * list Event) : World := snd (fst r).
Definition events {A} (r : A * World * list Event) : list Event := snd r.

(** [ESP_LOGI] and [ESP_LOGW]: the format string goes to the trace. *)
Definition ESP_LOGI (fmt : string) : M unit := emit (EvLog LOGI fmt).
Definition ESP_LOGW (fmt : string) : M unit := emit (EvLog LOGW fmt).
(** ** Platform services

    The contracts of the ESP-IDF services the detector consumes.  Each
    fallible call first takes the next entry of the fault script
    [faults]: [Some f] makes the call return [fault_code f] without any
    effect, [None] (or an exhausted script) lets it run. *)

Definition pop_fault (p : Platform) : option fault * Platform :=
  match faults p with
  | [] => (None, p)
  | f :: fs => (f, set_faults fs p)
  end.

Definition with_fault {A} (failed : esp_err_t -> A)
    (run : Platform -> A * Platform) (p : Platform) : A * Platform :=
  match pop_fault p with
  | (Some f, p1) => (failed (fault_code f), p1)
  | (None, p1) => run p1
  end.

(** A platform call as a monadic action with its trace entry. *)
Definition call {A} (op : Platform -> A * Platform) (ev : A -> Event) : M A :=
  fun w => let '(a, p) := op (plat w) in (a, with_plat p w, [ev a]).

Definition handle_valid (h : Z) (n : Nvs) : bool :=
  bool_decide (h ∈ nvs_handles n).

Definition nvs_flash_init_op : Platform -> esp_err_t * Platform :=
  with_fault (fun e => e)
    (fun p =>
       let n := nvs p in
       (ESP_OK,
        set_nvs (mkNvs true (nvs_handles n) (nvs_next_handle n)
                   (nvs_staged n) (nvs_durable n)) p)).

(** [nvs_open(ns, NVS_READWRITE, &h)]: the handle is written on success
    only; [out] is the caller's initial value of [h]. *)
Definition nvs_open_op (out : Z) : Platform -> (esp_err_t * Z) * Platform :=
  with_fault (fun e => (e, out))
    (fun p =>
       let n := nvs p in
       if nvs_initialized n then
         let h := nvs_next_handle n in
         ((ESP_OK, h),
          set_nvs (mkNvs true (h :: nvs_handles n) (h + 1)
                     (nvs_staged n) (nvs_durable n)) p)
       else ((ESP_ERR_NVS_NOT_INITIALIZED, out), p)).

Definition nvs_close_op (h : Z) (p : Platform) : unit * Platform :=
  let n := nvs p in
  (tt,
   set_nvs (mkNvs (nvs_initialized n)
              (List.filter (fun x => negb (x =? h)) (nvs_handles n))
              (nvs_next_handle n) (nvs_staged n) (nvs_durable n)) p).

(** A typed read: [sel] picks the payload of the entry when it has the
    requested type; the out-parameter keeps its value [out] on failure. *)
Definition nvs_get_op {A} (sel : nvs_value -> A -> esp_err_t * A)
    (h : Z) (key : string) (out : A) : Platform -> (esp_err_t * A) * Platform :=
  with_fault (fun e => (e, out))
    (fun p =>
       if negb (handle_valid h (nvs p)) then
         ((ESP_ERR_NVS_INVALID_HANDLE, out), p)
       else
         match nvs_staged (nvs p) !! key with
         | None => ((ESP_ERR_NVS_NOT_FOUND, out), p)
         | Some v => (sel v out, p)
         end).

Definition sel_u8 (v : nvs_value) (out : Z) : esp_err_t * Z :=
  match v with U8 x => (ESP_OK, x) | _ => (ESP_ERR_NVS_TYPE_MISMATCH, out) end.
Definition sel_u32 (v : nvs_value) (out : Z) : esp_err_t * Z :=
  match v with U32 x => (ESP_OK, x) | _ => (ESP_ERR_NVS_TYPE_MISMATCH, out) end.

(** [dst] with its first bytes overwritten by [src] (a [memcpy] of
    [length src] bytes into a buffer at least that long). *)
Definition overwrite (dst src : list Z) : list Z :=
  take (length dst) (src ++ drop (length src) dst).

(** [nvs_get_blob(h, key, buf, &len)]: [out = (buf, len)]; a stored blob
    longer than [len] is refused, a shorter one is copied and [len] set to
    its length. *)
Definition sel_blob (v : nvs_value) (out : list Z * Z) : esp_err_t * (list Z * Z) :=
  match v with
  | Blob bs =>
      if Z.of_nat (length bs) <=? snd out then
        (ESP_OK, (overwrite (fst out) bs, Z.of_nat (length bs)))
      else (ESP_ERR_NVS_INVALID_LENGTH, out)
  | _ => (ESP_ERR_NVS_TYPE_MISMATCH, out)
  end.

Definition nvs_set_op (h : Z) (key : string) (v : nvs_value)
  : Platform -> esp_err_t * Platform :=
  with_fault (fun e => e)
    (fun p =>
       if negb (handle_valid h (nvs p)) then (ESP_ERR_NVS_INVALID_HANDLE, p)
       else (ESP_OK, set_nvs (set_staged (<[key := v]> (nvs_staged (nvs p))) (nvs p)) p)).

Definition nvs_erase_key_op (h : Z) (key : string)
  : Platform -> esp_err_t * Platform :=
  with_fault (fun e => e)
    (fun p =>
       if negb (handle_valid h (nvs p)) then (ESP_ERR_NVS_INVALID_HANDLE, p)
       else
         match nvs_staged (nvs p) !! key with
         | None => (ESP_ERR_NVS_NOT_FOUND, p)
         | Some _ =>
             (ESP_OK, set_nvs (set_staged (delete key (nvs_staged (nvs p))) (nvs p)) p)
         end).

Definition nvs_commit_op (h : Z) : Platform -> esp_err_t * Platform :=
  with_fault (fun e => e)
    (fun p =>
       let n := nvs p in
       if negb (handle_valid h n) then (ESP_ERR_NVS_INVALID_HANDLE, p)
       else
         (ESP_OK,
          set_nvs (mkNvs (nvs_initialized n) (nvs_handles n)
                     (nvs_next_handle n) (nvs_staged n) (nvs_staged n)) p)).

(** [esp_timer_create]: a fresh handle on success, written to the
    out-parameter, which keeps its value [out] on failure. *)
Definition esp_timer_create_op (cb : timer_cb) (name : string) (out : option nat)
  : Platform -> (esp_err_t * option nat) * Platform :=
  with_fault (fun e => (e, out))
    (fun p =>
       let h := next_timer p in
       ((ESP_OK, Some h),
        set_timers (<[h := mkTimer cb name None]> (timers p)) (S h) p)).

(** The timer a possibly null handle designates. *)
Definition timer_of (h : option nat) (p : Platform) : option (nat * esp_timer) :=
  match h with
  | None => None
  | Some i => match timers p !! i with Some t => Some (i, t) | None => None end
  end.

Definition esp_timer_start_once_op (h : option nat) (timeout_us : Z)
  : Platform -> esp_err_t * Platform :=
  with_fault (fun e => e)
    (fun p =>
       match timer_of h p with
       | None => (ESP_ERR_INVALID_ARG, p)
       | Some (i, t) =>
           match t_armed t with
           | Some _ => (ESP_ERR_INVALID_STATE, p)
           | None =>
               (ESP_OK,
                set_timers
                  (<[i := mkTimer (t_callback t) (t_name t) (Some timeout_us)]>
                     (timers p)) (next_timer p) p)
           end
       end).

Definition esp_timer_stop_op (h : option nat) : Platform -> esp_err_t * Platform :=
  with_fault (fun e => e)
    (fun p =>
       match timer_of h p with
       | None => (ESP_ERR_INVALID_ARG, p)
       | Some (i, t) =>
           match t_armed t with
           | None => (ESP_ERR_INVALID_STATE, p)
           | Some _ =>
               (ESP_OK,
                set_timers
                  (<[i := mkTimer (t_callback t) (t_name t) None]> (timers p))
                  (next_timer p) p)
           end
       end).

Definition esp_timer_delete_op (h : option nat) : Platform -> esp_err_t * Platform :=
  with_fault (fun e => e)
    (fun p =>
       match timer_of h p with
       | None => (ESP_ERR_INVALID_ARG, p)
       | Some (i, t) =>
           match t_armed t with
           | Some _ => (ESP_ERR_INVALID_STATE, p)
           | None => (ESP_OK, set_timers (delete i (timers p)) (next_timer p) p)
           end
       end).

(** The calls as monadic actions. *)
Definition esp_reset_reason : M esp_reset_reason_t :=
  call (fun p => (reset_reason p, p)) EvResetReason.
Definition esp_app_get_description : M (option (list Z)) :=
  call (fun p => (app_elf_sha256 p, p))
       (fun a => EvAppDescription (bool_decide (a ≠ None))).
Definition nvs_flash_init : M esp_err_t := call nvs_flash_init_op EvNvsFlashInit.
Definition nvs_open (ns : string) (out : Z) : M (esp_err_t * Z) :=
  call (nvs_open_op out) (fun a => EvNvsOpen ns (fst a)).
Definition nvs_close (h : Z) : M unit :=
  call (nvs_close_op h) (fun _ => EvNvsClose h).
Definition nvs_get_u8 (h : Z) (key : string) (out : Z) : M (esp_err_t * Z) :=
  call (nvs_get_op sel_u8 h key out) (fun a => EvNvsGet key (fst a)).
Definition nvs_get_u32 (h : Z) (key : string) (out : Z) : M (esp_err_t * Z) :=
  call (nvs_get_op sel_u32 h key out) (fun a => EvNvsGet key (fst a)).
Definition nvs_get_blob (h : Z) (key : string) (out : list Z * Z)
  : M (esp_err_t * (list Z * Z)) :=
  call (nvs_get_op sel_blob h key out) (fun a => EvNvsGet key (fst a)).
Definition nvs_set_u8 (h : Z) (key : string) (v : Z) : M esp_err_t :=
  call (nvs_set_op h key (U8 v)) (EvNvsSet key (U8 v)).
Definition nvs_set_u32 (h : Z) (key : string) (v : Z) : M esp_err_t :=
  call (nvs_set_op h key (U32 v)) (EvNvsSet key (U32 v)).
Definition nvs_set_blob (h : Z) (key : string) (bs : list Z) : M esp_err_t :=
  call (nvs_set_op h key (Blob bs)) (EvNvsSet key (Blob bs)).
Definition nvs_erase_key (h : Z) (key : string) : M esp_err_t :=
  call (nvs_erase_key_op h key) (EvNvsEraseKey key).
Definition nvs_commit (h : Z) : M esp_err_t :=
  call (nvs_commit_op h) EvNvsCommit.
Definition esp_timer_create (cb : timer_cb) (name : string) (out : option nat)
  : M (esp_err_t * option nat) :=
  call (esp_timer_create_op cb name out) (fun a => EvTimerCreate cb (fst a)).
Definition esp_timer_start_once (h : option nat) (timeout_us : Z) : M esp_err_t :=
  call (esp_timer_start_once_op h timeout_us) (EvTimerStartOnce h timeout_us).
Definition esp_timer_stop (h : option nat) : M esp_err_t :=
  call (esp_timer_stop_op h) (EvTimerStop h).
Definition esp_timer_delete (h : option nat) : M esp_err_t :=
  call (esp_timer_delete_op h) (EvTimerDelete h).

(** The RTC slow-memory cell [s_rtc_magic]. *)
Definition rtc_read : M Z := fun w => (s_rtc_magic w, w, [EvRtcRead (s_rtc_magic w)]).
Definition rtc_write (v : Z) : M unit := fun w => (tt, with_rtc v w, [EvRtcWrite v]).

(** ** The detector (drd_handler.cpp) *)

Section Detector.

(** The Kconfig options of [sdkconfig.h]. *)
Variable CONFIG_DRD_SUPPRESS_TOOLING_RESETS : bool.
Variable CONFIG_DRD_ARM_DELAY_SECONDS : Z.
Variable CONFIG_DRD_WINDOW_SECONDS : Z.

Definition is_err (a b : esp_err_t) : bool := bool_decide (a = b).
Definition not_err (a b : esp_err_t) : bool := negb (is_err a b).

Definition is_tooling_reset (reason : esp_reset_reason_t) : bool :=
  if CONFIG_DRD_SUPPRESS_TOOLING_RESETS then
    bool_decide (reason = ESP_RST_SW) ||
    bool_decide (reason = ESP_RST_USB) ||
    bool_decide (reason = ESP_RST_JTAG)
  else false.

(** [sha256_to_hex], lines 70-103.  A [char] is an [ascii], a null
    pointer is [None], [size_t] has 32 bits.  [sha] points to at least
    [len] bytes and [out] to at least [out_len] chars: a byte beyond the
    list reads as [0] and a write beyond the list is dropped here, where C
    leaves the behaviour undefined. *)
Definition hex : string := "0123456789abcdef".

Definition hex_at (i : Z) : Ascii.ascii :=
  match String.get (Z.to_nat i) hex with
  | Some c => c
  | None => Ascii.zero
  end.

(** The [for] loop with [n] iterations left, at index [i]. *)
Fixpoint hex_loop (n : nat) (i : Z) (sha : list Z) (out : list Ascii.ascii)
  : list Ascii.ascii :=
  match n with
  | O => out
  | S n' =>
      let v := nth (Z.to_nat i) sha 0 in
      let out :=
        <[Z.to_nat ((i * 2 + 0) mod 2 ^ 32) :=
            hex_at (Z.land (Z.shiftr v 4) 0x0F)]> out in
      let out :=
        <[Z.to_nat ((i * 2 + 1) mod 2 ^ 32) := hex_at (Z.land v 0x0F)]> out in
      hex_loop n' (i + 1) sha out
  end.

(** Returns the buffer [out] as the call leaves it. *)
Definition sha256_to_hex (sha : option (list Z)) (len : Z)
    (out : option (list Ascii.ascii)) (out_len : Z) : option (list Ascii.ascii) :=
  match out with
  | None => None
  | Some buf =>
      if out_len =? 0 then Some buf
      else
        match sha with
        | None => Some (<[0%nat := Ascii.zero]> buf)
        | Some bytes =>
            if len =? 0 then Some (<[0%nat := Ascii.zero]> buf)
            else
              let needed := (len * 2 + 1) mod 2 ^ 32 in
              if out_len <? needed then Some (<[0%nat := Ascii.zero]> buf)
              else
                let buf := hex_loop (Z.to_nat len) 0 bytes buf in
                Some (<[Z.to_nat ((len * 2) mod 2 ^ 32) := Ascii.zero]> buf)
        end
  end.

(** [out] is the caller's array; it is overwritten on success only. *)
Definition get_current_app_sha256 (out : list Z) : M (bool * list Z) :=
  app <- esp_app_get_description ;;
  match app with
  | None => ret (false, out)
  | Some sha => ret (true, overwrite out (take (Z.to_nat kSha256Len) sha))
  end.

Definition safe_nvs_init : M esp_err_t :=
  err <- nvs_flash_init ;;
  when (is_err err ESP_ERR_NVS_NO_FREE_PAGES ||
        is_err err ESP_ERR_NVS_NEW_VERSION_FOUND)
    (ESP_LOGW "nvs_flash_init reported no free pages or new version. Skipping erase. err=%s") ;;
  ret err.

Definition configure : M esp_err_t :=
  c <- gets configured_ ;;
  if c then ret ESP_OK
  else
    b <- gets backend_ ;;
    match b with
    | NVS =>
        err <- safe_nvs_init ;;
        when (not_err err ESP_OK)
          (ESP_LOGW "NVS init failed in configure(). err=%s") ;;
        ns <- gets nvs_namespace_ ;;
        r <- nvs_open ns 0 ;;
        let err := fst r in
        let h := snd r in
        if not_err err ESP_OK then
          ESP_LOGW "nvs_open('%s') failed. err=%s" ;;
          modify (set_nvs_ready_ false) ;;
          modify (set_nvs_handle_ 0) ;;
          modify (set_configured_ true) ;;
          ret err
        else
          modify (set_nvs_ready_ true) ;;
          modify (set_nvs_handle_ (h mod 2 ^ 32)) ;;
          ESP_LOGI "DRD using NVS backend. namespace='%s'" ;;
          modify (set_configured_ true) ;;
          ret err
    | RTC =>
        ESP_LOGI "DRD using RTC backend" ;;
        modify (set_configured_ true) ;;
        ret ESP_OK
    end.

Definition cancel_disarm : M unit :=
  t <- gets disarm_timer_ ;;
  match t with
  | None => ret tt
  | Some _ =>
      err <- esp_timer_stop t ;;
      when (not_err err ESP_OK && not_err err ESP_ERR_INVALID_STATE)
        (ESP_LOGW "esp_timer_stop(DRD disarm) failed. err=%s") ;;
      err <- esp_timer_delete t ;;
      when (not_err err ESP_OK)
        (ESP_LOGW "esp_timer_delete(DRD disarm) failed. err=%s") ;;
      modify (set_disarm_timer_ None)
  end.

Definition schedule_disarm (window_s : Z) : M unit :=
  cancel_disarm ;;
  t0 <- gets disarm_timer_ ;;
  r <- esp_timer_create DisarmCb "drd_disarm" t0 ;;
  modify (set_disarm_timer_ (snd r)) ;;
  if not_err (fst r) ESP_OK then
    ESP_LOGW "esp_timer_create(DRD disarm) failed. err=%s" ;;
    modify (set_disarm_timer_ None)
  else
    let kUsPerSec := 1000000 in
    let timeout_us := (window_s * kUsPerSec) mod 2 ^ 64 in
    t <- gets disarm_timer_ ;;
    err <- esp_timer_start_once t timeout_us ;;
    if not_err err ESP_OK then
      ESP_LOGW "esp_timer_start_once(DRD disarm) failed. err=%s" ;;
      _ <- esp_timer_delete t ;;
      modify (set_disarm_timer_ None)
    else ret tt.

Definition cancel_arm : M unit :=
  t <- gets arm_timer_ ;;
  match t with
  | None => ret tt
  | Some _ =>
      err <- esp_timer_stop t ;;
      when (not_err err ESP_OK && not_err err ESP_ERR_INVALID_STATE)
        (ESP_LOGW "esp_timer_stop(DRD arm) failed. err=%s") ;;
      err <- esp_timer_delete t ;;
      when (not_err err ESP_OK)
        (ESP_LOGW "esp_timer_delete(DRD arm) failed. err=%s") ;;
      modify (set_arm_timer_ None) ;;
      modify (set_arm_window_s_ 0)
  end.

(** The callback is registered with [arg = this] only, so [self] is the
    detector of the world. *)
Definition arm_timer_cb : M unit :=
  modify (set_arm_timer_ None) ;;
  b <- gets backend_ ;;
  ready <- gets nvs_ready_ ;;
  if bool_decide (b ≠ NVS) || negb ready then
    ESP_LOGW "DRD arm timer fired but NVS backend is not ready"
  else
    h <- gets nvs_handle_ ;;
    ESP_LOGI "DRD arm delay elapsed. Marking firmware clean and arming. window_s=%PRIu32" ;;
    err <- nvs_set_u8 h kKeyDirty 0 ;;
    if not_err err ESP_OK then
      ESP_LOGW "nvs_set_u8(fw_dirty=0) failed in arm callback. err=%s"
    else
      err <- nvs_set_u32 h kKeyMagic kDrdMagic ;;
      if not_err err ESP_OK then
        ESP_LOGW "nvs_set_u32(magic) failed in arm callback. err=%s"
      else
        err <- nvs_commit h ;;
        if not_err err ESP_OK then
          ESP_LOGW "nvs_commit() failed in arm callback. err=%s"
        else
          window <- gets arm_window_s_ ;;
          schedule_disarm window.

(** [schedule_arm], lines 706-748.  [delay_s] is a [uint32_t]: the
    configured value is narrowed to 32 bits before the test and before the
    product, which is taken in 64 bits and so cannot wrap. *)
Definition schedule_arm (window_s : Z) : M unit :=
  cancel_arm ;;
  modify (set_arm_window_s_ window_s) ;;
  let delay_s := CONFIG_DRD_ARM_DELAY_SECONDS mod 2 ^ 32 in
  if delay_s =? 0 then arm_timer_cb
  else
    let delay_us := delay_s * 1000000 in
    t0 <- gets arm_timer_ ;;
    r <- esp_timer_create ArmCb "drd_arm" t0 ;;
    modify (set_arm_timer_ (snd r)) ;;
    if not_err (fst r) ESP_OK then
      ESP_LOGW "esp_timer_create(DRD arm delay) failed. err=%s" ;;
      modify (set_arm_timer_ None)
    else
      t <- gets arm_timer_ ;;
      err <- esp_timer_start_once t delay_us ;;
      if not_err err ESP_OK then
        ESP_LOGW "esp_timer_start_once(DRD arm delay) failed. err=%s" ;;
        _ <- esp_timer_delete t ;;
        modify (set_arm_timer_ None)
      else ret tt.

(** The range-for over [keys] in [clear_flag]. *)
Fixpoint erase_keys (h : Z) (keys : list string) : M unit :=
  match keys with
  | [] => ret tt
  | key :: rest =>
      err <- nvs_erase_key h key ;;
      when (not_err err ESP_OK && not_err err ESP_ERR_NVS_NOT_FOUND)
        (ESP_LOGW "nvs_erase_key('%s') failed. err=%s") ;;
      erase_keys h rest
  end.

Definition clear_flag_keys : list string :=
  [kKeyMagic; kKeyBoot; kKeyDirty; kKeyFirstBoot; kKeyAppSha256; kKeyAppHash].

Definition clear_flag : M unit :=
  b <- gets backend_ ;;
  if bool_decide (b = RTC) then
    rtc_write 0 ;;
    ESP_LOGI "RTC double-reset flag cleared"
  else
    ready <- gets nvs_ready_ ;;
    if negb ready then
      ESP_LOGW "clear_flag called but NVS is not ready"
    else
      h <- gets nvs_handle_ ;;
      erase_keys h clear_flag_keys ;;
      err_commit <- nvs_commit h ;;
      when (not_err err_commit ESP_OK)
        (ESP_LOGW "nvs_commit() in clear_flag failed. err=%s") ;;
      ESP_LOGI "NVS double-reset flag cleared".

Definition disarm_timer_cb : M unit :=
  modify (set_disarm_timer_ None) ;;
  b <- gets backend_ ;;
  if bool_decide (b = RTC) then clear_flag
  else
    ready <- gets nvs_ready_ ;;
    if negb ready then
      ESP_LOGW "DRD disarm timer fired but NVS backend is not ready"
    else
      h <- gets nvs_handle_ ;;
      err <- nvs_erase_key h kKeyMagic ;;
      when (not_err err ESP_OK && not_err err ESP_ERR_NVS_NOT_FOUND)
        (ESP_LOGW "nvs_erase_key(magic) failed in disarm callback. err=%s") ;;
      err_commit <- nvs_commit h ;;
      when (not_err err_commit ESP_OK)
        (ESP_LOGW "nvs_commit() failed in disarm callback. err=%s") ;;
      ESP_LOGI "DRD disarm window elapsed. DRD magic cleared".

(** [~DoubleResetDetector]. *)
Definition destroy : M unit :=
  cancel_arm ;;
  cancel_disarm ;;
  ready <- gets nvs_ready_ ;;
  (if ready then h <- gets nvs_handle_ ;; nvs_close h else ret tt) ;;
  modify (set_nvs_ready_ false) ;;
  modify (set_nvs_handle_ 0).

(** *** check_and_clear(window_s), NVS backend: reading the state *)

(** Lines 324-331: the identity of the running image. *)
Definition read_current_identity : M (list Z) :=
  r <- get_current_app_sha256 (replicate (Z.to_nat kSha256Len) 0) ;;
  when (negb (fst r))
    (ESP_LOGW "Failed to read app ELF SHA-256. Treating firmware as dirty for DRD" ;;
     modify (set_firmware_id_dirty_ true)) ;;
  ret (snd r).

(** Lines 333-354: [(stored_sha, stored_sha_valid)]. *)
Definition read_stored_identity (h : Z) : M (list Z * bool) :=
  r <- nvs_get_blob h kKeyAppSha256
         (replicate (Z.to_nat kSha256Len) 0, kSha256Len) ;;
  let err_sha := fst r in
  let stored_sha := fst (snd r) in
  let stored_len := snd (snd r) in
  if is_err err_sha ESP_OK && (stored_len =? kSha256Len) then
    ret (stored_sha, true)
  else if is_err err_sha ESP_ERR_NVS_NOT_FOUND then
    ret (stored_sha, false)
  else
    ESP_LOGW "nvs_get_blob(app_sha256) failed. err=%s" ;;
    ret (stored_sha, false).

(** Lines 360-374: [first_boot_seen]. *)
Definition read_first_boot (h : Z) : M bool :=
  r <- nvs_get_u8 h kKeyFirstBoot 0 ;;
  let err_fb_read := fst r in
  let first_boot_raw := snd r in
  if is_err err_fb_read ESP_OK then ret (negb (first_boot_raw =? 0))
  else if not_err err_fb_read ESP_ERR_NVS_NOT_FOUND then
    ESP_LOGW "nvs_get_u8(first_boot) failed. err=%s" ;;
    ret false
  else ret false.

(** Lines 376-405: [firmware_changed]; [memcmp] over the two
    32-byte arrays is list disequality. *)
Definition identity_changed (stored_sha_valid : bool)
    (stored_sha current_sha : list Z) (legacy_present : bool) : M bool :=
  if negb stored_sha_valid then
    (if legacy_present then
       ESP_LOGI "No stored app SHA-256 but legacy app_hash exists. Migrating DRD identity"
     else
       ESP_LOGI "No stored firmware identity. Treating as first boot for this image") ;;
    ret true
  else if bool_decide (stored_sha ≠ current_sha) then
    ESP_LOGI "Firmware identity changed for DRD" ;;
    ret true
  else
    ESP_LOGI "Firmware identity unchanged for DRD" ;;
    ret false.

(** Lines 430-496, the body of [if (firmware_changed)]; returns
    [first_boot_seen]. *)
Definition reset_identity (h : Z) (current_sha : list Z)
    (legacy_present first_boot_seen : bool) : M bool :=
  err <- nvs_erase_key h kKeyMagic ;;
  when (not_err err ESP_OK && not_err err ESP_ERR_NVS_NOT_FOUND)
    (ESP_LOGW "nvs_erase_key(magic) after firmware change failed. err=%s") ;;
  err <- nvs_set_blob h kKeyAppSha256 (take (Z.to_nat kSha256Len) current_sha) ;;
  when (not_err err ESP_OK)
    (ESP_LOGW "nvs_set_blob(app_sha256) failed. err=%s") ;;
  (if legacy_present then
     err <- nvs_erase_key h kKeyAppHash ;;
     when (not_err err ESP_OK && not_err err ESP_ERR_NVS_NOT_FOUND)
       (ESP_LOGW "nvs_erase_key(app_hash) during migration failed. err=%s")
   else ret tt) ;;
  err_dirty <- nvs_set_u8 h kKeyDirty 1 ;;
  when (not_err err_dirty ESP_OK)
    (ESP_LOGW "nvs_set_u8(fw_dirty=1) failed. err=%s") ;;
  err_fb <- nvs_set_u8 h kKeyFirstBoot 1 ;;
  first_boot_seen <-
    (if not_err err_fb ESP_OK then
       ESP_LOGW "nvs_set_u8(first_boot=1) failed. err=%s" ;;
       ret first_boot_seen
     else ret true) ;;
  err <- nvs_commit h ;;
  when (not_err err ESP_OK)
    (ESP_LOGW "nvs_commit() after identity update failed. err=%s") ;;
  ESP_LOGI "DRD state reset due to firmware identity change. Firmware marked dirty for DRD" ;;
  modify (set_firmware_id_dirty_ true) ;;
  ret first_boot_seen.

(** Lines 324-496: the firmware-identity tracking; returns
    [firmware_changed]. *)
Definition track_identity (h : Z) : M bool :=
  current_sha <- read_current_identity ;;
  si <- read_stored_identity h ;;
  let stored_sha := fst si in
  let stored_sha_valid := snd si in
  rl <- nvs_get_u32 h kKeyAppHash 0 ;;
  let legacy_present := is_err (fst rl) ESP_OK in
  first_boot_seen <- read_first_boot h ;;
  firmware_changed <-
    identity_changed stored_sha_valid stored_sha current_sha legacy_present ;;
  (if stored_sha_valid then ESP_LOGI "DRD stored app SHA-256: %s"
   else ESP_LOGI "DRD stored app SHA-256: <none>") ;;
  ESP_LOGI "DRD current app SHA-256: %s" ;;
  _ <- (if firmware_changed then
          reset_identity h current_sha legacy_present first_boot_seen
        else ret first_boot_seen) ;;
  ret firmware_changed.

(** Lines 498-521: [firmware_dirty]. *)
Definition read_firmware_dirty (h : Z) (firmware_changed : bool) : M bool :=
  r <- nvs_get_u8 h kKeyDirty 0 ;;
  let err_fd := fst r in
  let fw_dirty_val := snd r in
  firmware_dirty <-
    (if is_err err_fd ESP_OK then ret (negb (fw_dirty_val =? 0))
     else if is_err err_fd ESP_ERR_NVS_NOT_FOUND then
       d <- gets firmware_id_dirty_ ;;
       ret (firmware_changed || d)
     else
       ESP_LOGW "nvs_get_u8(fw_dirty) failed. Assuming dirty. err=%s" ;;
       ret true) ;;
  ESP_LOGI "DRD status. firmware_dirty=%s, first_boot_seen=%s" ;;
  ret firmware_dirty.

(** Lines 523-531: [stored_magic], still [0] when the read fails. *)
Definition read_stored_magic (h : Z) : M Z :=
  r <- nvs_get_u32 h kKeyMagic 0 ;;
  let err_magic := fst r in
  when (not_err err_magic ESP_OK && not_err err_magic ESP_ERR_NVS_NOT_FOUND)
    (ESP_LOGW "nvs_get_u32(magic) failed. err=%s") ;;
  ret (snd r).

(** *** check_and_clear(window_s), NVS backend: the branches *)

(** Lines 535-557, the detection branch. *)
Definition nvs_detected (h : Z) : M bool :=
  ESP_LOGI "Double reset detected using NVS backend" ;;
  cancel_disarm ;;
  err <- nvs_erase_key h kKeyMagic ;;
  when (not_err err ESP_OK && not_err err ESP_ERR_NVS_NOT_FOUND)
    (ESP_LOGW "nvs_erase_key(magic) failed. err=%s") ;;
  err <- nvs_commit h ;;
  when (not_err err ESP_OK)
    (ESP_LOGW "nvs_commit() after erase failed. err=%s") ;;
  modify (set_cached_result_ true) ;;
  ret true.

(** Lines 571-595, the tooling-reset branch. *)
Definition nvs_tooling_reset (h : Z) (window_s : Z) : M unit :=
  ESP_LOGI "Tooling reset detected. Clearing DRD flag and arming after delay. delay_s=%u, window_s=%PRIu32" ;;
  err <- nvs_erase_key h kKeyMagic ;;
  when (not_err err ESP_OK && not_err err ESP_ERR_NVS_NOT_FOUND)
    (ESP_LOGW "nvs_erase_key(magic) during tooling reset failed. err=%s") ;;
  err <- nvs_commit h ;;
  when (not_err err ESP_OK)
    (ESP_LOGW "nvs_commit() after tooling reset clear failed. err=%s") ;;
  schedule_arm window_s.

Definition MSG_FIRMWARE_CLEAN : string :=
  "Firmware clean. Arming DRD window. window_s=%PRIu32".

(** Lines 599-623, the normal (arming) branch. *)
Definition nvs_arm_window (h : Z) (window_s : Z) : M unit :=
  ESP_LOGI MSG_FIRMWARE_CLEAN ;;
  err <- nvs_set_u32 h kKeyMagic kDrdMagic ;;
  if not_err err ESP_OK then
    ESP_LOGW "nvs_set_u32(magic) failed. err=%s"
  else
    err <- nvs_commit h ;;
    if not_err err ESP_OK then
      ESP_LOGW "nvs_commit() after arming failed. err=%s"
    else schedule_disarm window_s.

(** Lines 324-531: everything the NVS decision reads, with the identity
    update on the way; returns [(firmware_dirty, stored_magic)]. *)
Definition read_nvs_state (h : Z) : M (bool * Z) :=
  firmware_changed <- track_identity h ;;
  firmware_dirty <- read_firmware_dirty h firmware_changed ;;
  stored_magic <- read_stored_magic h ;;
  ret (firmware_dirty, stored_magic).

(** Lines 322-627. *)
Definition check_and_clear_nvs (tooling_reset : bool) (window_s : Z) : M bool :=
  h <- gets nvs_handle_ ;;
  s <- read_nvs_state h ;;
  let firmware_dirty := fst s in
  let stored_magic := snd s in
  if negb tooling_reset && negb firmware_dirty && (stored_magic =? kDrdMagic)
  then nvs_detected h
  else
    (if firmware_dirty then
       ESP_LOGI "Firmware dirty for DRD. Arming after delay. delay_s=%u, window_s=%PRIu32" ;;
       schedule_arm window_s
     else if tooling_reset then nvs_tooling_reset h window_s
     else nvs_arm_window h window_s) ;;
    modify (set_cached_result_ false) ;;
    ret false.

(** Lines 285-311, the RTC backend. *)
Definition check_and_clear_rtc (tooling_reset : bool) (window_s : Z) : M bool :=
  if tooling_reset then
    rtc_write 0 ;;
    modify (set_cached_result_ false) ;;
    ret false
  else
    magic <- rtc_read ;;
    double_reset <-
      (if magic =? kDrdMagic then
         ESP_LOGI "Double reset detected using RTC backend" ;;
         rtc_write 0 ;;
         ret true
       else
         ESP_LOGI "Arming RTC double-reset window. window_s=%PRIu32" ;;
         rtc_write kDrdMagic ;;
         schedule_disarm window_s ;;
         ret false) ;;
    modify (set_cached_result_ double_reset) ;;
    ret double_reset.

(** Lines 256-281: classify the reset reason and make sure the detector
    is configured; returns [tooling_reset]. *)
Definition classify_and_configure : M bool :=
  reason <- esp_reset_reason ;;
  let tooling_reset := is_tooling_reset reason in
  ESP_LOGI "Reset reason: %d (%s)" ;;
  when tooling_reset
    (ESP_LOGI "Reset reason indicates tooling activity. DRD arming will be delayed") ;;
  c <- gets configured_ ;;
  (if negb c then
     err <- configure ;;
     b <- gets backend_ ;;
     when (not_err err ESP_OK && bool_decide (b = NVS))
       (ESP_LOGW "DRD configure failed with NVS backend. Falling back to RTC behavior" ;;
        modify (set_backend_ RTC))
   else ret tt) ;;
  ret tooling_reset.

(** Lines 256-627: the decision, run once [evaluated_] is set. *)
Definition evaluate (window_s : Z) : M bool :=
  tooling_reset <- classify_and_configure ;;
  b <- gets backend_ ;;
  if bool_decide (b = RTC) then check_and_clear_rtc tooling_reset window_s
  else
    ready <- gets nvs_ready_ ;;
    if negb ready then
      ESP_LOGW "NVS backend selected but not ready. Skipping DRD detection" ;;
      modify (set_cached_result_ false) ;;
      ret false
    else check_and_clear_nvs tooling_reset window_s.

(** [check_and_clear(uint32_t window_s)], lines 246-628. *)
Definition check_and_clear (window_s : Z) : M bool :=
  ev <- gets evaluated_ ;;
  if ev then gets cached_result_
  else
    modify (set_evaluated_ true) ;;
    modify (set_cached_result_ false) ;;
    evaluate window_s.

(** [check_and_clear()], lines 241-244; the configured window is converted
    to the [uint32_t] parameter. *)
Definition check_and_clear_default : M bool :=
  check_and_clear (CONFIG_DRD_WINDOW_SECONDS mod 2 ^ 32).

(** ** check_and_clear, step by step

    A run of [check_and_clear] yields its result, the final world and the
    trace; the worlds in between are not part of it.  To speak of the
    moments at which a second call can enter while the first is in
    progress, the same code is written once more as a tree of steps.  A
    step is one read or one write of a member of the detector, one log
    line, one access to the RTC cell or one platform call; [denote] gives
    the run of a tree, and the run of each tree below is the run of the
    function of the same name above. *)

Inductive Steps : Type -> Type :=
| SRet {A} (a : A) : Steps A
| SBind {A B} (m : Steps A) (k : A -> Steps B) : Steps B
| SGets {A} (f : Detector -> A) : Steps A
| SModify (f : Detector -> Detector) : Steps unit
| SEmit (ev : Event) : Steps unit
| SCall {A} (op : Platform -> A * Platform) (ev : A -> Event) : Steps A
| SRtcRead : Steps Z
| SRtcWrite (v : Z) : Steps unit.

Declare Scope steps_scope.
Delimit Scope steps_scope with steps.
Bind Scope steps_scope with Steps.

Notation "x <- m ;; k" := (SBind m (fun x => k))
  (at level 100, m at next level, right associativity) : steps_scope.
Notation "m ;; k" := (SBind m (fun _ => k))
  (at level 100, right associativity) : steps_scope.

Definition swhen (b : bool) (m : Steps unit) : Steps unit :=
  if b then m else SRet tt.

(** The run of a tree of steps. *)
Fixpoint denote {A} (p : Steps A) : M A :=
  match p with
  | SRet a => ret a
  | SBind m k => bind (denote m) (fun a => denote (k a))
  | SGets f => gets f
  | SModify f => modify f
  | SEmit ev => emit ev
  | SCall op ev => call op ev
  | SRtcRead => rtc_read
  | SRtcWrite v => rtc_write v
  end.

(** The worlds in which the steps of [p] start, in the run of [p] from
    [w], in the order in which they are reached. *)
Fixpoint points {A} (p : Steps A) (w : World) : list World :=
  match p with
  | SRet _ => []
  | SBind m k =>
      points m w ++ points (k (result (denote m w))) (world (denote m w))
  | _ => [w]
  end.

(** The run of [p] in which a call [inner] of the detector enters before
    every step; the values these calls return are collected beside the
    result of [p]. *)
Fixpoint reentered {A} (inner : M bool) (p : Steps A) : M (A * list bool) :=
  match p with
  | SRet a => ret (a, [])
  | SBind m k =>
      bind (reentered inner m) (fun r =>
      bind (reentered inner (k (fst r))) (fun r' =>
      ret (fst r', snd r ++ snd r')))
  | s => bind inner (fun b => bind (denote s) (fun a => ret (a, [b])))
  end.

(** Every step of [p] maintains [I]. *)
Fixpoint stable (I : World -> Prop) {A} (p : Steps A) : Prop :=
  match p with
  | SRet _ => True
  | SBind m k => stable I m /\ forall a, stable I (k a)
  | s => forall w, I w -> I (world (denote s w))
  end.

(** The platform calls and the log lines, as steps. *)
Definition ESP_LOGI_step (fmt : string) : Steps unit := SEmit (EvLog LOGI fmt).
Definition ESP_LOGW_step (fmt : string) : Steps unit := SEmit (EvLog LOGW fmt).
Definition esp_reset_reason_step : Steps esp_reset_reason_t :=
  SCall (fun p => (reset_reason p, p)) EvResetReason.
Definition esp_app_get_description_step : Steps (option (list Z)) :=
  SCall (fun p => (app_elf_sha256 p, p))
        (fun a => EvAppDescription (bool_decide (a ≠ None))).
Definition nvs_flash_init_step : Steps esp_err_t :=
  SCall nvs_flash_init_op EvNvsFlashInit.
Definition nvs_open_step (ns : string) (out : Z) : Steps (esp_err_t * Z) :=
  SCall (nvs_open_op out) (fun a => EvNvsOpen ns (fst a)).
Definition nvs_get_u8_step (h : Z) (key : string) (out : Z) : Steps (esp_err_t * Z) :=
  SCall (nvs_get_op sel_u8 h key out) (fun a => EvNvsGet key (fst a)).
Definition nvs_get_u32_step (h : Z) (key : string) (out : Z) : Steps (esp_err_t * Z) :=
  SCall (nvs_get_op sel_u32 h key out) (fun a => EvNvsGet key (fst a)).
Definition nvs_get_blob_step (h : Z) (key : string) (out : list Z * Z)
  : Steps (esp_err_t * (list Z * Z)) :=
  SCall (nvs_get_op sel_blob h key out) (fun a => EvNvsGet key (fst a)).
Definition nvs_set_u8_step (h : Z) (key : string) (v : Z) : Steps esp_err_t :=
  SCall (nvs_set_op h key (U8 v)) (EvNvsSet key (U8 v)).
Definition nvs_set_u32_step (h : Z) (key : string) (v : Z) : Steps esp_err_t :=
  SCall (nvs_set_op h key (U32 v)) (EvNvsSet key (U32 v)).
Definition nvs_set_blob_step (h : Z) (key : string) (bs : list Z) : Steps esp_err_t :=
  SCall (nvs_set_op h key (Blob bs)) (EvNvsSet key (Blob bs)).
Definition nvs_erase_key_step (h : Z) (key : string) : Steps esp_err_t :=
  SCall (nvs_erase_key_op h key) (EvNvsEraseKey key).
Definition nvs_commit_step (h : Z) : Steps esp_err_t :=
  SCall (nvs_commit_op h) EvNvsCommit.
Definition esp_timer_create_step (cb : timer_cb) (name : string) (out : option nat)
  : Steps (esp_err_t * option nat) :=
  SCall (esp_timer_create_op cb name out) (fun a => EvTimerCreate cb (fst a)).
Definition esp_timer_start_once_step (h : option nat) (timeout_us : Z)
  : Steps esp_err_t :=
  SCall (esp_timer_start_once_op h timeout_us) (EvTimerStartOnce h timeout_us).
Definition esp_timer_stop_step (h : option nat) : Steps esp_err_t :=
  SCall (esp_timer_stop_op h) (EvTimerStop h).
Definition esp_timer_delete_step (h : option nat) : Steps esp_err_t :=
  SCall (esp_timer_delete_op h) (EvTimerDelete h).

Open Scope steps_scope.

(** [get_current_app_sha256], lines 105-115. *)
Definition get_current_app_sha256_steps (out : list Z) : Steps (bool * list Z) :=
  app <- esp_app_get_description_step ;;
  match app with
  | None => SRet (false, out)
  | Some sha => SRet (true, overwrite out (take (Z.to_nat kSha256Len) sha))
  end.

(** [safe_nvs_init], lines 117-131. *)
Definition safe_nvs_init_steps : Steps esp_err_t :=
  err <- nvs_flash_init_step ;;
  swhen (is_err err ESP_ERR_NVS_NO_FREE_PAGES ||
        is_err err ESP_ERR_NVS_NEW_VERSION_FOUND)
    (ESP_LOGW_step "nvs_flash_init reported no free pages or new version. Skipping erase. err=%s") ;;
  SRet err.

(** [configure], lines 192-239. *)
Definition configure_steps : Steps esp_err_t :=
  c <- SGets configured_ ;;
  if c then SRet ESP_OK
  else
    b <- SGets backend_ ;;
    match b with
    | NVS =>
        err <- safe_nvs_init_steps ;;
        swhen (not_err err ESP_OK)
          (ESP_LOGW_step "NVS init failed in configure(). err=%s") ;;
        ns <- SGets nvs_namespace_ ;;
        r <- nvs_open_step ns 0 ;;
        let err := fst r in
        let h := snd r in
        if not_err err ESP_OK then
          ESP_LOGW_step "nvs_open('%s') failed. err=%s" ;;
          SModify (set_nvs_ready_ false) ;;
          SModify (set_nvs_handle_ 0) ;;
          SModify (set_configured_ true) ;;
          SRet err
        else
          SModify (set_nvs_ready_ true) ;;
          SModify (set_nvs_handle_ (h mod 2 ^ 32)) ;;
          ESP_LOGI_step "DRD using NVS backend. namespace='%s'" ;;
          SModify (set_configured_ true) ;;
          SRet err
    | RTC =>
        ESP_LOGI_step "DRD using RTC backend" ;;
        SModify (set_configured_ true) ;;
        SRet ESP_OK
    end.

(** [cancel_disarm], lines 804-828. *)
Definition cancel_disarm_steps : Steps unit :=
  t <- SGets disarm_timer_ ;;
  match t with
  | None => SRet tt
  | Some _ =>
      err <- esp_timer_stop_step t ;;
      swhen (not_err err ESP_OK && not_err err ESP_ERR_INVALID_STATE)
        (ESP_LOGW_step "esp_timer_stop(DRD disarm) failed. err=%s") ;;
      err <- esp_timer_delete_step t ;;
      swhen (not_err err ESP_OK)
        (ESP_LOGW_step "esp_timer_delete(DRD disarm) failed. err=%s") ;;
      SModify (set_disarm_timer_ None)
  end.

(** [schedule_disarm], lines 830-864. *)
Definition schedule_disarm_steps (window_s : Z) : Steps unit :=
  cancel_disarm_steps ;;
  t0 <- SGets disarm_timer_ ;;
  r <- esp_timer_create_step DisarmCb "drd_disarm" t0 ;;
  SModify (set_disarm_timer_ (snd r)) ;;
  if not_err (fst r) ESP_OK then
    ESP_LOGW_step "esp_timer_create(DRD disarm) failed. err=%s" ;;
    SModify (set_disarm_timer_ None)
  else
    let kUsPerSec := 1000000 in
    let timeout_us := (window_s * kUsPerSec) mod 2 ^ 64 in
    t <- SGets disarm_timer_ ;;
    err <- esp_timer_start_once_step t timeout_us ;;
    if not_err err ESP_OK then
      ESP_LOGW_step "esp_timer_start_once(DRD disarm) failed. err=%s" ;;
      _ <- esp_timer_delete_step t ;;
      SModify (set_disarm_timer_ None)
    else SRet tt.

(** [cancel_arm], lines 679-704. *)
Definition cancel_arm_steps : Steps unit :=
  t <- SGets arm_timer_ ;;
  match t with
  | None => SRet tt
  | Some _ =>
      err <- esp_timer_stop_step t ;;
      swhen (not_err err ESP_OK && not_err err ESP_ERR_INVALID_STATE)
        (ESP_LOGW_step "esp_timer_stop(DRD arm) failed. err=%s") ;;
      err <- esp_timer_delete_step t ;;
      swhen (not_err err ESP_OK)
        (ESP_LOGW_step "esp_timer_delete(DRD arm) failed. err=%s") ;;
      SModify (set_arm_timer_ None) ;;
      SModify (set_arm_window_s_ 0)
  end.

(** [arm_timer_cb], lines 750-802. *)
Definition arm_timer_cb_steps : Steps unit :=
  SModify (set_arm_timer_ None) ;;
  b <- SGets backend_ ;;
  ready <- SGets nvs_ready_ ;;
  if bool_decide (b ≠ NVS) || negb ready then
    ESP_LOGW_step "DRD arm timer fired but NVS backend is not ready"
  else
    h <- SGets nvs_handle_ ;;
    ESP_LOGI_step "DRD arm delay elapsed. Marking firmware clean and arming. window_s=%PRIu32" ;;
    err <- nvs_set_u8_step h kKeyDirty 0 ;;
    if not_err err ESP_OK then
      ESP_LOGW_step "nvs_set_u8(fw_dirty=0) failed in arm callback. err=%s"
    else
      err <- nvs_set_u32_step h kKeyMagic kDrdMagic ;;
      if not_err err ESP_OK then
        ESP_LOGW_step "nvs_set_u32(magic) failed in arm callback. err=%s"
      else
        err <- nvs_commit_step h ;;
        if not_err err ESP_OK then
          ESP_LOGW_step "nvs_commit() failed in arm callback. err=%s"
        else
          window <- SGets arm_window_s_ ;;
          schedule_disarm_steps window.

(** [schedule_arm], lines 706-748. *)
Definition schedule_arm_steps (window_s : Z) : Steps unit :=
  cancel_arm_steps ;;
  SModify (set_arm_window_s_ window_s) ;;
  let delay_s := CONFIG_DRD_ARM_DELAY_SECONDS mod 2 ^ 32 in
  if delay_s =? 0 then arm_timer_cb_steps
  else
    let delay_us := delay_s * 1000000 in
    t0 <- SGets arm_timer_ ;;
    r <- esp_timer_create_step ArmCb "drd_arm" t0 ;;
    SModify (set_arm_timer_ (snd r)) ;;
    if not_err (fst r) ESP_OK then
      ESP_LOGW_step "esp_timer_create(DRD arm delay) failed. err=%s" ;;
      SModify (set_arm_timer_ None)
    else
      t <- SGets arm_timer_ ;;
      err <- esp_timer_start_once_step t delay_us ;;
      if not_err err ESP_OK then
        ESP_LOGW_step "esp_timer_start_once(DRD arm delay) failed. err=%s" ;;
        _ <- esp_timer_delete_step t ;;
        SModify (set_arm_timer_ None)
      else SRet tt.

(** [read_current_identity], lines 324-331. *)
Definition read_current_identity_steps : Steps (list Z) :=
  r <- get_current_app_sha256_steps (replicate (Z.to_nat kSha256Len) 0) ;;
  swhen (negb (fst r))
    (ESP_LOGW_step "Failed to read app ELF SHA-256. Treating firmware as dirty for DRD" ;;
     SModify (set_firmware_id_dirty_ true)) ;;
  SRet (snd r).

(** [read_stored_identity], lines 333-354. *)
Definition read_stored_identity_steps (h : Z) : Steps (list Z * bool) :=
  r <- nvs_get_blob_step h kKeyAppSha256
         (replicate (Z.to_nat kSha256Len) 0, kSha256Len) ;;
  let err_sha := fst r in
  let stored_sha := fst (snd r) in
  let stored_len := snd (snd r) in
  if is_err err_sha ESP_OK && (stored_len =? kSha256Len) then
    SRet (stored_sha, true)
  else if is_err err_sha ESP_ERR_NVS_NOT_FOUND then
    SRet (stored_sha, false)
  else
    ESP_LOGW_step "nvs_get_blob(app_sha256) failed. err=%s" ;;
    SRet (stored_sha, false).

(** [read_first_boot], lines 360-374. *)
Definition read_first_boot_steps (h : Z) : Steps bool :=
  r <- nvs_get_u8_step h kKeyFirstBoot 0 ;;
  let err_fb_read := fst r in
  let first_boot_raw := snd r in
  if is_err err_fb_read ESP_OK then SRet (negb (first_boot_raw =? 0))
  else if not_err err_fb_read ESP_ERR_NVS_NOT_FOUND then
    ESP_LOGW_step "nvs_get_u8(first_boot) failed. err=%s" ;;
    SRet false
  else SRet false.

(** [identity_changed], lines 376-405. *)
Definition identity_changed_steps (stored_sha_valid : bool)
    (stored_sha current_sha : list Z) (legacy_present : bool) : Steps bool :=
  if negb stored_sha_valid then
    (if legacy_present then
       ESP_LOGI_step "No stored app SHA-256 but legacy app_hash exists. Migrating DRD identity"
     else
       ESP_LOGI_step "No stored firmware identity. Treating as first boot for this image") ;;
    SRet true
  else if bool_decide (stored_sha ≠ current_sha) then
    ESP_LOGI_step "Firmware identity changed for DRD" ;;
    SRet true
  else
    ESP_LOGI_step "Firmware identity unchanged for DRD" ;;
    SRet false.

(** [reset_identity], lines 430-496. *)
Definition reset_identity_steps (h : Z) (current_sha : list Z)
    (legacy_present first_boot_seen : bool) : Steps bool :=
  err <- nvs_erase_key_step h kKeyMagic ;;
  swhen (not_err err ESP_OK && not_err err ESP_ERR_NVS_NOT_FOUND)
    (ESP_LOGW_step "nvs_erase_key(magic) after firmware change failed. err=%s") ;;
  err <- nvs_set_blob_step h kKeyAppSha256 (take (Z.to_nat kSha256Len) current_sha) ;;
  swhen (not_err err ESP_OK)
    (ESP_LOGW_step "nvs_set_blob(app_sha256) failed. err=%s") ;;
  (if legacy_present then
     err <- nvs_erase_key_step h kKeyAppHash ;;
     swhen (not_err err ESP_OK && not_err err ESP_ERR_NVS_NOT_FOUND)
       (ESP_LOGW_step "nvs_erase_key(app_hash) during migration failed. err=%s")
   else SRet tt) ;;
  err_dirty <- nvs_set_u8_step h kKeyDirty 1 ;;
  swhen (not_err err_dirty ESP_OK)
    (ESP_LOGW_step "nvs_set_u8(fw_dirty=1) failed. err=%s") ;;
  err_fb <- nvs_set_u8_step h kKeyFirstBoot 1 ;;
  first_boot_seen <-
    (if not_err err_fb ESP_OK then
       ESP_LOGW_step "nvs_set_u8(first_boot=1) failed. err=%s" ;;
       SRet first_boot_seen
     else SRet true) ;;
  err <- nvs_commit_step h ;;
  swhen (not_err err ESP_OK)
    (ESP_LOGW_step "nvs_commit() after identity update failed. err=%s") ;;
  ESP_LOGI_step "DRD state reset due to firmware identity change. Firmware marked dirty for DRD" ;;
  SModify (set_firmware_id_dirty_ true) ;;
  SRet first_boot_seen.

(** [track_identity], lines 324-496. *)
Definition track_identity_steps (h : Z) : Steps bool :=
  current_sha <- read_current_identity_steps ;;
  si <- read_stored_identity_steps h ;;
  let stored_sha := fst si in
  let stored_sha_valid := snd si in
  rl <- nvs_get_u32_step h kKeyAppHash 0 ;;
  let legacy_present := is_err (fst rl) ESP_OK in
  first_boot_seen <- read_first_boot_steps h ;;
  firmware_changed <-
    identity_changed_steps stored_sha_valid stored_sha current_sha legacy_present ;;
  (if stored_sha_valid then ESP_LOGI_step "DRD stored app SHA-256: %s"
   else ESP_LOGI_step "DRD stored app SHA-256: <none>") ;;
  ESP_LOGI_step "DRD current app SHA-256: %s" ;;
  _ <- (if firmware_changed then
          reset_identity_steps h current_sha legacy_present first_boot_seen
        else SRet first_boot_seen) ;;
  SRet firmware_changed.

(** [read_firmware_dirty], lines 498-521. *)
Definition read_firmware_dirty_steps (h : Z) (firmware_changed : bool) : Steps bool :=
  r <- nvs_get_u8_step h kKeyDirty 0 ;;
  let err_fd := fst r in
  let fw_dirty_val := snd r in
  firmware_dirty <-
    (if is_err err_fd ESP_OK then SRet (negb (fw_dirty_val =? 0))
     else if is_err err_fd ESP_ERR_NVS_NOT_FOUND then
       d <- SGets firmware_id_dirty_ ;;
       SRet (firmware_changed || d)
     else
       ESP_LOGW_step "nvs_get_u8(fw_dirty) failed. Assuming dirty. err=%s" ;;
       SRet true) ;;
  ESP_LOGI_step "DRD status. firmware_dirty=%s, first_boot_seen=%s" ;;
  SRet firmware_dirty.

(** [read_stored_magic], lines 523-531. *)
Definition read_stored_magic_steps (h : Z) : Steps Z :=
  r <- nvs_get_u32_step h kKeyMagic 0 ;;
  let err_magic := fst r in
  swhen (not_err err_magic ESP_OK && not_err err_magic ESP_ERR_NVS_NOT_FOUND)
    (ESP_LOGW_step "nvs_get_u32(magic) failed. err=%s") ;;
  SRet (snd r).

(** [nvs_detected], lines 535-557. *)
Definition nvs_detected_steps (h : Z) : Steps bool :=
  ESP_LOGI_step "Double reset detected using NVS backend" ;;
  cancel_disarm_steps ;;
  err <- nvs_erase_key_step h kKeyMagic ;;
  swhen (not_err err ESP_OK && not_err err ESP_ERR_NVS_NOT_FOUND)
    (ESP_LOGW_step "nvs_erase_key(magic) failed. err=%s") ;;
  err <- nvs_commit_step h ;;
  swhen (not_err err ESP_OK)
    (ESP_LOGW_step "nvs_commit() after erase failed. err=%s") ;;
  SModify (set_cached_result_ true) ;;
  SRet true.

(** [nvs_tooling_reset], lines 571-595. *)
Definition nvs_tooling_reset_steps (h : Z) (window_s : Z) : Steps unit :=
  ESP_LOGI_step "Tooling reset detected. Clearing DRD flag and arming after delay. delay_s=%u, window_s=%PRIu32" ;;
  err <- nvs_erase_key_step h kKeyMagic ;;
  swhen (not_err err ESP_OK && not_err err ESP_ERR_NVS_NOT_FOUND)
    (ESP_LOGW_step "nvs_erase_key(magic) during tooling reset failed. err=%s") ;;
  err <- nvs_commit_step h ;;
  swhen (not_err err ESP_OK)
    (ESP_LOGW_step "nvs_commit() after tooling reset clear failed. err=%s") ;;
  schedule_arm_steps window_s.

(** [nvs_arm_window], lines 599-623. *)
Definition nvs_arm_window_steps (h : Z) (window_s : Z) : Steps unit :=
  ESP_LOGI_step MSG_FIRMWARE_CLEAN ;;
  err <- nvs_set_u32_step h kKeyMagic kDrdMagic ;;
  if not_err err ESP_OK then
    ESP_LOGW_step "nvs_set_u32(magic) failed. err=%s"
  else
    err <- nvs_commit_step h ;;
    if not_err err ESP_OK then
      ESP_LOGW_step "nvs_commit() after arming failed. err=%s"
    else schedule_disarm_steps window_s.

(** [read_nvs_state], lines 324-531. *)
Definition read_nvs_state_steps (h : Z) : Steps (bool * Z) :=
  firmware_changed <- track_identity_steps h ;;
  firmware_dirty <- read_firmware_dirty_steps h firmware_changed ;;
  stored_magic <- read_stored_magic_steps h ;;
  SRet (firmware_dirty, stored_magic).

(** [check_and_clear_nvs], lines 322-627. *)
Definition check_and_clear_nvs_steps (tooling_reset : bool) (window_s : Z) : Steps bool :=
  h <- SGets nvs_handle_ ;;
  s <- read_nvs_state_steps h ;;
  let firmware_dirty := fst s in
  let stored_magic := snd s in
  if negb tooling_reset && negb firmware_dirty && (stored_magic =? kDrdMagic)
  then nvs_detected_steps h
  else
    (if firmware_dirty then
       ESP_LOGI_step "Firmware dirty for DRD. Arming after delay. delay_s=%u, window_s=%PRIu32" ;;
       schedule_arm_steps window_s
     else if tooling_reset then nvs_tooling_reset_steps h window_s
     else nvs_arm_window_steps h window_s) ;;
    SModify (set_cached_result_ false) ;;
    SRet false.

(** [check_and_clear_rtc], lines 285-311. *)
Definition check_and_clear_rtc_steps (tooling_reset : bool) (window_s : Z) : Steps bool :=
  if tooling_reset then
    SRtcWrite 0 ;;
    SModify (set_cached_result_ false) ;;
    SRet false
  else
    magic <- SRtcRead ;;
    double_reset <-
      (if magic =? kDrdMagic then
         ESP_LOGI_step "Double reset detected using RTC backend" ;;
         SRtcWrite 0 ;;
         SRet true
       else
         ESP_LOGI_step "Arming RTC double-reset window. window_s=%PRIu32" ;;
         SRtcWrite kDrdMagic ;;
         schedule_disarm_steps window_s ;;
         SRet false) ;;
    SModify (set_cached_result_ double_reset) ;;
    SRet double_reset.

(** [classify_and_configure], lines 256-281. *)
Definition classify_and_configure_steps : Steps bool :=
  reason <- esp_reset_reason_step ;;
  let tooling_reset := is_tooling_reset reason in
  ESP_LOGI_step "Reset reason: %d (%s)" ;;
  swhen tooling_reset
    (ESP_LOGI_step "Reset reason indicates tooling activity. DRD arming will be delayed") ;;
  c <- SGets configured_ ;;
  (if negb c then
     err <- configure_steps ;;
     b <- SGets backend_ ;;
     swhen (not_err err ESP_OK && bool_decide (b = NVS))
       (ESP_LOGW_step "DRD configure failed with NVS backend. Falling back to RTC behavior" ;;
        SModify (set_backend_ RTC))
   else SRet tt) ;;
  SRet tooling_reset.

(** [evaluate], lines 256-627. *)
Definition evaluate_steps (window_s : Z) : Steps bool :=
  tooling_reset <- classify_and_configure_steps ;;
  b <- SGets backend_ ;;
  if bool_decide (b = RTC) then check_and_clear_rtc_steps tooling_reset window_s
  else
    ready <- SGets nvs_ready_ ;;
    if negb ready then
      ESP_LOGW_step "NVS backend selected but not ready. Skipping DRD detection" ;;
      SModify (set_cached_result_ false) ;;
      SRet false
    else check_and_clear_nvs_steps tooling_reset window_s.

(** [check_and_clear], lines 246-628. *)
Definition check_and_clear_steps (window_s : Z) : Steps bool :=
  ev <- SGets evaluated_ ;;
  if ev then SGets cached_result_
  else
    SModify (set_evaluated_ true) ;;
    SModify (set_cached_result_ false) ;;
    evaluate_steps window_s.

Close Scope steps_scope.

(** ** Entry points within one boot *)

(** What can run on the detector between two calls of the host: its public
    operations and the two timer callbacks. *)
Inductive entry :=
| CallConfigure
| CallCheckAndClear (window_s : Z)
| CallClearFlag
| FireArmTimer
| FireDisarmTimer.

Definition run_entry (e : entry) : M unit :=
  match e with
  | CallConfigure => _ <- configure ;; ret tt
  | CallCheckAndClear window_s => _ <- check_and_clear window_s ;; ret tt
  | CallClearFlag => clear_flag
  | FireArmTimer => arm_timer_cb
  | FireDisarmTimer => disarm_timer_cb
  end.

Fixpoint run_entries (es : list entry) : M unit :=
  match es with
  | [] => ret tt
  | e :: rest => run_entry e ;; run_entries rest
  end.

(** ** Classes of trace entries *)

Definition is_log (ev : Event) : bool :=
  match ev with EvLog _ _ => true | _ => false end.

Definition is_timer_event (ev : Event) : bool :=
  match ev with
  | EvTimerCreate _ _ | EvTimerStartOnce _ _ _ | EvTimerStop _ _
  | EvTimerDelete _ _ => true
  | _ => false
  end.

(** Reads and writes of persistent state: the NVS calls and the RTC cell. *)
Definition is_storage_event (ev : Event) : bool :=
  match ev with
  | EvRtcRead _ | EvRtcWrite _ | EvNvsFlashInit _ | EvNvsOpen _ _
  | EvNvsClose _ | EvNvsGet _ _ | EvNvsSet _ _ _ | EvNvsEraseKey _ _
  | EvNvsCommit _ => true
  | _ => false
  end.

Definition is_firmware_clean_log (ev : Event) : bool :=
  match ev with
  | EvLog LOGI msg => bool_decide (msg = MSG_FIRMWARE_CLEAN)
  | _ => false
  end.

(** The platform calls of a trace, the log lines dropped. *)
Definition calls (evs : list Event) : list Event :=
  List.filter (fun ev => negb (is_log ev)) evs.

(** ** Invariants *)

(** [keeps I phi m]: the action [m] maintains the invariant [I] of the
    world and only emits events accepted by [phi]. *)
Definition keeps {A} (I : World -> Prop) (phi : Event -> bool) (m : M A) : Prop :=
  forall w, I w -> I (world (m w)) /\ forallb phi (events (m w)) = true.

Definition any_event (ev : Event) : bool := true.

(** The memo of [check_and_clear]: evaluated, with [b] as cached result. *)
Definition cache_inv (b : bool) : World -> Prop :=
  fun w => evaluated_ (det w) = true /\ cached_result_ (det w) = b.

(** The world at the entry of the decision: the first two assignments of
    [check_and_clear] done. *)
Definition mark_evaluated (w : World) : World :=
  with_det (fun d => set_cached_result_ false (set_evaluated_ true d)) w.

Definition evaluated_inv : World -> Prop := fun w => evaluated_ (det w) = true.

(** An action that leaves its boolean result in [cached_result_]. *)
Definition caches (m : M bool) : Prop :=
  forall w, cached_result_ (det (world (m w))) = result (m w).

(** Neither a persistent read or write nor a timer call. *)
Definition quiet (ev : Event) : bool :=
  negb (is_storage_event ev) && negb (is_timer_event ev).

(** The platform injects no failure from here on. *)
Definition no_faults : World -> Prop := fun w => faults (plat w) = [].

(** The RTC cell holds [v]. *)
Definition rtc_is (v : Z) : World -> Prop := fun w => s_rtc_magic w = v.

(** The world in which the RTC backend arms: memo set, configured, the
    cell holding the magic. *)
Definition rtc_armed_world (w : World) : World :=
  with_rtc kDrdMagic (with_det (set_configured_ true) (mark_evaluated w)).

(** The backend is (or has become) RTC. *)
Definition backend_rtc : World -> Prop := fun w => backend_ (det w) = RTC.

(** The statuses of [nvs_erase_key] after which the key is gone. *)
Definition erased (e : esp_err_t) : Prop :=
  e = ESP_OK \/ e = ESP_ERR_NVS_NOT_FOUND.

(** The namespace as the detector's handle sees it, and as flash holds it. *)
Definition staged (w : World) : gmap string nvs_value := nvs_staged (nvs (plat w)).
Definition durable (w : World) : gmap string nvs_value := nvs_durable (nvs (plat w)).

(** What an NVS call never touches. *)
Definition same_services (p p' : Platform) : Prop :=
  timers p' = timers p /\ next_timer p' = next_timer p /\
  reset_reason p' = reset_reason p /\ app_elf_sha256 p' = app_elf_sha256 p /\
  nvs_handles (nvs p') = nvs_handles (nvs p).

(** From [w] to [w'] the platform calls [cs] were made: the calls [done],
    then the call [failed], and nothing after it; no timer was touched. *)
Definition abandoned (w w' : World) (cs done : list Event) (failed : Event)
  : Prop :=
  cs = done ++ [failed] /\
  disarm_timer_ (det w') = disarm_timer_ (det w) /\
  timers (plat w') = timers (plat w).

(** The events that follow the first event accepted by [p]. *)
Fixpoint events_after (p : Event -> bool) (evs : list Event)
  : option (list Event) :=
  match evs with
  | [] => None
  | ev :: rest => if p ev then Some rest else events_after p rest
  end.

(** The disarm timer handle and the timer service are as given. *)
Definition timers_are (d : option nat) (t : gmap nat esp_timer) : World -> Prop :=
  fun w => disarm_timer_ (det w) = d /\ timers (plat w) = t.

(** Neither a timer call nor the log line of the arming branch. *)
Definition sensing_event (ev : Event) : bool :=
  negb (is_timer_event ev) && negb (is_firmware_clean_log ev).

(** The Dirty Flag reads as true. *)
Definition dirty_flag_set : World -> Prop :=
  fun w => exists v, staged w !! kKeyDirty = Some (U8 v) /\ v <> 0.

(** A run with the events [pre] put in front. *)
Definition after_events {A} (pre : list Event) (r : A * World * list Event)
  : A * World * list Event :=
  (result r, world r, pre ++ events r).

(** Any event but the log line of the arming branch. *)
Definition not_clean_log (ev : Event) : bool := negb (is_firmware_clean_log ev).

Definition any_world : World -> Prop := fun _ => True.

(** The detector is [d] up to its disarm timer handle. *)
Definition det_but_disarm (d : Detector) : World -> Prop :=
  fun w => set_disarm_timer_ None (det w) = set_disarm_timer_ None d.

(** The namespace does not hold the Armed Marker. *)
Definition marker_absent : World -> Prop :=
  fun w => staged w !! kKeyMagic <> Some (U32 kDrdMagic).

(** The backend is NVS. *)
Definition backend_nvs : World -> Prop := fun w => backend_ (det w) = NVS.

Definition no_timer_event (ev : Event) : bool := negb (is_timer_event ev).

(** ** The timer service at run time *)

(** The timer map without the timer of a possibly null handle. *)
Definition drop_timer (h : option nat) (t : gmap nat esp_timer)
  : gmap nat esp_timer :=
  match h with Some i => delete i t | None => t end.

(** The dispatch of [esp_timer]: the pending one-shot [h] expires, the
    service marks it inactive and runs the callback it was created with
    ([arg] is the detector).  Nothing happens for a handle that is not
    pending. *)
Definition expire (h : nat) : M unit :=
  fun w =>
    match timers (plat w) !! h with
    | Some (mkTimer cb name (Some _)) =>
        let p := plat w in
        let w1 :=
          with_plat
            (set_timers (<[h := mkTimer cb name None]> (timers p))
               (next_timer p) p) w in
        match cb with
        | DisarmCb => disarm_timer_cb w1
        | ArmCb => arm_timer_cb w1
        end
    | _ => (tt, w, [])
    end.

(** What happens during one boot: calls of the host and expiries of
    timers. *)
Inductive boot_step :=
| HostCall (e : entry)
| TimerExpires (h : nat).

Definition run_step (s : boot_step) : M unit :=
  match s with
  | HostCall e => run_entry e
  | TimerExpires h => expire h
  end.

Fixpoint run_steps (ss : list boot_step) : M unit :=
  match ss with
  | [] => ret tt
  | s :: rest => run_step s ;; run_steps rest
  end.

(** The steps in which a callback runs only when its timer expires. *)
Definition dispatched (s : boot_step) : bool :=
  match s with
  | HostCall FireArmTimer | HostCall FireDisarmTimer => false
  | _ => true
  end.

(** Every pending timer is the one the detector holds for its kind. *)
Definition timers_owned : World -> Prop :=
  fun w =>
    forall h t, timers (plat w) !! h = Some t -> t_armed t <> None ->
      match t_callback t with
      | DisarmCb => disarm_timer_ (det w) = Some h
      | ArmCb => arm_timer_ (det w) = Some h
      end.

(** The invariant of the timers: nothing fails and every pending timer is
    held by the detector. *)
Definition owned_inv : World -> Prop :=
  fun w => no_faults w /\ timers_owned w.

(** At most one timer of each kind is pending. *)
Definition one_pending_per_kind (w : World) : Prop :=
  forall h1 h2 t1 t2,
    timers (plat w) !! h1 = Some t1 -> timers (plat w) !! h2 = Some t2 ->
    t_armed t1 <> None -> t_armed t2 <> None ->
    t_callback t1 = t_callback t2 -> h1 = h2.

Definition no_storage_event (ev : Event) : bool := negb (is_storage_event ev).

(** The world with the namespace replaced, as the handle sees it and as
    flash holds it. *)
Definition with_namespace (m_staged m_durable : gmap string nvs_value)
    (w : World) : World :=
  let n := nvs (plat w) in
  with_plat
    (set_nvs (mkNvs (nvs_initialized n) (nvs_handles n) (nvs_next_handle n)
                m_staged m_durable) (plat w)) w.

(** The platform injects no failure and [h] is an open handle of the
    store. *)
Definition store_usable (h : Z) (w : World) : Prop :=
  faults (plat w) = [] /\ handle_valid h (nvs (plat w)) = true.

(** A boot on the NVS backend in which the platform does not fail: the
    detector is as constructed, and [nvs_open] will return a handle that
    fits [nvs_handle_]. *)
Definition nvs_boot (w : World) : Prop :=
  backend_ (det w) = NVS /\ configured_ (det w) = false /\
  evaluated_ (det w) = false /\ firmware_id_dirty_ (det w) = false /\
  faults (plat w) = [] /\ 0 <= nvs_next_handle (nvs (plat w)) < 2 ^ 32.

(** The running image, of identity [sha], is the one whose identity the
    namespace stores. *)
Definition same_image (sha : list Z) (w : World) : Prop :=
  app_elf_sha256 (plat w) = Some sha /\ length sha = 32%nat /\
  staged w !! kKeyAppSha256 = Some (Blob sha).

(** The running image, of identity [sha], is not the one whose identity
    the namespace stores, if it stores any. *)
Definition new_image (sha : list Z) (w : World) : Prop :=
  app_elf_sha256 (plat w) = Some sha /\ length sha = 32%nat /\
  staged w !! kKeyAppSha256 <> Some (Blob sha).

(** The Dirty Flag reads as false. *)
Definition dirty_flag_clear (w : World) : Prop :=
  staged w !! kKeyDirty = None \/ staged w !! kKeyDirty = Some (U8 0).

(** A disarm timer of [window_s] seconds is pending and held by the
    detector. *)
Definition disarm_pending (window_s : Z) (w : World) : Prop :=
  exists h,
    disarm_timer_ (det w) = Some h /\
    timers (plat w) !! h =
      Some (mkTimer DisarmCb "drd_disarm"
              (Some ((window_s * 1000000) mod 2 ^ 64))).

(** ** Concrete worlds *)

Definition fresh_detector (b : Backend) : Detector :=
  mkDetector b "drd" false false 0 false false None None 0 false.

Definition fresh_nvs (m : gmap string nvs_value) : Nvs :=
  mkNvs false [] 1 m m.

Definition fresh_platform (r : esp_reset_reason_t) (sha : option (list Z))
    (m : gmap string nvs_value) (fs : list (option fault)) : Platform :=
  mkPlatform r sha (fresh_nvs m) ∅ 0%nat fs.

(** The world at boot: a freshly constructed detector of backend [b], the
    RTC cell as the previous boot left it, the namespace content [m]. *)
Definition boot (b : Backend) (rtc : Z) (r : esp_reset_reason_t)
    (sha : option (list Z)) (m : gmap string nvs_value)
    (fs : list (option fault)) : World :=
  mkWorld (fresh_detector b) rtc (fresh_platform r sha m fs).

Definition sha_a : list Z := replicate 32 0xAA.
Definition sha_b : list Z := replicate 32 0xBB.

(** A boot on the NVS backend where the partition cannot be initialised
    ([nvs_flash_init] reports no free pages), with the RTC cell still
    holding the magic and a reset by the external pin. *)
Definition boot_nvs_unavailable : World :=
  boot NVS kDrdMagic ESP_RST_EXT (Some sha_a) ∅ [Some FaultNvsNoFreePages].

(** Cold first boot on the RTC backend: power-on reset, RTC cell zero. *)
Definition boot_rtc_cold : World :=
  boot RTC 0 ESP_RST_POWERON (Some sha_a) ∅ [].

(** A namespace armed by the previous boot of the same image: marker set,
    Dirty Flag clear. *)
Definition armed_namespace : gmap string nvs_value :=
  <[kKeyMagic := U32 kDrdMagic]>
    (<[kKeyDirty := U8 0]> {[ kKeyAppSha256 := Blob sha_a ]}).

(** The namespace of an image that has not completed its arm delay yet:
    marker present, Dirty Flag set. *)
Definition dirty_namespace : gmap string nvs_value :=
  <[kKeyMagic := U32 kDrdMagic]>
    (<[kKeyDirty := U8 1]> {[ kKeyAppSha256 := Blob sha_a ]}).

(** The namespace of a stable image with no window open. *)
Definition clean_namespace : gmap string nvs_value :=
  <[kKeyDirty := U8 0]> {[ kKeyAppSha256 := Blob sha_a ]}.

(** Second reset within the window on the NVS backend, nothing failing. *)
Definition boot_nvs_double_reset : World :=
  boot NVS 0 ESP_RST_EXT (Some sha_a) armed_namespace [].

(** The same boot, but flash refuses the erase of the detection branch:
    the two calls of [configure] and the five reads succeed, the eighth
    call fails. *)
Definition boot_nvs_erase_fails : World :=
  boot NVS 0 ESP_RST_EXT (Some sha_a) armed_namespace
    [None; None; None; None; None; None; None; Some FaultFlashOp].

(** Reset by the external pin with the Dirty Flag set and the marker
    present. *)
Definition boot_nvs_dirty : World :=
  boot NVS 0 ESP_RST_EXT (Some sha_a) dirty_namespace [].

(** A clean boot whose arming commit fails: the marker write is the eighth
    call, the commit the ninth. *)
Definition boot_nvs_commit_fails : World :=
  boot NVS 0 ESP_RST_POWERON (Some sha_a) clean_namespace
    [None; None; None; None; None; None; None; None; Some FaultFlashOp].

(** A configured NVS detector with an armed namespace, where flash refuses
    the first erase of [clear_flag]. *)
Definition nvs_clear_fails : World :=
  world (configure
           (boot NVS 0 ESP_RST_POWERON (Some sha_a) armed_namespace
              [None; None; Some FaultFlashOp])).

(** A configured NVS detector with an armed namespace, nothing failing. *)
Definition nvs_configured : World :=
  world (configure (boot NVS 0 ESP_RST_POWERON (Some sha_a) armed_namespace [])).

(** Fresh flash on the NVS backend: the stored identity is that of
    another image, no marker. *)
Definition boot_nvs_fresh_flash : World :=
  boot NVS 0 ESP_RST_POWERON (Some sha_a) {[ kKeyAppSha256 := Blob sha_b ]} [].

(** Legacy migration: no app_sha256, app_hash = 0x12345678. *)
Definition boot_nvs_legacy : World :=
  boot NVS 0 ESP_RST_POWERON (Some sha_a) {[ kKeyAppHash := U32 0x12345678 ]} [].

(** The next boot after a reset of reason [r]: RAM is lost, so the
    detector is freshly constructed, no timer exists and the store is not
    initialised; the RTC cell survives unless power was lost; the namespace
    is what flash holds.  [fs] are the failures of the new boot. *)
Definition reboot (b : Backend) (r : esp_reset_reason_t)
    (fs : list (option fault)) (w : World) : World :=
  boot b (if bool_decide (r = ESP_RST_POWERON) then 0 else s_rtc_magic w) r
    (app_elf_sha256 (plat w)) (durable w) fs.

(** ** Reasoning rules for the monad *)

Lemma run_ret {A} (a : A) w : ret a w = (a, w, []).
Proof. reflexivity. Qed.

Lemma run_bind {A B} (m : M A) (f : A -> M B) w :
  bind m f w =
  let '(a, w1, e1) := m w in
  let '(b, w2, e2) := f a w1 in (b, w2, e1 ++ e2).
Proof. reflexivity. Qed.

Lemma bind_world {A B} (m : M A) (f : A -> M B) w :
  world (bind m f w) = world (f (result (m w)) (world (m w))).
Proof.
  unfold bind, world, result.
  destruct (m w) as [[a w1] e1]; simpl.
  destruct (f a w1) as [[b w2] e2]; reflexivity.
Qed.

Lemma bind_result {A B} (m : M A) (f : A -> M B) w :
  result (bind m f w) = result (f (result (m w)) (world (m w))).
Proof.
  unfold bind, world, result.
  destruct (m w) as [[a w1] e1]; simpl.
  destruct (f a w1) as [[b w2] e2]; reflexivity.
Qed.

Lemma bind_events {A B} (m : M A) (f : A -> M B) w :
  events (bind m f w) =
  events (m w) ++ events (f (result (m w)) (world (m w))).
Proof.
  unfold bind, world, result, events.
  destruct (m w) as [[a w1] e1]; simpl.
  destruct (f a w1) as [[b w2] e2]; reflexivity.
Qed.

Lemma run_eta {A} (r : A * World * list Event) :
  r = (result r, world r, events r).
Proof. destruct r as [[a w] e]; reflexivity. Qed.

Section KeepsRules.
Context (I : World -> Prop) (phi : Event -> bool).

Lemma keeps_ret {A} (a : A) : keeps I phi (ret a).
Proof. intros w Hw; split; [exact Hw | reflexivity]. Qed.

Lemma keeps_bind {A B} (m : M A) (f : A -> M B) :
  keeps I phi m -> (forall a, keeps I phi (f a)) -> keeps I phi (bind m f).
Proof.
  intros Hm Hf w Hw.
  rewrite bind_world, bind_events.
  destruct (Hm w Hw) as [H1 E1].
  destruct (Hf (result (m w)) (world (m w)) H1) as [H2 E2].
  split; [exact H2 |].
  rewrite forallb_app, E1, E2; reflexivity.
Qed.

Lemma keeps_when (b : bool) (m : M unit) :
  keeps I phi m -> keeps I phi (when b m).
Proof. destruct b; simpl; [auto | intros _; apply keeps_ret]. Qed.

Lemma keeps_emit ev : phi ev = true -> keeps I phi (emit ev).
Proof. intros H w Hw; split; [exact Hw | simpl; rewrite H; reflexivity]. Qed.

Lemma keeps_gets {A} (f : Detector -> A) : keeps I phi (gets f).
Proof. intros w Hw; split; [exact Hw | reflexivity]. Qed.

Lemma keeps_modify f :
  (forall w, I w -> I (with_det f w)) -> keeps I phi (modify f).
Proof. intros H w Hw; split; [apply H, Hw | reflexivity]. Qed.

Lemma keeps_call {A} (op : Platform -> A * Platform) (ev : A -> Event) :
  (forall w, I w -> I (with_plat (snd (op (plat w))) w)) ->
  (forall a, phi (ev a) = true) ->
  keeps I phi (call op ev).
Proof.
  intros H1 H2 w Hw. unfold call, world, events.
  specialize (H1 w Hw).
  destruct (op (plat w)) as [a p]; simpl in *.
  split; [exact H1 | rewrite H2; reflexivity].
Qed.

Lemma keeps_rtc_read :
  (forall v, phi (EvRtcRead v) = true) -> keeps I phi rtc_read.
Proof. intros H w Hw; split; [exact Hw | simpl; rewrite H; reflexivity]. Qed.

Lemma keeps_rtc_write v :
  (forall w, I w -> I (with_rtc v w)) -> phi (EvRtcWrite v) = true ->
  keeps I phi (rtc_write v).
Proof.
  intros H1 H2 w Hw; split; [apply H1, Hw | simpl; rewrite H2; reflexivity].
Qed.
End KeepsRules.

Create HintDb keeps_db.

(** Syntax-directed proof of [keeps]: the rules above, case analysis on
    the tests, unfolding of the routines; [side] closes the side
    conditions of the primitives. *)
Ltac keeps_with side :=
  repeat first
    [ apply keeps_ret
    | apply keeps_bind; [ | intros ? ]
    | apply keeps_when
    | apply keeps_gets
    | apply keeps_emit; solve [side]
    | apply keeps_modify; solve [side]
    | apply keeps_call; [ solve [side] | solve [side] ]
    | apply keeps_rtc_read; solve [side]
    | apply keeps_rtc_write; [ solve [side] | solve [side] ]
    | solve [eauto with keeps_db]
    | match goal with
      | |- keeps _ _ (if ?b then _ else _) => destruct b
      | |- keeps _ _ (match ?x with _ => _ end) => destruct x
      | |- keeps _ _ (let _ := _ in _) => cbv zeta
      | |- keeps _ _ (?f _ _ _ _ _) => progress unfold f
      | |- keeps _ _ (?f _ _ _ _) => progress unfold f
      | |- keeps _ _ (?f _ _ _) => progress unfold f
      | |- keeps _ _ (?f _ _) => progress unfold f
      | |- keeps _ _ (?f _) => progress unfold f
      | |- keeps _ _ ?f => progress unfold f
      end ].

(** Symbolic execution of a run: unfold the monad, use the known field
    values, split on the tests that block. *)
Ltac unfold_monad :=
  unfold bind, ret, gets, modify, when, emit, call, ESP_LOGI, ESP_LOGW,
    rtc_read, rtc_write, with_det, with_rtc, with_plat in *.

Ltac use_fields :=
  repeat match goal with
         | H : ?f ?d = _ |- context [?f ?d] => rewrite H
         end.

Ltac exec :=
  unfold_monad;
  repeat first
    [ progress simpl
    | progress use_fields
    | match goal with
      | |- context [if ?b then _ else _] => destruct b eqn:?
      end ].

(** ** The memo of check_and_clear *)

Ltac cache_side :=
  solve [ reflexivity
        | intros; reflexivity
        | let w := fresh in let H := fresh in
          intros w H; destruct H; split; simpl; assumption ].

Lemma configure_keeps_cache b : keeps (cache_inv b) any_event configure.
Proof. keeps_with cache_side. Qed.

Lemma schedule_disarm_keeps_cache b window :
  keeps (cache_inv b) any_event (schedule_disarm window).
Proof. keeps_with cache_side. Qed.

Lemma arm_timer_cb_keeps_cache b : keeps (cache_inv b) any_event arm_timer_cb.
Proof.
  pose proof (schedule_disarm_keeps_cache b).
  keeps_with cache_side.
Qed.

Lemma clear_flag_keeps_cache b : keeps (cache_inv b) any_event clear_flag.
Proof. keeps_with cache_side. Qed.

Lemma disarm_timer_cb_keeps_cache b :
  keeps (cache_inv b) any_event disarm_timer_cb.
Proof.
  pose proof (clear_flag_keeps_cache b).
  keeps_with cache_side.
Qed.

Lemma check_and_clear_cached window w :
  evaluated_ (det w) = true ->
  check_and_clear window w = (cached_result_ (det w), w, []).
Proof.
  intros H. unfold check_and_clear, bind, gets. rewrite H. reflexivity.
Qed.

Lemma check_and_clear_first window w :
  evaluated_ (det w) = false ->
  check_and_clear window w = evaluate window (mark_evaluated w).
Proof.
  intros H. unfold check_and_clear, bind, gets, modify. rewrite H.
  unfold mark_evaluated, with_det; simpl.
  destruct (evaluate window _) as [[r w'] evs]; reflexivity.
Qed.

Lemma check_and_clear_keeps_cache b window :
  keeps (cache_inv b) any_event (check_and_clear window).
Proof.
  intros w [He Hc]. rewrite check_and_clear_cached by exact He.
  split; [split; assumption | reflexivity].
Qed.

Lemma run_entry_keeps_cache b e : keeps (cache_inv b) any_event (run_entry e).
Proof.
  destruct e; simpl.
  - apply keeps_bind; [apply configure_keeps_cache | intros; apply keeps_ret].
  - apply keeps_bind; [apply check_and_clear_keeps_cache | intros; apply keeps_ret].
  - apply clear_flag_keeps_cache.
  - apply arm_timer_cb_keeps_cache.
  - apply disarm_timer_cb_keeps_cache.
Qed.

Lemma run_entries_keeps_cache b es :
  keeps (cache_inv b) any_event (run_entries es).
Proof.
  induction es as [|e rest IH]; simpl.
  - apply keeps_ret.
  - apply keeps_bind; [apply run_entry_keeps_cache | intros _; exact IH].
Qed.

Ltac evaluated_side :=
  solve [ reflexivity
        | intros; reflexivity
        | let w := fresh in let H := fresh in
          intros w H; unfold evaluated_inv in *; simpl; assumption ].

Lemma evaluate_keeps_evaluated window :
  keeps evaluated_inv any_event (evaluate window).
Proof. keeps_with evaluated_side. Qed.

Lemma caches_bind {A} (m : M A) (f : A -> M bool) :
  (forall a, caches (f a)) -> caches (bind m f).
Proof. intros H w. rewrite bind_world, bind_result. apply H. Qed.

Lemma caches_set (x : bool) :
  caches (modify (set_cached_result_ x) ;; ret x).
Proof. intros w. reflexivity. Qed.

Lemma caches_if (b : bool) (m1 m2 : M bool) :
  caches m1 -> caches m2 -> caches (if b then m1 else m2).
Proof. destruct b; auto. Qed.

Lemma evaluate_caches window : caches (evaluate window).
Proof.
  unfold evaluate, check_and_clear_rtc, check_and_clear_nvs, nvs_detected.
  repeat first
    [ apply caches_set
    | apply caches_if
    | apply caches_bind; intros ? ].
Qed.

(** ** NVS selected but not ready *)

(** C10. With the NVS backend selected, [configure] already done and the
    store not ready, the first [check_and_clear] of the boot returns
    [false]; the world only gets the memo ([evaluated_], [cached_result_]):
    the RTC cell, the NVS state, the timers and the fault script are
    untouched, and the trace holds no persistent read or write and no timer
    call. *)
Theorem check_and_clear_nvs_not_ready (window : Z) (w : World) :
  evaluated_ (det w) = false ->
  configured_ (det w) = true ->
  backend_ (det w) = NVS ->
  nvs_ready_ (det w) = false ->
  let r := check_and_clear window w in
  result r = false /\
  world r = mark_evaluated w /\
  forallb quiet (events r) = true.
Proof.
  intros He Hc Hb Hr r. subst r.
  rewrite check_and_clear_first by exact He.
  destruct w as [d rtc p]; simpl in *.
  unfold evaluate, classify_and_configure, esp_reset_reason, mark_evaluated.
  exec; repeat split.
Qed.

Lemma gets_run {A} (f : Detector -> A) w : gets f w = (f (det w), w, []).
Proof. reflexivity. Qed.
Lemma modify_run f w : modify f w = (tt, with_det f w, []).
Proof. reflexivity. Qed.
Lemma emit_run ev w : emit ev w = (tt, w, [ev]).
Proof. reflexivity. Qed.
Lemma result_pair {A} (a : A) w e : result (a, w, e) = a.
Proof. reflexivity. Qed.
Lemma world_pair {A} (a : A) w e : world (a, w, e) = w.
Proof. reflexivity. Qed.
Lemma events_pair {A} (a : A) w e : events (a, w, e) = e.
Proof. reflexivity. Qed.
Lemma when_world b m w : world (when b m w) = if b then world (m w) else w.
Proof. destruct b; reflexivity. Qed.
Lemma log_world_i s w : world (ESP_LOGI s w) = w.
Proof. reflexivity. Qed.
Lemma log_world_w s w : world (ESP_LOGW s w) = w.
Proof. reflexivity. Qed.

Create Rewrite HintDb run.
Hint Rewrite @bind_world @bind_result @bind_events @gets_run @modify_run
  @emit_run @run_ret @result_pair @world_pair @events_pair @when_world
  log_world_i log_world_w : run.

(** ** Timers *)

Ltac case_stuck :=
  match goal with
  | |- context [if ?b then _ else _] => destruct b eqn:?
  | |- context [match ?x with _ => _ end] =>
      let T := type of x in
      lazymatch eval hnf in T with
      | option _ => destruct x eqn:?
      | list _ => destruct x eqn:?
      | esp_timer => destruct x
      end
  end.

Ltac exec_all :=
  unfold_monad;
  repeat first
    [ progress simpl | progress use_fields
    | rewrite lookup_insert_eq | case_stuck ].

Ltac unfold_ops :=
  unfold nvs_flash_init_op, nvs_open_op, nvs_close_op, nvs_get_op, nvs_set_op,
    nvs_erase_key_op, nvs_commit_op, esp_timer_create_op,
    esp_timer_start_once_op, esp_timer_stop_op, esp_timer_delete_op,
    with_fault, pop_fault, timer_of in *.

Ltac no_faults_side :=
  solve [ reflexivity
        | intros; reflexivity
        | let w := fresh "w" in let H := fresh "H" in
          intros w H; unfold no_faults in *; destruct w as [? ? ?];
          simpl in *; unfold_ops; rewrite ?H; simpl;
          repeat first
            [ case_stuck
            | match goal with
              | |- context [let (_, _) := ?x in _] => destruct x
              end ];
          simpl; solve [assumption | reflexivity] ].

Lemma cancel_disarm_no_faults : keeps no_faults any_event cancel_disarm.
Proof. keeps_with no_faults_side. Qed.

Lemma cancel_disarm_clears w :
  disarm_timer_ (det (world (cancel_disarm w))) = None.
Proof.
  unfold cancel_disarm. autorewrite with run.
  destruct (disarm_timer_ (det w)) eqn:E.
  - autorewrite with run. reflexivity.
  - autorewrite with run. exact E.
Qed.

Lemma schedule_disarm_armed window w :
  faults (plat w) = [] ->
  let w' := world (schedule_disarm window w) in
  exists h,
    disarm_timer_ (det w') = Some h /\
    timers (plat w') !! h =
      Some (mkTimer DisarmCb "drd_disarm" (Some ((window * 1000000) mod 2 ^ 64))).
Proof.
  intros Hf w'. subst w'. unfold schedule_disarm. rewrite bind_world.
  pose proof (cancel_disarm_clears w) as Hc.
  destruct (cancel_disarm_no_faults w Hf) as [Hn _].
  destruct (world (cancel_disarm w)) as [d rtc p]; unfold no_faults in Hn; simpl in *.
  unfold esp_timer_create, esp_timer_start_once. unfold_ops.
  exec_all.
  eexists; split; [reflexivity | apply lookup_insert_eq].
Qed.


Ltac rtc_side :=
  solve [ reflexivity
        | intros; reflexivity
        | let w := fresh in let H := fresh in
          intros w H; unfold rtc_is in *; simpl; assumption ].

Lemma schedule_disarm_keeps_rtc v window :
  keeps (rtc_is v) any_event (schedule_disarm window).
Proof. keeps_with rtc_side. Qed.

Lemma uint32_seconds_to_us window :
  0 <= window < 2 ^ 32 -> (window * 1000000) mod 2 ^ 64 = window * 1000000.
Proof. intros H. apply Z.mod_small. lia. Qed.


(** ** The RTC backend *)

(** C2. On the RTC backend the first [check_and_clear] of a boot does one
    of three things.  Tooling reset: the cell is zeroed, the result is
    [false].  Otherwise, cell equal to the magic: the cell is zeroed, the
    result is [true].  Otherwise: the cell is set to the magic,
    [schedule_disarm window] runs, the result is [false]; when the timer
    service does not fail, a disarm timer of [window] seconds is pending. *)
Theorem check_and_clear_rtc_algorithm (window : Z) (w : World) :
  evaluated_ (det w) = false ->
  backend_ (det w) = RTC ->
  let r := check_and_clear window w in
  let reason := reset_reason (plat w) in
  (is_tooling_reset reason = true ->
     result r = false /\ s_rtc_magic (world r) = 0 /\
     plat (world r) = plat w /\
     calls (events r) = [EvResetReason reason; EvRtcWrite 0]) /\
  (is_tooling_reset reason = false -> s_rtc_magic w = kDrdMagic ->
     result r = true /\ s_rtc_magic (world r) = 0 /\
     plat (world r) = plat w /\
     calls (events r) =
       [EvResetReason reason; EvRtcRead kDrdMagic; EvRtcWrite 0]) /\
  (is_tooling_reset reason = false -> s_rtc_magic w <> kDrdMagic ->
     let arm := schedule_disarm window (rtc_armed_world w) in
     result r = false /\ s_rtc_magic (world r) = kDrdMagic /\
     world r = with_det (set_cached_result_ false) (world arm) /\
     calls (events r) =
       EvResetReason reason :: EvRtcRead (s_rtc_magic w)
       :: EvRtcWrite kDrdMagic :: calls (events arm) /\
     (faults (plat w) = [] -> 0 <= window < 2 ^ 32 ->
      exists h,
        disarm_timer_ (det (world r)) = Some h /\
        timers (plat (world r)) !! h =
          Some (mkTimer DisarmCb "drd_disarm" (Some (window * 1000000))))).
Proof.
  intros He Hb r reason. subst r reason.
  rewrite check_and_clear_first by exact He.
  assert (Hcfg : configured_ (det w) = true ->
            rtc_armed_world w = with_rtc kDrdMagic (mark_evaluated w)).
  { intros Hc. destruct w as [d rtc p]. destruct d; simpl in *; subst.
    reflexivity. }
  destruct (configured_ (det w)) eqn:Hc;
    [rewrite Hcfg by reflexivity | unfold rtc_armed_world]; clear Hcfg.
  all: destruct w as [d rtc p]; simpl in *.
  all: unfold evaluate, classify_and_configure, esp_reset_reason, mark_evaluated,
         check_and_clear_rtc,
         configure.
  all: split; [| split].
  1,4: intros Ht; exec; repeat split.
  1,3: intros Ht Hm; subst rtc; exec; repeat split; discriminate.
  all: intros Ht Hm; apply Z.eqb_neq in Hm.
  all: exec; try discriminate.
  all: match goal with
       | |- context [schedule_disarm ?win ?W] =>
           pose proof (schedule_disarm_keeps_rtc kDrdMagic win W eq_refl)
             as [Hr _];
           pose proof (schedule_disarm_armed win W) as Ha;
           destruct (schedule_disarm win W) as [[u w2] e2] eqn:E
       end.
  all: simpl in *; rewrite !app_nil_r.
  all: split; [reflexivity | split; [exact Hr | split; [reflexivity | split]]].
  all: try reflexivity.
  all: intros Hf Hw; rewrite <- (uint32_seconds_to_us _ Hw); exact (Ha Hf).
Qed.
(** ** configure *)

Lemma not_err_true a b : not_err a b = true <-> a <> b.
Proof.
  unfold not_err, is_err. rewrite negb_true_iff, bool_decide_eq_false. tauto.
Qed.

Lemma not_err_false a b : not_err a b = false <-> a = b.
Proof.
  unfold not_err, is_err. rewrite negb_false_iff, bool_decide_eq_true. tauto.
Qed.

Ltac case_call :=
  match goal with
  | |- context [match ?x with (_, _) => _ end] =>
      lazymatch type of x with
      | (_ * Platform)%type => destruct x as [? ?] eqn:?
      end
  end.

(** Symbolic execution that keeps the platform calls abstract. *)
Ltac exec_calls :=
  unfold_monad;
  repeat first
    [ progress simpl | progress use_fields | case_call
    | match goal with
      | |- context [if ?b then _ else _] => destruct b eqn:?
      end ].

(** C6 (amended). [configure] always leaves the detector configured, never
    changes the backend, and returns the status of [nvs_open]: [ESP_OK] when
    the detector was already configured or uses the RTC backend (no call at
    all), and otherwise exactly the code [nvs_open] returned, whatever
    [nvs_flash_init] reported; the store is ready iff that code is
    [ESP_OK]. *)
Theorem configure_status (w : World) :
  let r := configure w in
  configured_ (det (world r)) = true /\
  backend_ (det (world r)) = backend_ (det w) /\
  s_rtc_magic (world r) = s_rtc_magic w /\
  (configured_ (det w) = true \/ backend_ (det w) = RTC ->
     result r = ESP_OK /\ calls (events r) = []) /\
  (configured_ (det w) = false -> backend_ (det w) = NVS ->
     exists e_init e_open,
       calls (events r) =
         [EvNvsFlashInit e_init; EvNvsOpen (nvs_namespace_ (det w)) e_open] /\
       result r = e_open /\
       nvs_ready_ (det (world r)) = bool_decide (e_open = ESP_OK)).
Proof.
  intros r. subst r. destruct w as [d rtc p].
  destruct (configure _) as [[a w'] evs] eqn:E.
  unfold result, world, events; simpl. revert E.
  unfold configure, safe_nvs_init, nvs_flash_init, nvs_open.
  exec_calls.
  all: intros [= <- <- <-]; simpl.
  all: repeat split; try reflexivity; try assumption.
  all: try match goal with H : _ \/ _ |- _ => destruct H; discriminate end.
  all: try congruence.
  all: eexists _, _; repeat split.
  all: symmetry.
  all: first [ apply bool_decide_eq_false, not_err_true; assumption
             | apply bool_decide_eq_true, not_err_false; assumption ].
Qed.



(** ** Degrading to the RTC backend *)

Lemma configure_frame (w : World) :
  backend_ (det (world (configure w))) = backend_ (det w) /\
  s_rtc_magic (world (configure w)) = s_rtc_magic w.
Proof.
  assert (K : keeps (fun w' => backend_ (det w') = backend_ (det w) /\
                               s_rtc_magic w' = s_rtc_magic w)
                any_event configure).
  { keeps_with ltac:(solve [ reflexivity | intros; reflexivity
                           | intros ? [? ?]; split; simpl; assumption ]). }
  apply (K w). split; reflexivity.
Qed.

Lemma check_and_clear_rtc_cases (tooling : bool) (window : Z) (w : World) :
  let r := check_and_clear_rtc tooling window w in
  (tooling = true ->
     result r = false /\ s_rtc_magic (world r) = 0 /\
     calls (events r) = [EvRtcWrite 0]) /\
  (tooling = false -> s_rtc_magic w = kDrdMagic ->
     result r = true /\ s_rtc_magic (world r) = 0 /\
     calls (events r) = [EvRtcRead kDrdMagic; EvRtcWrite 0]) /\
  (tooling = false -> s_rtc_magic w <> kDrdMagic ->
     let arm := schedule_disarm window (with_rtc kDrdMagic w) in
     result r = false /\ s_rtc_magic (world r) = kDrdMagic /\
     world r = with_det (set_cached_result_ false) (world arm) /\
     calls (events r) =
       EvRtcRead (s_rtc_magic w) :: EvRtcWrite kDrdMagic :: calls (events arm)).
Proof.
  intros r. subst r. destruct w as [d rtc p]; simpl.
  unfold check_and_clear_rtc.
  split; [| split].
  - intros ->. exec. repeat split.
  - intros -> ->. exec. repeat split.
  - intros -> Hm. apply Z.eqb_neq in Hm. exec.
    match goal with
    | |- context [schedule_disarm ?win ?W] =>
        pose proof (schedule_disarm_keeps_rtc kDrdMagic win W eq_refl)
          as [Hr _];
        destruct (schedule_disarm win W) as [[u w2] e2] eqn:E
    end.
    simpl in *. rewrite !app_nil_r. repeat split. exact Hr.
Qed.

Ltac backend_side :=
  solve [ reflexivity
        | intros; reflexivity
        | let w := fresh in let H := fresh in
          intros w H; unfold backend_rtc in *; simpl; first [assumption | reflexivity] ].

Lemma schedule_disarm_keeps_backend window :
  keeps backend_rtc any_event (schedule_disarm window).
Proof. keeps_with backend_side. Qed.

Lemma check_and_clear_rtc_keeps_backend tooling window :
  keeps backend_rtc any_event (check_and_clear_rtc tooling window).
Proof. keeps_with backend_side. Qed.

Lemma check_and_clear_keeps_backend window :
  keeps backend_rtc any_event (check_and_clear window).
Proof. keeps_with backend_side. Qed.

Lemma run_entries_keep_backend es :
  keeps backend_rtc any_event (run_entries es).
Proof.
  induction es as [|e rest IH]; simpl.
  - apply keeps_ret.
  - apply keeps_bind; [| intros _; exact IH].
    pose proof check_and_clear_keeps_backend.
    destruct e; keeps_with backend_side.
Qed.

Opaque check_and_clear_rtc.

(** C5 (amended). When the NVS backend is selected, the detector is not yet
    configured and the [configure] that [check_and_clear] runs itself fails,
    the backend becomes RTC: the call gives the result and the world of the
    RTC decision [check_and_clear_rtc] run after the failed [configure], so
    a tooling reset or a cell without the magic gives [false] and a cell
    with the magic gives [true]; the backend stays RTC whatever runs
    later. *)
Theorem check_and_clear_degrades (window : Z) (es : list entry) (w : World) :
  evaluated_ (det w) = false ->
  configured_ (det w) = false ->
  backend_ (det w) = NVS ->
  result (configure (mark_evaluated w)) <> ESP_OK ->
  let r := check_and_clear window w in
  let tooling := is_tooling_reset (reset_reason (plat w)) in
  let w1 := with_det (set_backend_ RTC) (world (configure (mark_evaluated w))) in
  let rr := check_and_clear_rtc tooling window w1 in
  result r = result rr /\
  world r = world rr /\
  s_rtc_magic w1 = s_rtc_magic w /\
  backend_ (det (world r)) = RTC /\
  backend_ (det (world (run_entries es (world r)))) = RTC /\
  (tooling = true -> result r = false /\ s_rtc_magic (world r) = 0) /\
  (tooling = false -> s_rtc_magic w = kDrdMagic ->
     result r = true /\ s_rtc_magic (world r) = 0) /\
  (tooling = false -> s_rtc_magic w <> kDrdMagic ->
     result r = false /\ s_rtc_magic (world r) = kDrdMagic /\
     world r =
       with_det (set_cached_result_ false)
         (world (schedule_disarm window (with_rtc kDrdMagic w1)))).
Proof.
  intros He Hc Hb Hfail r tooling w1 rr.
  pose proof (configure_frame (mark_evaluated w)) as (Hs2 & Hs3).
  assert (Hr : result r = result rr /\ world r = world rr).
  { subst r rr w1 tooling. rewrite check_and_clear_first by exact He.
    destruct w as [d rtc p]. unfold mark_evaluated, with_det in *; simpl in *.
    destruct (configure _) as [[e w'] evs] eqn:E. 
    unfold result, world in Hfail, Hs2, Hs3; simpl in *.
    apply not_err_true in Hfail. rewrite Hb in Hs2.
    unfold evaluate, classify_and_configure, esp_reset_reason, result, world.
    exec.
    all: try destruct (check_and_clear_rtc _ _ _) as [[b w2] e2].
    all: split; reflexivity. }
  destruct Hr as [Hr1 Hr2].
  assert (Hw1 : s_rtc_magic w1 = s_rtc_magic w) by exact Hs3.
  assert (Hb1 : backend_rtc (world r)).
  { rewrite Hr2. subst rr.
    apply (check_and_clear_rtc_keeps_backend tooling window w1). reflexivity. }
  pose proof (check_and_clear_rtc_cases tooling window w1) as (C1 & C2 & C3).
  fold rr in C1, C2, C3. rewrite Hw1 in C2, C3. rewrite Hr1, Hr2.
  split; [reflexivity | split; [reflexivity | split; [exact Hw1 |]]].
  split; [rewrite <- Hr2; exact Hb1 |].
  split; [rewrite <- Hr2; apply (run_entries_keep_backend es (world r) Hb1) |].
  split; [| split].
  - intros Ht. destruct (C1 Ht) as (? & ? & _). split; assumption.
  - intros Ht Hm. destruct (C2 Ht Hm) as (? & ? & _). split; assumption.
  - intros Ht Hm. destruct (C3 Ht Hm) as (? & ? & ? & _).
    split; [assumption | split; assumption].
Qed.

Transparent check_and_clear_rtc.


(** ** Contracts of the NVS operations *)

Lemma fault_code_not_ok f : fault_code f <> ESP_OK.
Proof. destruct f; discriminate. Qed.

Lemma fault_code_found f : fault_code f <> ESP_ERR_NVS_NOT_FOUND.
Proof. destruct f; discriminate. Qed.

Ltac op_cases :=
  unfold_ops; unfold same_services;
  repeat match goal with
         | |- context [match faults ?p with _ => _ end] =>
             destruct (faults p) as [|[?|] ?]
         | |- context [if ?b then _ else _] => destruct b eqn:?
         | |- context [match ?x with _ => _ end] =>
             let T := type of x in
             lazymatch eval hnf in T with
             | option _ => destruct x eqn:?
             end
         | |- _ => progress simpl
         end.

Lemma nvs_set_op_spec h k v p e p' :
  nvs_set_op h k v p = (e, p') ->
  same_services p p' /\
  nvs_durable (nvs p') = nvs_durable (nvs p) /\
  ((e = ESP_OK /\ nvs_staged (nvs p') = <[k := v]> (nvs_staged (nvs p))) \/
   (e <> ESP_OK /\ nvs_staged (nvs p') = nvs_staged (nvs p))).
Proof.
  destruct p as [rr sha n t nt fs]. revert e p'. op_cases.
  all: intros e p' [= <- <-]; simpl; repeat split; auto.
  all: right; split; [first [apply fault_code_not_ok | discriminate] | reflexivity].
Qed.

Lemma nvs_erase_key_op_spec h k p e p' :
  nvs_erase_key_op h k p = (e, p') ->
  same_services p p' /\
  nvs_durable (nvs p') = nvs_durable (nvs p) /\
  ((e = ESP_OK /\ nvs_staged (nvs p') = delete k (nvs_staged (nvs p))) \/
   (e = ESP_ERR_NVS_NOT_FOUND /\ nvs_staged (nvs p) !! k = None /\
    nvs_staged (nvs p') = nvs_staged (nvs p)) \/
   (e <> ESP_OK /\ e <> ESP_ERR_NVS_NOT_FOUND /\
    nvs_staged (nvs p') = nvs_staged (nvs p))).
Proof.
  destruct p as [rr sha n t nt fs]. revert e p'. op_cases.
  all: intros e p' [= <- <-]; simpl; repeat split; auto.
  all: try (right; left; repeat split; assumption).
  all: right; right; repeat split;
         first [apply fault_code_not_ok | apply fault_code_found | discriminate
               | reflexivity].
Qed.

Lemma nvs_commit_op_spec h p e p' :
  nvs_commit_op h p = (e, p') ->
  same_services p p' /\
  nvs_staged (nvs p') = nvs_staged (nvs p) /\
  ((e = ESP_OK /\ nvs_durable (nvs p') = nvs_staged (nvs p)) \/
   (e <> ESP_OK /\ nvs_durable (nvs p') = nvs_durable (nvs p))).
Proof.
  destruct p as [rr sha n t nt fs]. revert e p'. op_cases.
  all: intros e p' [= <- <-]; simpl; repeat split; auto.
  all: right; split; [first [apply fault_code_not_ok | discriminate] | reflexivity].
Qed.

Lemma nvs_get_op_spec {A} (sel : nvs_value -> A -> esp_err_t * A) h k out p r p' :
  nvs_get_op sel h k out p = (r, p') ->
  same_services p p' /\
  nvs_staged (nvs p') = nvs_staged (nvs p) /\
  nvs_durable (nvs p') = nvs_durable (nvs p) /\
  ((exists v, nvs_staged (nvs p) !! k = Some v /\ r = sel v out) \/
   (fst r = ESP_ERR_NVS_NOT_FOUND /\ nvs_staged (nvs p) !! k = None /\ snd r = out) \/
   (fst r <> ESP_OK /\ fst r <> ESP_ERR_NVS_NOT_FOUND /\ snd r = out)).
Proof.
  destruct p as [rr sha n t nt fs]. revert r p'. op_cases.
  all: intros r p' [= <- <-]; simpl; repeat split; auto.
  all: try (left; eexists; split; [first [eassumption | reflexivity] | reflexivity]).
  all: try (right; left; repeat split; assumption).
  all: right; right; repeat split;
         first [apply fault_code_not_ok | apply fault_code_found | discriminate
               | reflexivity].
Qed.

(** ** The arm-timer callback *)

(** Turn the equations of the platform calls of a run into their
    contracts, and the tests on status codes into (dis)equalities. *)
Ltac op_specs :=
  repeat match goal with
         | H : nvs_set_op _ _ _ _ = _ |- _ =>
             apply nvs_set_op_spec in H;
             destruct H as ((? & ? & ? & ? & ?) & ? & [[? ?]|[? ?]])
         | H : nvs_erase_key_op _ _ _ = _ |- _ =>
             apply nvs_erase_key_op_spec in H;
             destruct H as ((? & ? & ? & ? & ?) & ? &
                            [[? ?]|[(? & ? & ?)|(? & ? & ?)]])
         | H : nvs_commit_op _ _ = _ |- _ =>
             apply nvs_commit_op_spec in H;
             destruct H as ((? & ? & ? & ? & ?) & ? & [[? ?]|[? ?]])
         | H : not_err _ _ = true |- _ => apply not_err_true in H
         | H : not_err _ _ = false |- _ => apply not_err_false in H
         end.

(** ** clear_flag *)

Lemma calls_app l1 l2 : calls (l1 ++ l2) = calls l1 ++ calls l2.
Proof. unfold calls. induction l1 as [|a l IH]; simpl; [reflexivity|].
  destruct (is_log a); simpl; rewrite IH; reflexivity. Qed.

Lemma calls_when_log b lvl msg w :
  calls (events (when b (emit (EvLog lvl msg)) w)) = [] /\
  world (when b (emit (EvLog lvl msg)) w) = w.
Proof. destruct b; split; reflexivity. Qed.

Lemma erase_keys_cons h k rest w :
  exists e p',
    nvs_erase_key_op h k (plat w) = (e, p') /\
    world (erase_keys h (k :: rest) w) =
      world (erase_keys h rest (with_plat p' w)) /\
    calls (events (erase_keys h (k :: rest) w)) =
      EvNvsEraseKey k e :: calls (events (erase_keys h rest (with_plat p' w))).
Proof.
  destruct (nvs_erase_key_op h k (plat w)) as [e p'] eqn:E.
  exists e, p'. split; [reflexivity |].
  cbn [erase_keys].
  repeat first [ rewrite bind_world | rewrite bind_events
               | rewrite bind_result | rewrite calls_app ].
  unfold nvs_erase_key, call. rewrite E.
  unfold ESP_LOGW.
  cbn [result world events fst snd].
  destruct (calls_when_log
              (not_err e ESP_OK && not_err e ESP_ERR_NVS_NOT_FOUND) LOGW
              "nvs_erase_key('%s') failed. err=%s" (with_plat p' w)) as [-> ->].
  split; reflexivity.
Qed.

Lemma erase_keys_spec (h : Z) (keys : list string) (w : World) :
  let r := erase_keys h keys w in
  exists es,
    length es = length keys /\
    calls (events r) = zip_with EvNvsEraseKey keys es /\
    det (world r) = det w /\
    durable (world r) = durable w /\
    (forall k, staged w !! k = None -> staged (world r) !! k = None) /\
    (forall i k e, keys !! i = Some k -> es !! i = Some e -> erased e ->
       staged (world r) !! k = None).
Proof.
  revert w. induction keys as [|k rest IH]; intros w r; subst r.
  - exists []. simpl. repeat split; auto. intros i k e Hk. destruct i; discriminate.
  - destruct (erase_keys_cons h k rest w) as (e & p' & E & -> & ->).
    destruct (IH (with_plat p' w)) as (es & Hl & Hc & Hd & Hdur & Hmono & Hgone).
    apply nvs_erase_key_op_spec in E.
    destruct E as (_ & Hdur1 & Hst).
    assert (Hmono1 : forall k', staged w !! k' = None ->
                                staged (with_plat p' w) !! k' = None).
    { intros k' Hk'. unfold staged in *; simpl.
      destruct Hst as [[_ ->]|[(_ & _ & ->)|(_ & _ & ->)]]; auto.
      rewrite lookup_delete. case_decide; auto. }
    exists (e :: es). repeat split.
    + simpl. rewrite Hl. reflexivity.
    + rewrite Hc. reflexivity.
    + exact Hd.
    + rewrite Hdur. unfold durable; simpl. exact Hdur1.
    + intros k' Hk'. apply Hmono, Hmono1, Hk'.
    + intros i k' e' Hk He Her. destruct i as [|i]; simpl in *.
      * injection Hk as <-. injection He as <-. apply Hmono.
        unfold staged; simpl.
        destruct Hst as [[_ ->]|[(_ & Hn & ->)|(H1 & H2 & _)]].
        -- apply lookup_delete_eq.
        -- exact Hn.
        -- destruct Her; contradiction.
      * eapply Hgone; eauto.
Qed.

Ltac proj_run :=
  repeat first
    [ rewrite bind_world | rewrite bind_events | rewrite bind_result
    | rewrite calls_app | rewrite gets_run | rewrite modify_run
    | rewrite result_pair | rewrite world_pair | rewrite events_pair ].

Lemma clear_flag_nvs_run (w : World) :
  backend_ (det w) = NVS ->
  nvs_ready_ (det w) = true ->
  let h := nvs_handle_ (det w) in
  let w1 := world (erase_keys h clear_flag_keys w) in
  exists ec p',
    nvs_commit_op h (plat w1) = (ec, p') /\
    world (clear_flag w) = with_plat p' w1 /\
    calls (events (clear_flag w)) =
      calls (events (erase_keys h clear_flag_keys w)) ++ [EvNvsCommit ec].
Proof.
  intros Hb Hr h w1.
  destruct (nvs_commit_op h (plat w1)) as [ec p'] eqn:E.
  exists ec, p'. split; [reflexivity |].
  unfold clear_flag. proj_run. rewrite Hb.
  change (bool_decide (NVS = RTC)) with false. cbv iota.
  proj_run. rewrite Hr. cbv iota beta. cbn [negb]. cbv iota.
  proj_run. fold h. fold w1. unfold nvs_commit, call. rewrite E.
  cbn [result world events fst snd]. unfold ESP_LOGW, ESP_LOGI.
  destruct (calls_when_log (not_err ec ESP_OK) LOGW
              "nvs_commit() in clear_flag failed. err=%s" (with_plat p' w1))
    as [-> ->].
  split; reflexivity.
Qed.

(** C9 (amended). On the NVS backend with the store ready, [clear_flag]
    calls [nvs_erase_key] for the six keys of the detector, in the order
    magic, last_boot_us, fw_dirty, first_boot, app_sha256, app_hash, then
    [nvs_commit].  Every key whose erase returned [ESP_OK] or
    [ESP_ERR_NVS_NOT_FOUND] is absent from the namespace afterwards; when
    the commit returns [ESP_OK] flash holds what the handle sees.  So when
    no erase and no commit fails, the six keys are absent, durably. *)
Theorem clear_flag_nvs_erases (w : World) :
  backend_ (det w) = NVS ->
  nvs_ready_ (det w) = true ->
  let r := clear_flag w in
  exists es ec,
    length es = length clear_flag_keys /\
    calls (events r) =
      zip_with EvNvsEraseKey clear_flag_keys es ++ [EvNvsCommit ec] /\
    (forall i k e, clear_flag_keys !! i = Some k -> es !! i = Some e ->
       erased e -> staged (world r) !! k = None) /\
    (ec = ESP_OK -> durable (world r) = staged (world r)) /\
    (Forall erased es -> ec = ESP_OK ->
     forall k, k ∈ clear_flag_keys ->
       staged (world r) !! k = None /\ durable (world r) !! k = None).
Proof.
  intros Hb Hr r. subst r.
  destruct (clear_flag_nvs_run w Hb Hr) as (ec & p' & E & -> & ->).
  destruct (erase_keys_spec (nvs_handle_ (det w)) clear_flag_keys w)
    as (es & Hl & -> & _ & _ & _ & Hgone).
  apply nvs_commit_op_spec in E. destruct E as (_ & Hst & Hdur).
  set (w1 := world (erase_keys (nvs_handle_ (det w)) clear_flag_keys w)) in *.
  assert (Hs : staged (with_plat p' w1) = staged w1) by exact Hst.
  assert (Hd : ec = ESP_OK -> durable (with_plat p' w1) = staged (with_plat p' w1)).
  { intros ->. rewrite Hs. unfold durable, staged; simpl.
    destruct Hdur as [[_ ->]|[? _]]; [reflexivity | contradiction]. }
  assert (Hg : forall i k e, clear_flag_keys !! i = Some k -> es !! i = Some e ->
                 erased e -> staged (with_plat p' w1) !! k = None).
  { intros i k e Hk He Her. rewrite Hs. eapply Hgone; eauto. }
  exists es, ec.
  split; [exact Hl | split; [reflexivity | split; [exact Hg | split; [exact Hd |]]]].
  intros Hall Hec k Hin.
  assert (Hk : staged (with_plat p' w1) !! k = None).
  { apply list_elem_of_lookup in Hin. destruct Hin as [i Hi].
    destruct (lookup_lt_is_Some_2 es i) as [e He].
    { rewrite Hl. eapply lookup_lt_Some; eauto. }
    apply (Hg i k e Hi He).
    rewrite Forall_forall in Hall. apply Hall.
    eapply list_elem_of_lookup_2; eauto. }
  split; [exact Hk | rewrite (Hd Hec); exact Hk].
Qed.

(** ** What the NVS decision reads *)

Lemma nvs_flash_init_op_frame p :
  timers (snd (nvs_flash_init_op p)) = timers p /\
  nvs_staged (nvs (snd (nvs_flash_init_op p))) = nvs_staged (nvs p).
Proof. destruct p. op_cases; split; reflexivity. Qed.

Lemma nvs_open_op_frame out p :
  timers (snd (nvs_open_op out p)) = timers p /\
  nvs_staged (nvs (snd (nvs_open_op out p))) = nvs_staged (nvs p).
Proof. destruct p. op_cases; split; reflexivity. Qed.

Lemma nvs_get_op_frame {A} (sel : nvs_value -> A -> esp_err_t * A) h k out p :
  timers (snd (nvs_get_op sel h k out p)) = timers p /\
  nvs_staged (nvs (snd (nvs_get_op sel h k out p))) = nvs_staged (nvs p).
Proof.
  destruct (nvs_get_op sel h k out p) as [r p'] eqn:E.
  apply nvs_get_op_spec in E. destruct E as ((? & _) & ? & _). split; assumption.
Qed.

Lemma nvs_set_op_timers h k v p : timers (snd (nvs_set_op h k v p)) = timers p.
Proof.
  destruct (nvs_set_op h k v p) as [r p'] eqn:E.
  apply nvs_set_op_spec in E. destruct E as ((? & _) & _). assumption.
Qed.

Lemma nvs_erase_key_op_timers h k p :
  timers (snd (nvs_erase_key_op h k p)) = timers p.
Proof.
  destruct (nvs_erase_key_op h k p) as [r p'] eqn:E.
  apply nvs_erase_key_op_spec in E. destruct E as ((? & _) & _). assumption.
Qed.

Lemma nvs_commit_op_frame h p :
  timers (snd (nvs_commit_op h p)) = timers p /\
  nvs_staged (nvs (snd (nvs_commit_op h p))) = nvs_staged (nvs p).
Proof.
  destruct (nvs_commit_op h p) as [r p'] eqn:E.
  apply nvs_commit_op_spec in E. destruct E as ((? & _) & ? & _). split; assumption.
Qed.

Ltac timers_side :=
  solve [ reflexivity
        | intros; reflexivity
        | let w := fresh "w" in let H1 := fresh in let H2 := fresh in
          intros w [H1 H2]; split; simpl;
          [ exact H1
          | first
              [ exact H2
              | rewrite (proj1 (nvs_flash_init_op_frame _)); exact H2
              | rewrite (proj1 (nvs_open_op_frame _ _)); exact H2
              | rewrite (proj1 (nvs_get_op_frame _ _ _ _ _)); exact H2
              | rewrite nvs_set_op_timers; exact H2
              | rewrite nvs_erase_key_op_timers; exact H2
              | rewrite (proj1 (nvs_commit_op_frame _ _)); exact H2 ] ] ].

Lemma classify_and_configure_keeps_timers d t :
  keeps (timers_are d t) sensing_event classify_and_configure.
Proof. keeps_with timers_side. Qed.

Lemma read_nvs_state_keeps_timers d t h :
  keeps (timers_are d t) sensing_event (read_nvs_state h).
Proof. keeps_with timers_side. Qed.

Lemma dirty_after_set h k v p x :
  nvs_staged (nvs p) !! kKeyDirty = Some (U8 x) -> x <> 0 ->
  (k = kKeyDirty -> v = U8 1) ->
  exists y,
    nvs_staged (nvs (snd (nvs_set_op h k v p))) !! kKeyDirty = Some (U8 y) /\
    y <> 0.
Proof.
  intros Hx Hnz Hk.
  destruct (nvs_set_op h k v p) as [e p'] eqn:E.
  apply nvs_set_op_spec in E. cbn [snd].
  destruct E as (_ & _ & [[_ ->]|[_ ->]]); simpl.
  - destruct (decide (k = kKeyDirty)) as [->|Hne].
    + rewrite (Hk eq_refl), lookup_insert_eq. exists 1. split; [reflexivity | lia].
    + rewrite lookup_insert_ne by exact Hne. eauto.
  - eauto.
Qed.

Lemma dirty_after_erase h k p x :
  nvs_staged (nvs p) !! kKeyDirty = Some (U8 x) ->
  k <> kKeyDirty ->
  nvs_staged (nvs (snd (nvs_erase_key_op h k p))) !! kKeyDirty = Some (U8 x).
Proof.
  intros Hx Hk.
  destruct (nvs_erase_key_op h k p) as [e p'] eqn:E.
  apply nvs_erase_key_op_spec in E. cbn [snd].
  destruct E as (_ & _ & [[_ ->]|[(_ & _ & ->)|(_ & _ & ->)]]); simpl; auto.
  rewrite lookup_delete_ne by exact Hk. exact Hx.
Qed.

Ltac dirty_side :=
  solve [ reflexivity
        | intros; reflexivity
        | let w := fresh "w" in let v := fresh "v" in
          let H1 := fresh in let H2 := fresh in
          intros w (v & H1 & H2); unfold dirty_flag_set, staged in *; simpl;
          first
            [ exists v; split; [exact H1 | exact H2]
            | exists v; split; [| exact H2];
              first
                [ rewrite (proj2 (nvs_flash_init_op_frame _)); exact H1
                | rewrite (proj2 (nvs_open_op_frame _ _)); exact H1
                | rewrite (proj2 (nvs_get_op_frame _ _ _ _ _)); exact H1
                | rewrite (proj2 (nvs_commit_op_frame _ _)); exact H1
                | apply dirty_after_erase; [exact H1 | discriminate] ]
            | eapply dirty_after_set; [exact H1 | exact H2 | ];
              first [ intros _; reflexivity | intros; discriminate ] ] ].

Lemma classify_and_configure_keeps_dirty :
  keeps dirty_flag_set any_event classify_and_configure.
Proof. keeps_with dirty_side. Qed.

Lemma track_identity_keeps_dirty h :
  keeps dirty_flag_set any_event (track_identity h).
Proof. keeps_with dirty_side. Qed.

Lemma read_firmware_dirty_set h changed w :
  dirty_flag_set w -> result (read_firmware_dirty h changed w) = true.
Proof.
  intros (v & Hv & Hnz). unfold read_firmware_dirty.
  proj_run. unfold nvs_get_u8, call.
  destruct (nvs_get_op sel_u8 h kKeyDirty 0 (plat w)) as [[e x] p'] eqn:E.
  apply nvs_get_op_spec in E. destruct E as (_ & _ & _ & Hc).
  unfold staged in Hv. cbn [result world events fst snd].
  destruct Hc as [(v' & Hv' & Hs)|[(H1 & H2 & _)|(H1 & H2 & _)]].
  - rewrite Hv in Hv'. injection Hv' as <-. simpl in Hs. injection Hs as -> ->.
    change (is_err ESP_OK ESP_OK) with true. cbv iota. 
    proj_run. apply negb_true_iff, Z.eqb_neq, Hnz.
  - congruence.
  - simpl in H1, H2.
    assert (is_err e ESP_OK = false) as -> by (apply bool_decide_eq_false; exact H1).
    assert (is_err e ESP_ERR_NVS_NOT_FOUND = false) as ->
      by (apply bool_decide_eq_false; exact H2).
    reflexivity.
Qed.

Lemma read_nvs_state_dirty h w :
  dirty_flag_set w -> fst (result (read_nvs_state h w)) = true.
Proof.
  intros Hd. unfold read_nvs_state. proj_run.
  apply read_firmware_dirty_set.
  apply (track_identity_keeps_dirty h w Hd).
Qed.

(** C3. With the Dirty Flag reading as true at the entry of the boot (the
    fw_dirty key holds a nonzero u8), the first [check_and_clear] that
    decides on the NVS backend (the backend is still NVS when it returns)
    gives [false], whatever the marker, the identity, the reset reason and
    the failures of the platform. *)
Theorem dirty_flag_blocks_detection (window : Z) (w : World) :
  evaluated_ (det w) = false ->
  backend_ (det w) = NVS ->
  dirty_flag_set w ->
  let r := check_and_clear window w in
  backend_ (det (world r)) = NVS ->
  result r = false.
Proof.
  intros He _ Hd r. subst r.
  rewrite check_and_clear_first by exact He.
  assert (Hd0 : dirty_flag_set (mark_evaluated w)) by exact Hd.
  destruct (classify_and_configure_keeps_dirty _ Hd0) as [Hd1 _].
  unfold evaluate. proj_run.
  set (w0 := world (classify_and_configure (mark_evaluated w))) in *.
  set (t := result (classify_and_configure (mark_evaluated w))).
  destruct (backend_ (det w0)) eqn:Hb.
  - change (bool_decide (RTC = RTC)) with true. cbv iota.
    intros Hfinal.
    pose proof (check_and_clear_rtc_keeps_backend t window w0 Hb) as [Hk _].
    unfold backend_rtc in Hk. congruence.
  - change (bool_decide (NVS = RTC)) with false. cbv iota.
    intros _. proj_run.
    destruct (nvs_ready_ (det w0)); cbn [negb]; cbv iota; [| reflexivity].
    unfold check_and_clear_nvs. proj_run.
    rewrite (read_nvs_state_dirty _ _ Hd1).
    cbn [negb]. rewrite andb_false_r. cbn [andb]. cbv iota.
    proj_run. reflexivity.
Qed.

(** ** The arming branch of the NVS decision *)

Lemma events_after_skip p l1 l2 :
  forallb (fun ev => negb (p ev)) l1 = true ->
  events_after p (l1 ++ l2) = events_after p l2.
Proof.
  induction l1 as [|a l IH]; simpl; [reflexivity |].
  intros H. apply andb_true_iff in H. destruct H as [Ha Hl].
  apply negb_true_iff in Ha. rewrite Ha. exact (IH Hl).
Qed.

Lemma events_after_none p l :
  forallb (fun ev => negb (p ev)) l = true -> events_after p l = None.
Proof.
  intros H. rewrite <- (app_nil_r l). rewrite events_after_skip by exact H.
  reflexivity.
Qed.

Lemma sensing_not_clean l :
  forallb sensing_event l = true -> forallb not_clean_log l = true.
Proof.
  induction l as [|a l IH]; simpl; [reflexivity |].
  intros H. apply andb_true_iff in H. destruct H as [Ha Hl].
  unfold sensing_event in Ha. apply andb_true_iff in Ha.
  rewrite IH by exact Hl. unfold not_clean_log at 1.
  destruct Ha as [_ ->]. reflexivity.
Qed.

Ltac any_side := solve [ reflexivity | intros; reflexivity | intros; exact I ].

Lemma schedule_disarm_not_clean window :
  keeps any_world not_clean_log (schedule_disarm window).
Proof. keeps_with any_side. Qed.

Lemma schedule_arm_not_clean window :
  keeps any_world not_clean_log (schedule_arm window).
Proof. pose proof schedule_disarm_not_clean. keeps_with any_side. Qed.

Lemma check_and_clear_rtc_not_clean tooling window :
  keeps any_world not_clean_log (check_and_clear_rtc tooling window).
Proof. pose proof schedule_disarm_not_clean. keeps_with any_side. Qed.

Lemma nvs_detected_not_clean h : keeps any_world not_clean_log (nvs_detected h).
Proof. keeps_with any_side. Qed.

Lemma nvs_tooling_reset_not_clean h window :
  keeps any_world not_clean_log (nvs_tooling_reset h window).
Proof. pose proof schedule_arm_not_clean. keeps_with any_side. Qed.

Lemma nvs_arm_window_run (h window : Z) (w : World) :
  let r := nvs_arm_window h window w in
  let set_magic := EvNvsSet kKeyMagic (U32 kDrdMagic) in
  exists post,
    events r = EvLog LOGI MSG_FIRMWARE_CLEAN :: post /\
    ((exists e, e <> ESP_OK /\
        abandoned w (world r) (calls post) [] (set_magic e)) \/
     (exists e, e <> ESP_OK /\
        abandoned w (world r) (calls post) [set_magic ESP_OK] (EvNvsCommit e)) \/
     (exists w1,
        let arm := schedule_disarm window w1 in
        calls post = [set_magic ESP_OK; EvNvsCommit ESP_OK] ++ calls (events arm) /\
        world r = world arm /\
        staged w1 !! kKeyMagic = Some (U32 kDrdMagic) /\
        durable w1 = staged w1)).
Proof.
  intros r set_magic. subst r set_magic.
  destruct w as [d rtc p]. unfold abandoned.
  destruct (nvs_arm_window _ _ _) as [[[] w'] evs] eqn:E.
  unfold result, world, events; simpl. revert E.
  unfold nvs_arm_window, nvs_set_u32, nvs_commit.
  Opaque schedule_disarm. exec_calls. Transparent schedule_disarm.
  3: destruct (schedule_disarm _ _) as [[[] w2] e2] eqn:E2.
  all: intros [= <- <-]; eexists; (split; [reflexivity |]).
  all: op_specs; subst; try congruence; simpl in *.
  - left. eexists; repeat split; eauto.
  - right; left. eexists; repeat split; eauto. congruence.
  - right; right. eexists. rewrite E2. unfold staged, durable.
    split; [simpl; rewrite ?app_nil_r; reflexivity |].
    split; [reflexivity |]. split; simpl.
    + match goal with H : nvs_staged (nvs ?p2) = nvs_staged (nvs ?p1) |- _ =>
        rewrite H end.
      match goal with H : nvs_staged (nvs _) = <[_ := _]> _ |- _ =>
        rewrite H end.
      apply lookup_insert_eq.
    + congruence.
Qed.

(** C7. Whenever the first [check_and_clear] of a boot takes the arming
    branch of the NVS decision (it logs "Firmware clean. Arming DRD
    window"), it returns [false], and what follows the log line is: the
    marker write, which if it fails is the last call; else the commit,
    which if it fails is the last call; else [schedule_disarm window].  In
    the two failing cases the disarm timer handle and the timer service are
    what they were at the entry of the call: no timer is scheduled. *)
Theorem arming_failure_keeps_result (window : Z) (w : World) :
  evaluated_ (det w) = false ->
  let r := check_and_clear window w in
  forall post,
    events_after is_firmware_clean_log (events r) = Some post ->
    let set_magic := EvNvsSet kKeyMagic (U32 kDrdMagic) in
    let stopped := abandoned w (world r) (calls post) in
    result r = false /\
    ((exists e, e <> ESP_OK /\ stopped [] (set_magic e)) \/
     (exists e, e <> ESP_OK /\ stopped [set_magic ESP_OK] (EvNvsCommit e)) \/
     (exists w1,
        let arm := schedule_disarm window w1 in
        calls post = [set_magic ESP_OK; EvNvsCommit ESP_OK] ++ calls (events arm) /\
        world r = with_det (set_cached_result_ false) (world arm) /\
        staged w1 !! kKeyMagic = Some (U32 kDrdMagic) /\
        durable w1 = staged w1)).
Proof.
  intros He r post. subst r.
  rewrite check_and_clear_first by exact He.
  pose proof (classify_and_configure_keeps_timers
                (disarm_timer_ (det w)) (timers (plat w)) (mark_evaluated w))
    as [Ht0 Hpre]; [split; reflexivity |].
  unfold evaluate. proj_run.
  set (w0 := world (classify_and_configure (mark_evaluated w))) in *.
  set (t := result (classify_and_configure (mark_evaluated w))).
  rewrite events_after_skip by (apply sensing_not_clean, Hpre).
  cbn [app].
  destruct (backend_ (det w0)) eqn:Hb.
  { change (bool_decide (RTC = RTC)) with true. cbv iota.
    rewrite events_after_none; [discriminate |].
    apply (check_and_clear_rtc_not_clean t window w0 I). }
  change (bool_decide (NVS = RTC)) with false. cbv iota. proj_run. cbn [app].
  destruct (nvs_ready_ (det w0)) eqn:Hr; cbn [negb]; cbv iota.
  2: { proj_run. unfold ESP_LOGW. rewrite emit_run. proj_run. 
       intros H. vm_compute in H. discriminate. }
  unfold check_and_clear_nvs. proj_run. cbn [app].
  set (h := nvs_handle_ (det w0)).
  pose proof (read_nvs_state_keeps_timers _ _ h w0 Ht0) as [Ht1 Hsense].
  set (w1 := world (read_nvs_state h w0)) in *.
  set (s := result (read_nvs_state h w0)).
  rewrite events_after_skip by (apply sensing_not_clean, Hsense).
  destruct (negb t && negb s.1 && (s.2 =? kDrdMagic)) eqn:Hcond.
  { rewrite events_after_none; [discriminate |].
    apply (nvs_detected_not_clean h w1 I). }
  rewrite bind_events, bind_result, bind_world.
  set (branch := if s.1 then _ else _).
  change (events ((modify (set_cached_result_ false);; ret false)
                    (world (branch w1)))) with (@nil Event).
  change (result ((modify (set_cached_result_ false);; ret false)
                    (world (branch w1)))) with false.
  change (world ((modify (set_cached_result_ false);; ret false)
                    (world (branch w1))))
    with (with_det (set_cached_result_ false) (world (branch w1))).
  rewrite app_nil_r. subst branch.
  destruct (fst s) eqn:Hdirty.
  { rewrite events_after_none; [discriminate |].
    pose proof schedule_arm_not_clean as K.
    assert (K' : keeps any_world not_clean_log
              (ESP_LOGI "Firmware dirty for DRD. Arming after delay. delay_s=%u, window_s=%PRIu32" ;;
               schedule_arm window)) by keeps_with any_side.
    apply (K' w1 I). }
  destruct t eqn:Htool.
  { rewrite events_after_none; [discriminate |].
    apply (nvs_tooling_reset_not_clean h window w1 I). }
  destruct (nvs_arm_window_run h window w1) as (post0 & Hev & Hcases).
  rewrite Hev. cbn [events_after].
  change (is_firmware_clean_log (EvLog LOGI MSG_FIRMWARE_CLEAN))
    with (bool_decide (MSG_FIRMWARE_CLEAN = MSG_FIRMWARE_CLEAN)).
  rewrite bool_decide_eq_true_2 by reflexivity.
  intros [= <-]. split; [reflexivity |].
  destruct Ht1 as [Hd1 Htm1].
  destruct Hcases as [(e & Hne & Hc & Hd & Htm)|[(e & Hne & Hc & Hd & Htm)|
                      (w2 & Hc & Hw & Hs & Hdur)]].
  - left. exists e. split; [exact Hne |]. split; [exact Hc |]. split.
    + etransitivity; [| exact Hd1]. etransitivity; [| exact Hd]. reflexivity.
    + etransitivity; [| exact Htm1]. etransitivity; [| exact Htm]. reflexivity.
  - right; left. exists e. split; [exact Hne |]. split; [exact Hc |]. split.
    + etransitivity; [| exact Hd1]. etransitivity; [| exact Hd]. reflexivity.
    + etransitivity; [| exact Htm1]. etransitivity; [| exact Htm]. reflexivity.
  - right; right. exists w2. split; [exact Hc |]. split; [| split; assumption].
    rewrite Hw. reflexivity.
Qed.

(** ** The detection branch *)

Ltac det_side :=
  solve [ reflexivity
        | intros; reflexivity
        | let w := fresh in let H := fresh in
          intros w H; unfold det_but_disarm in *; simpl in *; exact H ].

Lemma cancel_disarm_keeps_det d :
  keeps (det_but_disarm d) any_event cancel_disarm.
Proof. keeps_with det_side. Qed.

Lemma cancel_disarm_det w :
  det (world (cancel_disarm w)) = set_disarm_timer_ None (det w).
Proof.
  pose proof (cancel_disarm_clears w) as Hc.
  destruct (cancel_disarm_keeps_det (det w) w eq_refl) as [Hk _].
  unfold det_but_disarm in Hk. rewrite <- Hk.
  destruct (det (world (cancel_disarm w))); simpl in *. subst. reflexivity.
Qed.

Lemma cancel_disarm_nvs w :
  nvs (plat (world (cancel_disarm w))) = nvs (plat w).
Proof.
  assert (K : keeps (fun w' => nvs (plat w') = nvs (plat w)) any_event cancel_disarm).
  { keeps_with ltac:(solve [ reflexivity | intros; reflexivity
      | let w' := fresh "w" in let H := fresh "H" in
        intros w' H; destruct w' as [? ? []]; simpl in *; unfold_ops;
        repeat first
            [ case_stuck
            | match goal with
              | |- context [let (_, _) := ?x in _] => destruct x
              end ];
          simpl; exact H ]). }
  apply (K w eq_refl).
Qed.

Lemma nvs_detected_run (h : Z) (w : World) :
  let r := nvs_detected h w in
  result r = true /\
  det (world r) = set_cached_result_ true (set_disarm_timer_ None (det w)) /\
  exists e_erase e_commit,
    calls (events r) =
      calls (events (cancel_disarm w))
      ++ [EvNvsEraseKey kKeyMagic e_erase; EvNvsCommit e_commit] /\
    (erased e_erase -> staged (world r) !! kKeyMagic = None) /\
    (erased e_erase -> e_commit = ESP_OK ->
     durable (world r) !! kKeyMagic = None).
Proof.
  intros r. subst r. unfold nvs_detected.
  rewrite bind_result, bind_world, bind_events.
  change (world (ESP_LOGI "Double reset detected using NVS backend" w)) with w.
  rewrite bind_result, bind_world, bind_events.
  pose proof (cancel_disarm_det w) as Hdet.
  pose proof (cancel_disarm_nvs w) as Hnvs.
  set (w2 := world (cancel_disarm w)) in *.
  destruct w2 as [d2 rtc2 p2]; simpl in Hdet, Hnvs.
  unfold nvs_erase_key, nvs_commit.
  destruct ((err <- call _ _ ;; _) _) as [[b w'] evs] eqn:E.
  revert E. exec_calls; intros [= <- <- <-]; unfold result, world, events; cbn [fst snd].
  all: (split; [reflexivity |]); (split; [simpl; congruence |]).
  all: eexists _, _; rewrite !calls_app; (split; [reflexivity |]).
  all: op_specs; unfold erased, staged, durable; simpl; subst.
  all: split; intros;
         repeat match goal with H : _ \/ _ |- _ => destruct H end;
         try congruence.
  all: repeat match goal with
              | H : nvs_staged _ = _ |- _ => rewrite H
              | H : nvs_durable _ = _ |- _ => rewrite H
              end.
  all: first [ apply lookup_delete_eq | assumption ].
Qed.

(** C1 (amended). When the first [check_and_clear] of a boot returns [true]:
    on the RTC backend the RTC cell is zero; on the NVS backend nothing
    before the detection branch touched a timer, the branch cancelled the
    disarm timer that was pending at the entry of the call, then called
    [nvs_erase_key(magic)], then [nvs_commit], and
    the marker is absent from the namespace provided the erase returned
    [ESP_OK] or [ESP_ERR_NVS_NOT_FOUND], and absent from flash provided the
    commit returned [ESP_OK] as well. *)
Theorem detection_clears_marker (window : Z) (w : World) :
  evaluated_ (det w) = false ->
  let r := check_and_clear window w in
  result r = true ->
  (backend_ (det (world r)) = RTC /\ s_rtc_magic (world r) = 0) \/
  (backend_ (det (world r)) = NVS /\
   disarm_timer_ (det (world r)) = None /\
   exists pre w1 e_erase e_commit,
     forallb sensing_event pre = true /\
     timers_are (disarm_timer_ (det w)) (timers (plat w)) w1 /\
     calls (events r) =
       calls pre ++ calls (events (cancel_disarm w1))
       ++ [EvNvsEraseKey kKeyMagic e_erase; EvNvsCommit e_commit] /\
     (erased e_erase -> staged (world r) !! kKeyMagic = None) /\
     (erased e_erase -> e_commit = ESP_OK ->
      durable (world r) !! kKeyMagic = None)).
Proof.
  intros He r. subst r.
  rewrite check_and_clear_first by exact He.
  pose proof (classify_and_configure_keeps_timers
                (disarm_timer_ (det w)) (timers (plat w)) (mark_evaluated w))
    as [Ht0 Hpre]; [split; reflexivity |].
  unfold evaluate. proj_run.
  set (w0 := world (classify_and_configure (mark_evaluated w))) in *.
  set (t := result (classify_and_configure (mark_evaluated w))).
  cbn [app].
  destruct (backend_ (det w0)) eqn:Hb.
  { change (bool_decide (RTC = RTC)) with true. cbv iota.
    intros Hres. left.
    pose proof (check_and_clear_rtc_keeps_backend t window w0 Hb) as [Hk _].
    split; [exact Hk |].
    pose proof (check_and_clear_rtc_cases t window w0) as (C1 & C2 & C3).
    destruct t.
    - destruct (C1 eq_refl) as (Hf & _). congruence.
    - destruct (decide (s_rtc_magic w0 = kDrdMagic)) as [Hm | Hm].
      + destruct (C2 eq_refl Hm) as (_ & Hz & _). exact Hz.
      + destruct (C3 eq_refl Hm) as (Hf & _). congruence. }
  change (bool_decide (NVS = RTC)) with false. cbv iota. proj_run. cbn [app].
  destruct (nvs_ready_ (det w0)) eqn:Hr; cbn [negb]; cbv iota.
  2: { proj_run. discriminate. }
  unfold check_and_clear_nvs. proj_run. cbn [app].
  set (h := nvs_handle_ (det w0)).
  pose proof (read_nvs_state_keeps_timers _ _ h w0 Ht0) as [Ht1 Hsense].
  assert (Hb1 : backend_ (det (world (read_nvs_state h w0))) = NVS).
  { assert (K : keeps (fun w' => backend_ (det w') = NVS) any_event
                  (read_nvs_state h)).
    { keeps_with ltac:(solve [ reflexivity | intros; reflexivity
                             | intros ? ?; simpl; assumption ]). }
    apply (K w0 Hb). }
  set (w1 := world (read_nvs_state h w0)) in *.
  set (s := result (read_nvs_state h w0)).
  destruct (negb t && negb s.1 && (s.2 =? kDrdMagic)) eqn:Hcond.
  2: { proj_run. discriminate. }
  intros _. right.
  destruct (nvs_detected_run h w1) as (_ & Hdet & e1 & e2 & Hc & Hs & Hd).
  split; [rewrite Hdet; exact Hb1 |].
  split; [rewrite Hdet; reflexivity |].
  exists (events (classify_and_configure (mark_evaluated w))
          ++ events (read_nvs_state h w0)), w1, e1, e2.
  split; [rewrite forallb_app, Hpre, Hsense; reflexivity |].
  split; [exact Ht1 |].
  split; [rewrite Hc, !calls_app, <- app_assoc; reflexivity |].
  split; assumption.
Qed.

(** ** Tooling resets and the need of a marker *)

Lemma classify_and_configure_result w :
  result (classify_and_configure w) = is_tooling_reset (reset_reason (plat w)).
Proof. unfold classify_and_configure. proj_run. reflexivity. Qed.

Ltac nvs_side :=
  solve [ reflexivity
        | intros; reflexivity
        | let w := fresh in let H := fresh in
          intros w H; unfold backend_nvs in *; simpl; first [assumption | reflexivity] ].

Lemma check_and_clear_nvs_keeps_backend tooling window :
  keeps backend_nvs any_event (check_and_clear_nvs tooling window).
Proof. keeps_with nvs_side. Qed.

Lemma check_and_clear_nvs_tooling window w :
  result (check_and_clear_nvs true window w) = false.
Proof. unfold check_and_clear_nvs. proj_run. cbn [negb andb]. cbv iota. proj_run. reflexivity. Qed.

(** X1. A tooling reset is never reported as a double reset. *)
Theorem tooling_reset_never_detects (window : Z) (w : World) :
  evaluated_ (det w) = false ->
  is_tooling_reset (reset_reason (plat w)) = true ->
  let r := check_and_clear window w in
  result r = false /\
  (backend_ (det (world r)) = RTC -> s_rtc_magic (world r) = 0).
Proof.
  intros He Ht r. subst r.
  rewrite check_and_clear_first by exact He.
  unfold evaluate. proj_run.
  rewrite classify_and_configure_result.
  change (reset_reason (plat (mark_evaluated w))) with (reset_reason (plat w)).
  rewrite Ht.
  set (w0 := world (classify_and_configure (mark_evaluated w))).
  destruct (backend_ (det w0)) eqn:Hb.
  - change (bool_decide (RTC = RTC)) with true. cbv iota.
    destruct (check_and_clear_rtc_cases true window w0) as (C1 & _).
    destruct (C1 eq_refl) as (H1 & H2 & _). split; [exact H1 | intros _; exact H2].
  - change (bool_decide (NVS = RTC)) with false. cbv iota. proj_run.
    destruct (nvs_ready_ (det w0)) eqn:Hr; cbn [negb]; cbv iota.
    + split; [apply check_and_clear_nvs_tooling |].
      pose proof (check_and_clear_nvs_keeps_backend true window w0 Hb) as [Hk _].
      unfold backend_nvs in Hk. congruence.
    + proj_run. split; [reflexivity |].
      unfold ESP_LOGW. rewrite emit_run. cbn. congruence.
Qed.

Lemma nvs_set_op_other h k v p k' :
  k' <> k ->
  nvs_staged (nvs (snd (nvs_set_op h k v p))) !! k' = nvs_staged (nvs p) !! k'.
Proof.
  intros Hk. destruct (nvs_set_op h k v p) as [e p'] eqn:E.
  apply nvs_set_op_spec in E. cbn [snd].
  destruct E as (_ & _ & [[_ ->]|[_ ->]]); [| reflexivity].
  apply lookup_insert_ne. congruence.
Qed.

Lemma nvs_erase_key_op_lookup h k p k' :
  nvs_staged (nvs (snd (nvs_erase_key_op h k p))) !! k' = None \/
  nvs_staged (nvs (snd (nvs_erase_key_op h k p))) !! k' = nvs_staged (nvs p) !! k'.
Proof.
  destruct (nvs_erase_key_op h k p) as [e p'] eqn:E.
  apply nvs_erase_key_op_spec in E. cbn [snd].
  destruct E as (_ & _ & [[_ ->]|[(_ & _ & ->)|(_ & _ & ->)]]); auto.
  destruct (decide (k' = k)) as [->|Hne].
  - left. apply lookup_delete_eq.
  - right. apply lookup_delete_ne. congruence.
Qed.

Lemma nvs_erase_key_op_other h k p k' :
  k' <> k ->
  nvs_staged (nvs (snd (nvs_erase_key_op h k p))) !! k' = nvs_staged (nvs p) !! k'.
Proof.
  intros Hk. destruct (nvs_erase_key_op h k p) as [e p'] eqn:E.
  apply nvs_erase_key_op_spec in E. cbn [snd].
  destruct E as (_ & _ & [[_ ->]|[(_ & _ & ->)|(_ & _ & ->)]]); auto.
  apply lookup_delete_ne. congruence.
Qed.

Ltac marker_side :=
  solve [ reflexivity
        | intros; reflexivity
        | let w := fresh "w" in let H := fresh "H" in
          intros w H; unfold marker_absent, staged in *; simpl;
          first
            [ exact H
            | rewrite (proj2 (nvs_flash_init_op_frame _)); exact H
            | rewrite (proj2 (nvs_open_op_frame _ _)); exact H
            | rewrite (proj2 (nvs_get_op_frame _ _ _ _ _)); exact H
            | rewrite (proj2 (nvs_commit_op_frame _ _)); exact H
            | rewrite nvs_set_op_other by discriminate; exact H
            | match goal with
              | |- nvs_staged (nvs (snd (nvs_erase_key_op ?h ?k ?p))) !! ?k' <> _ =>
                  destruct (nvs_erase_key_op_lookup h k p k') as [-> | ->];
                  [discriminate | exact H]
              end ] ].

Lemma classify_and_configure_keeps_no_marker :
  keeps marker_absent any_event classify_and_configure.
Proof. keeps_with marker_side. Qed.

Lemma track_identity_keeps_no_marker h :
  keeps marker_absent any_event (track_identity h).
Proof. keeps_with marker_side. Qed.

Lemma read_firmware_dirty_keeps_no_marker h c :
  keeps marker_absent any_event (read_firmware_dirty h c).
Proof. keeps_with marker_side. Qed.

Lemma read_stored_magic_absent h w :
  marker_absent w -> result (read_stored_magic h w) <> kDrdMagic.
Proof.
  intros Hm. unfold read_stored_magic. proj_run. unfold nvs_get_u32, call.
  destruct (nvs_get_op sel_u32 h kKeyMagic 0 (plat w)) as [[e x] p'] eqn:E.
  apply nvs_get_op_spec in E. destruct E as (_ & _ & _ & Hc).
  cbn [result world events fst snd].
  rewrite run_ret, result_pair.
  unfold marker_absent, staged in Hm.
  destruct Hc as [(v & Hv & Hs)|[(_ & _ & Hx)|(_ & _ & Hx)]].
  - destruct v; simpl in Hs; injection Hs as _ ->; try discriminate.
    intros ->. apply Hm, Hv.
  - simpl in Hx. subst x. discriminate.
  - simpl in Hx. subst x. discriminate.
Qed.

Lemma read_nvs_state_absent h w :
  marker_absent w -> snd (result (read_nvs_state h w)) <> kDrdMagic.
Proof.
  intros Hm. unfold read_nvs_state. proj_run.
  apply read_stored_magic_absent.
  apply (read_firmware_dirty_keeps_no_marker h _ _).
  apply (track_identity_keeps_no_marker h w Hm).
Qed.

(** X2. Detection needs the marker: the first [check_and_clear] of a boot
    returns [true] only if the reset is not a tooling reset and the marker
    of the deciding backend was set when the call began, the RTC cell equal
    to the magic or the magic key of the namespace holding it; this holds
    under every failure of the platform. *)
Theorem detection_needs_marker (window : Z) (w : World) :
  evaluated_ (det w) = false ->
  let r := check_and_clear window w in
  result r = true ->
  is_tooling_reset (reset_reason (plat w)) = false /\
  ((backend_ (det (world r)) = RTC /\ s_rtc_magic w = kDrdMagic) \/
   (backend_ (det (world r)) = NVS /\
    staged w !! kKeyMagic = Some (U32 kDrdMagic))).
Proof.
  intros He r. subst r.
  rewrite check_and_clear_first by exact He.
  unfold evaluate. proj_run.
  rewrite classify_and_configure_result.
  change (reset_reason (plat (mark_evaluated w))) with (reset_reason (plat w)).
  assert (Hrtc : s_rtc_magic (world (classify_and_configure (mark_evaluated w)))
                 = s_rtc_magic w).
  { assert (K : keeps (rtc_is (s_rtc_magic w)) any_event classify_and_configure)
      by keeps_with rtc_side.
    apply (K (mark_evaluated w)). reflexivity. }
  set (w0 := world (classify_and_configure (mark_evaluated w))) in *.
  set (t := is_tooling_reset (reset_reason (plat w))).
  destruct (backend_ (det w0)) eqn:Hb.
  - change (bool_decide (RTC = RTC)) with true. cbv iota. intros Hres.
    pose proof (check_and_clear_rtc_keeps_backend t window w0 Hb) as [Hk _].
    pose proof (check_and_clear_rtc_cases t window w0) as (C1 & C2 & C3).
    destruct t.
    + destruct (C1 eq_refl) as (Hf & _). congruence.
    + split; [reflexivity |]. left. split; [exact Hk |].
      destruct (decide (s_rtc_magic w0 = kDrdMagic)) as [Hm | Hm].
      * congruence.
      * destruct (C3 eq_refl Hm) as (Hf & _). congruence.
  - change (bool_decide (NVS = RTC)) with false. cbv iota. proj_run.
    destruct (nvs_ready_ (det w0)) eqn:Hr; cbn [negb]; cbv iota.
    2: { proj_run. discriminate. }
    pose proof (check_and_clear_nvs_keeps_backend t window w0 Hb) as [Hk _].
    unfold check_and_clear_nvs in *. revert Hk. proj_run.
    set (h := nvs_handle_ (det w0)).
    pose proof (read_nvs_state_absent h w0) as Habs.
    set (s := result (read_nvs_state h w0)) in *.
    destruct (negb t && negb s.1 && (s.2 =? kDrdMagic)) eqn:Hcond.
    2: { proj_run. discriminate. }
    intros Hk _.
    apply andb_true_iff in Hcond. destruct Hcond as [Hc1 Hc3].
    apply andb_true_iff in Hc1. destruct Hc1 as [Hc1 Hc2].
    apply negb_true_iff in Hc1. split; [exact Hc1 |].
    right. split; [exact Hk |].
    apply Z.eqb_eq in Hc3.
    destruct (decide (staged w !! kKeyMagic = Some (U32 kDrdMagic))) as [Hy|Hn];
      [exact Hy | exfalso].
    apply Habs; [| exact Hc3].
    apply (classify_and_configure_keeps_no_marker (mark_evaluated w)). exact Hn.
Qed.

(** ** configure, clear_flag, the destructor and the disarm callback *)

Lemma configure_done w :
  configured_ (det w) = true -> configure w = (ESP_OK, w, []).
Proof. intros H. unfold configure, bind, gets. rewrite H. reflexivity. Qed.

(** X3. [configure] is idempotent: once it has run, with whatever outcome,
    a further call returns [ESP_OK] and does nothing (so it also hides the
    failure of the first call).  It never changes the content of the
    namespace, the RTC cell, the timers, the timer handles or the memo of
    [check_and_clear]. *)
Theorem configure_idempotent (w : World) :
  let w1 := world (configure w) in
  configure w1 = (ESP_OK, w1, []) /\
  staged w1 = staged w /\ durable w1 = durable w /\
  s_rtc_magic w1 = s_rtc_magic w /\
  timers (plat w1) = timers (plat w) /\
  disarm_timer_ (det w1) = disarm_timer_ (det w) /\
  arm_timer_ (det w1) = arm_timer_ (det w) /\
  evaluated_ (det w1) = evaluated_ (det w) /\
  cached_result_ (det w1) = cached_result_ (det w).
Proof.
  intros w1. subst w1.
  assert (H : configured_ (det (world (configure w))) = true /\
              staged (world (configure w)) = staged w /\
              durable (world (configure w)) = durable w /\
              s_rtc_magic (world (configure w)) = s_rtc_magic w /\
              timers (plat (world (configure w))) = timers (plat w) /\
              disarm_timer_ (det (world (configure w))) = disarm_timer_ (det w) /\
              arm_timer_ (det (world (configure w))) = arm_timer_ (det w) /\
              evaluated_ (det (world (configure w))) = evaluated_ (det w) /\
              cached_result_ (det (world (configure w))) = cached_result_ (det w)).
  { destruct w as [d rtc [rr sha n t nt fs]].
    destruct (configure _) as [[a w'] evs] eqn:E.
    unfold result, world, events, staged, durable; simpl. revert E.
    unfold configure, safe_nvs_init, nvs_flash_init, nvs_open.
    unfold_ops. exec_all.
    all: intros [= <- <- <-]; simpl; repeat split; assumption. }
  destruct H as (Hc & H). split; [apply configure_done, Hc | exact H].
Qed.

Ltac frame_side :=
  solve [ reflexivity
        | intros; reflexivity
        | let w := fresh "w" in let H := fresh "H" in
          intros w H; simpl; decompose [and] H; clear H; unfold staged, durable in *;
          simpl in *; repeat split;
          first
            [ assumption
            | rewrite (proj1 (nvs_flash_init_op_frame _)); assumption
            | rewrite (proj1 (nvs_open_op_frame _ _)); assumption
            | rewrite (proj1 (nvs_get_op_frame _ _ _ _ _)); assumption
            | rewrite nvs_set_op_timers; assumption
            | rewrite nvs_erase_key_op_timers; assumption
            | rewrite (proj1 (nvs_commit_op_frame _ _)); assumption ] ].

Lemma clear_flag_keeps_timers d t :
  keeps (fun w => det w = d /\ timers (plat w) = t) no_timer_event clear_flag.
Proof. keeps_with frame_side. Qed.

(** X4. [clear_flag] never touches a timer or the detector object: a
    pending arm or disarm timer stays pending.  On the RTC backend it only
    zeroes the RTC cell; on the NVS backend it leaves the RTC cell alone,
    and with the store not ready it does nothing at all. *)
Theorem clear_flag_frame (w : World) :
  let r := clear_flag w in
  det (world r) = det w /\
  timers (plat (world r)) = timers (plat w) /\
  forallb no_timer_event (events r) = true /\
  (backend_ (det w) = RTC ->
     world r = with_rtc 0 w /\ calls (events r) = [EvRtcWrite 0]) /\
  (backend_ (det w) = NVS ->
     s_rtc_magic (world r) = s_rtc_magic w /\
     (nvs_ready_ (det w) = false -> world r = w /\ calls (events r) = [])).
Proof.
  intros r. subst r.
  destruct (clear_flag_keeps_timers (det w) (timers (plat w)) w) as [[H1 H2] H3];
    [split; reflexivity |].
  split; [exact H1 | split; [exact H2 | split; [exact H3 |]]].
  unfold clear_flag. proj_run. split; intros Hb; rewrite Hb.
  - change (bool_decide (RTC = RTC)) with true. cbv iota. split; reflexivity.
  - change (bool_decide (NVS = RTC)) with false. cbv iota. proj_run. split.
    + match goal with
      | |- s_rtc_magic (world (?m w)) = _ =>
          assert (K : keeps (rtc_is (s_rtc_magic w)) any_event m)
            by keeps_with rtc_side
      end.
      apply (K w). reflexivity.
    + intros Hr. rewrite Hr. split; reflexivity.
Qed.

(** ** Contracts of the timer operations *)

Lemma with_fault_none {A} (failed : esp_err_t -> A) run p :
  faults p = [] -> with_fault failed run p = run p.
Proof.
  intros H. unfold with_fault, pop_fault. rewrite H. reflexivity.
Qed.

Ltac timer_op_cases h t fs :=
  unfold_ops; simpl;
  destruct fs as [|[?|] ?]; simpl;
  try (destruct h as [?i|]; simpl;
       [ match goal with
         | |- context [t !! ?i] => destruct (t !! i) as [[? ? [?|]]|] eqn:?
         end |]; simpl).

Lemma esp_timer_stop_op_spec h p e p' :
  esp_timer_stop_op h p = (e, p') ->
  nvs p' = nvs p /\ next_timer p' = next_timer p /\
  (timers p' = timers p \/
   exists i t, h = Some i /\ timers p !! i = Some t /\
     timers p' = <[i := mkTimer (t_callback t) (t_name t) None]> (timers p)).
Proof.
  destruct p as [rr sha n t nt fs]. revert e p'. timer_op_cases h t fs.
  all: intros e p' [= <- <-]; simpl; repeat split; auto.
  all: right; eauto 10.
Qed.

Lemma esp_timer_delete_op_spec h p e p' :
  esp_timer_delete_op h p = (e, p') ->
  nvs p' = nvs p /\ next_timer p' = next_timer p /\
  (timers p' = timers p \/
   exists i, h = Some i /\ timers p' = delete i (timers p)).
Proof.
  destruct p as [rr sha n t nt fs]. revert e p'. timer_op_cases h t fs.
  all: intros e p' [= <- <-]; simpl; repeat split; auto.
  all: right; eauto 10.
Qed.

Lemma esp_timer_create_op_spec cb name out p e h p' :
  esp_timer_create_op cb name out p = ((e, h), p') ->
  nvs p' = nvs p /\
  ((e <> ESP_OK /\ h = out /\ timers p' = timers p /\
    next_timer p' = next_timer p) \/
   (e = ESP_OK /\ h = Some (next_timer p) /\
    timers p' = <[next_timer p := mkTimer cb name None]> (timers p) /\
    next_timer p' = S (next_timer p))).
Proof.
  destruct p as [rr sha n t nt fs]. revert e h p'. op_cases.
  all: intros e h p' [= <- <- <-]; simpl; split; auto.
  left. repeat split; auto. apply fault_code_not_ok.
Qed.

Lemma esp_timer_start_once_op_spec h us p e p' :
  esp_timer_start_once_op h us p = (e, p') ->
  nvs p' = nvs p /\ next_timer p' = next_timer p /\
  ((e <> ESP_OK /\ timers p' = timers p) \/
   (e = ESP_OK /\
    exists i t, h = Some i /\ timers p !! i = Some t /\ t_armed t = None /\
      timers p' = <[i := mkTimer (t_callback t) (t_name t) (Some us)]> (timers p))).
Proof.
  destruct p as [rr sha n t nt fs]. revert e p'. timer_op_cases h t fs.
  all: intros e p' [= <- <-]; simpl; repeat split; auto.
  all: first [ left; split; [first [apply fault_code_not_ok | discriminate]
                            | reflexivity]
             | right; split; [reflexivity | eauto 10] ].
Qed.

(** ** The timers when the platform does not fail *)

Lemma cancel_disarm_exact w :
  faults (plat w) = [] ->
  plat (world (cancel_disarm w)) =
    set_timers (drop_timer (disarm_timer_ (det w)) (timers (plat w)))
      (next_timer (plat w)) (plat w).
Proof.
  intros Hf. destruct w as [d rtc [rr sha n t nt fs]]; simpl in *; subst fs.
  unfold cancel_disarm, esp_timer_stop, esp_timer_delete.
  destruct (disarm_timer_ d) as [i|] eqn:Hd;
    [| unfold_monad; simpl; rewrite Hd; reflexivity].
  unfold_ops. unfold_monad. simpl. rewrite Hd. simpl.
  destruct (t !! i) as [[cb nm [us|]]|] eqn:Ht; simpl;
    rewrite ?lookup_insert_eq, ?Ht; simpl; unfold set_timers; simpl; f_equal.
  - apply delete_insert_eq.
  - symmetry. apply delete_id, Ht.
Qed.

Lemma cancel_arm_exact w :
  faults (plat w) = [] ->
  plat (world (cancel_arm w)) =
    set_timers (drop_timer (arm_timer_ (det w)) (timers (plat w)))
      (next_timer (plat w)) (plat w).
Proof.
  intros Hf. destruct w as [d rtc [rr sha n t nt fs]]; simpl in *; subst fs.
  unfold cancel_arm, esp_timer_stop, esp_timer_delete.
  destruct (arm_timer_ d) as [i|] eqn:Hd;
    [| unfold_monad; simpl; rewrite Hd; reflexivity].
  unfold_ops. unfold_monad. simpl. rewrite Hd. simpl.
  destruct (t !! i) as [[cb nm [us|]]|] eqn:Ht; simpl;
    rewrite ?lookup_insert_eq, ?Ht; simpl; unfold set_timers; simpl; f_equal.
  - apply delete_insert_eq.
  - symmetry. apply delete_id, Ht.
Qed.

Lemma cancel_arm_det w :
  det (world (cancel_arm w)) =
    match arm_timer_ (det w) with
    | Some _ => set_arm_window_s_ 0 (set_arm_timer_ None (det w))
    | None => det w
    end.
Proof.
  destruct w as [d rtc p].
  destruct (cancel_arm _) as [[[] w'] evs] eqn:E. revert E.
  unfold cancel_arm, esp_timer_stop, esp_timer_delete.
  destruct (arm_timer_ d) eqn:Ha.
  - exec_calls; intros [= <- <-]; simpl; rewrite ?Ha; reflexivity.
  - unfold_monad. simpl. rewrite Ha. intros [= <- <-]. reflexivity.
Qed.

Lemma cancel_disarm_rtc w :
  s_rtc_magic (world (cancel_disarm w)) = s_rtc_magic w.
Proof.
  assert (K : keeps (rtc_is (s_rtc_magic w)) any_event cancel_disarm)
    by keeps_with rtc_side.
  apply (K w). reflexivity.
Qed.

Lemma cancel_arm_rtc w :
  s_rtc_magic (world (cancel_arm w)) = s_rtc_magic w.
Proof.
  assert (K : keeps (rtc_is (s_rtc_magic w)) any_event cancel_arm)
    by keeps_with rtc_side.
  apply (K w). reflexivity.
Qed.

Lemma schedule_disarm_exact window w :
  faults (plat w) = [] ->
  let p := plat w in
  let w' := world (schedule_disarm window w) in
  det w' = set_disarm_timer_ (Some (next_timer p)) (det w) /\
  s_rtc_magic w' = s_rtc_magic w /\
  plat w' =
    set_timers
      (<[next_timer p :=
           mkTimer DisarmCb "drd_disarm" (Some ((window * 1000000) mod 2 ^ 64))]>
         (drop_timer (disarm_timer_ (det w)) (timers p)))
      (S (next_timer p)) p.
Proof.
  intros Hf p w'. subst p w'. unfold schedule_disarm. rewrite bind_world.
  pose proof (cancel_disarm_det w) as Hd.
  pose proof (cancel_disarm_rtc w) as Hr.
  pose proof (cancel_disarm_exact w Hf) as Hp.
  destruct (world (cancel_disarm w)) as [d1 rtc1 p1]. simpl in Hd, Hr, Hp.
  subst d1 rtc1 p1.
  destruct w as [d rtc [rr sha n t nt fs]]; simpl in *; subst fs.
  unfold esp_timer_create, esp_timer_start_once. unfold_ops.
  unfold_monad. simpl. rewrite lookup_insert_eq. simpl.
  split; [destruct d; reflexivity | split; [reflexivity |]].
  unfold set_timers; simpl. f_equal. apply insert_insert_eq.
Qed.

Lemma cancel_arm_nvs w :
  nvs (plat (world (cancel_arm w))) = nvs (plat w).
Proof.
  assert (K : keeps (fun w' => nvs (plat w') = nvs (plat w)) any_event cancel_arm).
  { keeps_with ltac:(solve [ reflexivity | intros; reflexivity
      | let w' := fresh "w" in let H := fresh "H" in
        intros w' H; destruct w' as [? ? []]; simpl in *; unfold_ops;
        repeat first
            [ case_stuck
            | match goal with
              | |- context [let (_, _) := ?x in _] => destruct x
              end ];
          simpl; exact H ]). }
  apply (K w eq_refl).
Qed.

Lemma drop_timer_lookup h t : drop_timer (Some h) t !! h = None.
Proof. apply lookup_delete_eq. Qed.

Lemma drop_timer_None h t i : t !! i = None -> drop_timer h t !! i = None.
Proof.
  intros H. destruct h as [j|]; simpl; [| exact H].
  destruct (decide (j = i)) as [->|Hne].
  - apply lookup_delete_eq.
  - rewrite lookup_delete_ne by exact Hne. exact H.
Qed.

(** X5. The destructor leaves the detector with no timer handle and no
    open store: [arm_timer_] and [disarm_timer_] are null, [nvs_ready_] is
    false, [nvs_handle_] is zero, and the handle it held is closed.  What is
    persisted stays: the namespace, on flash and as staged, and the RTC
    cell are untouched.  When the timer service does not fail, the timers
    the detector held are deleted from the service. *)
Theorem destroy_releases (w : World) :
  let w' := world (destroy w) in
  arm_timer_ (det w') = None /\ disarm_timer_ (det w') = None /\
  nvs_ready_ (det w') = false /\ nvs_handle_ (det w') = 0 /\
  staged w' = staged w /\ durable w' = durable w /\
  s_rtc_magic w' = s_rtc_magic w /\
  (nvs_ready_ (det w) = true ->
     handle_valid (nvs_handle_ (det w)) (nvs (plat w')) = false) /\
  (faults (plat w) = [] ->
   forall h, arm_timer_ (det w) = Some h \/ disarm_timer_ (det w) = Some h ->
     timers (plat w') !! h = None).
Proof.
  intros w'. subst w'. unfold destroy. rewrite bind_world.
  pose proof (cancel_arm_det w) as Hd1.
  pose proof (cancel_arm_nvs w) as Hn1.
  pose proof (cancel_arm_rtc w) as Hr1.
  pose proof (cancel_arm_exact w) as He1.
  set (w1 := world (cancel_arm w)) in *.
  rewrite bind_world.
  pose proof (cancel_disarm_det w1) as Hd2.
  pose proof (cancel_disarm_nvs w1) as Hn2.
  pose proof (cancel_disarm_rtc w1) as Hr2.
  pose proof (cancel_disarm_exact w1) as He2.
  destruct (world (cancel_disarm w1)) as [d2 rtc2 p2]. simpl in Hd2, Hn2, Hr2, He2.
  assert (Ha : arm_timer_ d2 = None).
  { rewrite Hd2, Hd1. destruct (arm_timer_ (det w)) eqn:E; simpl; auto. }
  assert (Hready : nvs_ready_ d2 = nvs_ready_ (det w)).
  { rewrite Hd2, Hd1. destruct (arm_timer_ (det w)); reflexivity. }
  assert (Hh : nvs_handle_ d2 = nvs_handle_ (det w)).
  { rewrite Hd2, Hd1. destruct (arm_timer_ (det w)); reflexivity. }
  assert (Hdis : disarm_timer_ d2 = None) by (rewrite Hd2; reflexivity).
  assert (Ht : faults (plat w) = [] ->
               timers p2 =
                 drop_timer (disarm_timer_ (det w1))
                   (drop_timer (arm_timer_ (det w)) (timers (plat w)))).
  { intros Hf. specialize (He1 Hf). rewrite He2, He1; [reflexivity |].
    rewrite He1. destruct (plat w); exact Hf. }
  assert (Hdis1 : disarm_timer_ (det w1) = disarm_timer_ (det w)).
  { rewrite Hd1. destruct (arm_timer_ (det w)); reflexivity. }
  clear He1 He2 Hd1 Hd2.
  unfold nvs_close, call, nvs_close_op. unfold_monad.
  destruct d2; simpl in *. subst.
  unfold staged, durable.
  destruct (nvs_ready_ (det w)) eqn:Hrd; simpl.
  all: rewrite ?Hn2, ?Hn1, ?Hr2, ?Hr1.
  all: repeat (split; [reflexivity |]).
  all: split; [intros Hx; try discriminate |].
  2,3: intros Hf h Hh; rewrite (Ht Hf), Hdis1;
       destruct Hh as [-> | ->];
       [apply drop_timer_None, drop_timer_lookup | apply drop_timer_lookup].
  unfold handle_valid; simpl. apply bool_decide_eq_false.
  rewrite list_elem_of_In, filter_In. intros [_ H].
  rewrite Z.eqb_refl in H. discriminate.
Qed.


(** ** Scheduling the timers *)

Ltac timer_specs :=
  repeat match goal with
         | r : (esp_err_t * option nat)%type |- _ =>
             destruct r as [? ?]; cbn [fst snd] in *
         end;
  repeat match goal with
         | H : esp_timer_stop_op _ _ = _ |- _ =>
             apply esp_timer_stop_op_spec in H;
             destruct H as (? & ? & [?|(? & ? & ? & ? & ?)])
         | H : esp_timer_delete_op _ _ = _ |- _ =>
             apply esp_timer_delete_op_spec in H;
             destruct H as (? & ? & [?|(? & ? & ?)])
         | H : esp_timer_create_op _ _ _ _ = _ |- _ =>
             apply esp_timer_create_op_spec in H;
             destruct H as (? & [(? & ? & ? & ?)|(? & ? & ? & ?)])
         | H : esp_timer_start_once_op _ _ _ = _ |- _ =>
             apply esp_timer_start_once_op_spec in H;
             destruct H as (? & ? & [(? & ?)|(? & ? & ? & ? & ? & ? & ?)])
         | H : not_err _ _ = true |- _ => apply not_err_true in H
         | H : not_err _ _ = false |- _ => apply not_err_false in H
         end.

Lemma schedule_disarm_pending window w h :
  let w' := world (schedule_disarm window w) in
  disarm_timer_ (det w') = Some h ->
  timers (plat w') !! h =
    Some (mkTimer DisarmCb "drd_disarm" (Some ((window * 1000000) mod 2 ^ 64))).
Proof.
  intros w'. subst w'. unfold schedule_disarm. rewrite bind_world.
  pose proof (cancel_disarm_det w) as Hd.
  destruct (world (cancel_disarm w)) as [d1 rtc1 p1]. simpl in Hd.
  match goal with
  | |- context [world (?m ?W)] =>
      destruct (m W) as [[[] w'] evs] eqn:E
  end.
  unfold world; simpl. revert E.
  unfold esp_timer_create, esp_timer_start_once, esp_timer_delete.
  exec_calls; intros [= <- <-]; simpl; try discriminate.
  intros Hh. timer_specs; try congruence. subst.
  repeat match goal with H : Some _ = Some _ |- _ => injection H as <- end.
  match goal with
  | H1 : timers ?p0 = <[_ := _]> _, H2 : timers ?p0 !! _ = Some _,
    H3 : timers _ = <[_ := _]> (timers ?p0) |- _ =>
      rewrite H1, lookup_insert_eq in H2; injection H2 as <-;
      rewrite H3, lookup_insert_eq
  end.
  reflexivity.
Qed.

(** ** At most one pending timer of each kind *)

Lemma forallb_any_event l : forallb any_event l = true.
Proof. induction l; simpl; auto. Qed.

Lemma keeps_any (I : World -> Prop) {A} (m : M A) :
  (forall w, I w -> I (world (m w))) -> keeps I any_event m.
Proof. intros H w Hw. split; [apply H, Hw | apply forallb_any_event]. Qed.

Lemma owned_update (d d' : Detector) rtc rtc' (p p' : Platform) :
  disarm_timer_ d' = disarm_timer_ d ->
  arm_timer_ d' = arm_timer_ d ->
  timers p' = timers p ->
  timers_owned (mkWorld d rtc p) -> timers_owned (mkWorld d' rtc' p').
Proof.
  intros H1 H2 H3 Ho h t. simpl. rewrite H1, H2, H3. apply Ho.
Qed.

Ltac owned_side :=
  solve [ reflexivity
        | intros; reflexivity
        | let w := fresh "w" in let Hf := fresh "Hf" in let Ho := fresh "Ho" in
          intros w [Hf Ho]; split;
          [ clear Ho; revert w Hf; no_faults_side
          | destruct w as [? ? ?]; unfold with_det, with_rtc, with_plat;
            cbn [det s_rtc_magic plat];
            eapply owned_update; [ | | | exact Ho ];
            first
              [ reflexivity
              | apply (proj1 (nvs_flash_init_op_frame _))
              | apply (proj1 (nvs_open_op_frame _ _))
              | apply (proj1 (nvs_get_op_frame _ _ _ _ _))
              | apply nvs_set_op_timers
              | apply nvs_erase_key_op_timers
              | apply (proj1 (nvs_commit_op_frame _ _)) ] ] ].

Lemma configure_owned : keeps owned_inv any_event configure.
Proof. keeps_with owned_side. Qed.

Lemma clear_flag_owned : keeps owned_inv any_event clear_flag.
Proof. keeps_with owned_side. Qed.

Lemma read_nvs_state_owned h : keeps owned_inv any_event (read_nvs_state h).
Proof. keeps_with owned_side. Qed.

(** [keeps_with], trying the lemmas [known] before unfolding a routine. *)
Ltac keeps_using known side :=
  repeat first
    [ known
    | apply keeps_ret
    | apply keeps_bind; [ | intros ? ]
    | apply keeps_when
    | apply keeps_gets
    | apply keeps_emit; solve [side]
    | apply keeps_modify; solve [side]
    | apply keeps_call; [ solve [side] | solve [side] ]
    | apply keeps_rtc_read; solve [side]
    | apply keeps_rtc_write; [ solve [side] | solve [side] ]
    | match goal with
      | |- keeps _ _ (if ?b then _ else _) => destruct b
      | |- keeps _ _ (match ?x with _ => _ end) => destruct x
      | |- keeps _ _ (let _ := _ in _) => cbv zeta
      | |- keeps _ _ (?f _ _ _ _ _) => progress unfold f
      | |- keeps _ _ (?f _ _ _ _) => progress unfold f
      | |- keeps _ _ (?f _ _ _) => progress unfold f
      | |- keeps _ _ (?f _ _) => progress unfold f
      | |- keeps _ _ (?f _) => progress unfold f
      | |- keeps _ _ ?f => progress unfold f
      end ].

Lemma owned_drop_disarm d rtc p nt :
  timers_owned (mkWorld d rtc p) ->
  timers_owned
    (mkWorld (set_disarm_timer_ None d) rtc
       (set_timers (drop_timer (disarm_timer_ d) (timers p)) nt p)).
Proof.
  intros Ho h t. simpl. intros Hl Ha.
  destruct (disarm_timer_ d) as [hd|] eqn:Hd; simpl in Hl.
  - destruct (decide (hd = h)) as [->|Hne].
    + rewrite lookup_delete_eq in Hl. discriminate.
    + rewrite lookup_delete_ne in Hl by exact Hne.
      specialize (Ho h t Hl Ha). simpl in Ho.
      destruct (t_callback t); [congruence | exact Ho].
  - specialize (Ho h t Hl Ha). simpl in Ho.
    destruct (t_callback t); [congruence | exact Ho].
Qed.

Lemma owned_drop_arm d rtc p nt :
  timers_owned (mkWorld d rtc p) ->
  timers_owned
    (mkWorld (set_arm_timer_ None d) rtc
       (set_timers (drop_timer (arm_timer_ d) (timers p)) nt p)).
Proof.
  intros Ho h t. simpl. intros Hl Ha.
  destruct (arm_timer_ d) as [hd|] eqn:Hd; simpl in Hl.
  - destruct (decide (hd = h)) as [->|Hne].
    + rewrite lookup_delete_eq in Hl. discriminate.
    + rewrite lookup_delete_ne in Hl by exact Hne.
      specialize (Ho h t Hl Ha). simpl in Ho.
      destruct (t_callback t); [exact Ho | congruence].
  - specialize (Ho h t Hl Ha). simpl in Ho.
    destruct (t_callback t); [exact Ho | congruence].
Qed.

(** Starting a fresh timer of the kind whose handle is null. *)
Lemma owned_start_disarm d rtc p i nm us nt :
  disarm_timer_ d = None ->
  timers_owned (mkWorld d rtc p) ->
  timers_owned
    (mkWorld (set_disarm_timer_ (Some i) d) rtc
       (set_timers (<[i := mkTimer DisarmCb nm us]> (timers p)) nt p)).
Proof.
  intros Hd Ho h t. simpl. intros Hl Ha.
  destruct (decide (i = h)) as [->|Hne].
  - rewrite lookup_insert_eq in Hl. injection Hl as <-. reflexivity.
  - rewrite lookup_insert_ne in Hl by exact Hne.
    specialize (Ho h t Hl Ha). simpl in Ho.
    destruct (t_callback t); [congruence | exact Ho].
Qed.

Lemma owned_start_arm d rtc p i nm us nt :
  arm_timer_ d = None ->
  timers_owned (mkWorld d rtc p) ->
  timers_owned
    (mkWorld (set_arm_timer_ (Some i) d) rtc
       (set_timers (<[i := mkTimer ArmCb nm us]> (timers p)) nt p)).
Proof.
  intros Hd Ho h t. simpl. intros Hl Ha.
  destruct (decide (i = h)) as [->|Hne].
  - rewrite lookup_insert_eq in Hl. injection Hl as <-. reflexivity.
  - rewrite lookup_insert_ne in Hl by exact Hne.
    specialize (Ho h t Hl Ha). simpl in Ho.
    destruct (t_callback t); [exact Ho | congruence].
Qed.

Lemma cancel_disarm_owned : keeps owned_inv any_event cancel_disarm.
Proof.
  apply keeps_any. intros w [Hf Ho]. split.
  - apply (cancel_disarm_no_faults w Hf).
  - pose proof (cancel_disarm_det w) as Hd.
    pose proof (cancel_disarm_rtc w) as Hr.
    pose proof (cancel_disarm_exact w Hf) as Hp.
    destruct (world (cancel_disarm w)) as [d1 rtc1 p1]. simpl in Hd, Hr, Hp.
    subst. destruct w as [d rtc p]. apply owned_drop_disarm, Ho.
Qed.

Lemma schedule_disarm_owned window :
  keeps owned_inv any_event (schedule_disarm window).
Proof.
  apply keeps_any. intros w [Hf Ho].
  destruct (schedule_disarm_exact window w Hf) as (Hd & Hr & Hp).
  destruct (world (schedule_disarm window w)) as [d1 rtc1 p1].
  simpl in Hd, Hr, Hp. subst. destruct w as [d rtc p]. simpl in *. split.
  - unfold no_faults in *. simpl in *. destruct p; exact Hf.
  - pose proof (owned_drop_disarm d rtc p (next_timer p) Ho) as H1.
    pose proof (owned_start_disarm (set_disarm_timer_ None d) rtc _
                  (next_timer p) "drd_disarm"
                  (Some ((window * 1000000) mod 2 ^ 64)) (S (next_timer p))
                  eq_refl H1) as H2.
    eapply owned_update; [ | | | exact H2]; reflexivity.
Qed.

Lemma cancel_arm_no_faults : keeps no_faults any_event cancel_arm.
Proof. keeps_with no_faults_side. Qed.

Lemma cancel_arm_owned : keeps owned_inv any_event cancel_arm.
Proof.
  apply keeps_any. intros w [Hf Ho]. split.
  - apply (cancel_arm_no_faults w Hf).
  - pose proof (cancel_arm_det w) as Hd.
    pose proof (cancel_arm_exact w Hf) as Hp.
    destruct (world (cancel_arm w)) as [d1 rtc1 p1]. simpl in Hd, Hp.
    subst. destruct w as [d rtc p]. simpl in *.
    pose proof (owned_drop_arm d rtc p (next_timer p) Ho) as H1.
    eapply owned_update; [ | | | exact H1]; simpl; try reflexivity.
    all: destruct (arm_timer_ d) eqn:E; simpl; auto.
Qed.

Lemma cancel_arm_clears w :
  arm_timer_ (det (world (cancel_arm w))) = None.
Proof.
  rewrite cancel_arm_det. destruct (arm_timer_ (det w)) eqn:E; simpl; auto.
Qed.

Lemma schedule_arm_exact window w :
  CONFIG_DRD_ARM_DELAY_SECONDS mod 2 ^ 32 <> 0 ->
  faults (plat w) = [] ->
  let p := plat w in
  let w' := world (schedule_arm window w) in
  arm_timer_ (det w') = Some (next_timer p) /\
  disarm_timer_ (det w') = disarm_timer_ (det w) /\
  arm_window_s_ (det w') = window /\
  s_rtc_magic w' = s_rtc_magic w /\
  plat w' =
    set_timers
      (<[next_timer p :=
           mkTimer ArmCb "drd_arm" (Some (CONFIG_DRD_ARM_DELAY_SECONDS mod 2 ^ 32 * 1000000))]>
         (drop_timer (arm_timer_ (det w)) (timers p)))
      (S (next_timer p)) p.
Proof.
  intros Hdelay Hf p w'. subst p w'. unfold schedule_arm. rewrite bind_world.
  apply Z.eqb_neq in Hdelay. rewrite Hdelay.
  pose proof (cancel_arm_det w) as Hd.
  pose proof (cancel_arm_rtc w) as Hr.
  pose proof (cancel_arm_exact w Hf) as Hp.
  destruct (world (cancel_arm w)) as [d1 rtc1 p1]. simpl in Hd, Hr, Hp.
  subst d1 rtc1 p1.
  destruct w as [d rtc [rr sha n t nt fs]]; simpl in *; subst fs.
  unfold esp_timer_create, esp_timer_start_once. unfold_ops.
  unfold_monad. simpl. rewrite lookup_insert_eq. simpl.
  repeat split.
  - destruct (arm_timer_ d); reflexivity.
  - unfold set_timers; simpl. f_equal. apply insert_insert_eq.
Qed.

Lemma arm_timer_cb_owned w :
  owned_inv (with_det (set_arm_timer_ None) w) ->
  owned_inv (world (arm_timer_cb w)).
Proof.
  intros H. unfold arm_timer_cb. rewrite bind_world, modify_run, world_pair.
  match goal with
  | |- owned_inv (world (?m ?W)) =>
      assert (K : keeps owned_inv any_event m)
        by keeps_using ltac:(apply schedule_disarm_owned) owned_side;
      apply (K W), H
  end.
Qed.

Lemma disarm_timer_cb_owned w :
  owned_inv (with_det (set_disarm_timer_ None) w) ->
  owned_inv (world (disarm_timer_cb w)).
Proof.
  intros H. unfold disarm_timer_cb. rewrite bind_world, modify_run, world_pair.
  match goal with
  | |- owned_inv (world (?m ?W)) =>
      assert (K : keeps owned_inv any_event m)
        by keeps_using ltac:(apply clear_flag_owned) owned_side;
      apply (K W), H
  end.
Qed.

Lemma schedule_arm_owned window :
  keeps owned_inv any_event (schedule_arm window).
Proof.
  apply keeps_any. intros w [Hf Ho].
  destruct (decide (CONFIG_DRD_ARM_DELAY_SECONDS mod 2 ^ 32 = 0)) as [Hz|Hnz].
  - unfold schedule_arm. rewrite bind_world, bind_world, modify_run, world_pair.
    rewrite Hz. change (0 =? 0) with true. cbv iota.
    apply arm_timer_cb_owned.
    destruct (cancel_arm_owned w (conj Hf Ho)) as [[Hf1 Ho1] _].
    pose proof (cancel_arm_clears w) as Hc.
    destruct (world (cancel_arm w)) as [d1 rtc1 p1]. simpl in *.
    split; [exact Hf1 |].
    eapply owned_update; [ | | | exact Ho1]; simpl; auto.
  - destruct (schedule_arm_exact window w Hnz Hf) as (Ha & Hd & _ & _ & Hp).
    destruct (world (schedule_arm window w)) as [d1 rtc1 p1].
    simpl in Ha, Hd, Hp. subst p1. destruct w as [d rtc p]. simpl in *. split.
    + unfold no_faults in *. simpl in *. destruct p; exact Hf.
    + pose proof (owned_drop_arm d rtc p (next_timer p) Ho) as H1.
      pose proof (owned_start_arm (set_arm_timer_ None d) rtc _
                    (next_timer p) "drd_arm"
                    (Some (CONFIG_DRD_ARM_DELAY_SECONDS mod 2 ^ 32 * 1000000))
                    (S (next_timer p)) eq_refl H1) as H2.
      eapply owned_update; [ | | | exact H2]; simpl; auto.
Qed.

Ltac owned_known :=
  first [ apply schedule_disarm_owned | apply schedule_arm_owned
        | apply cancel_disarm_owned | apply cancel_arm_owned
        | apply clear_flag_owned | apply configure_owned
        | apply read_nvs_state_owned ].

Lemma check_and_clear_owned window :
  keeps owned_inv any_event (check_and_clear window).
Proof. keeps_using owned_known owned_side. Qed.

Lemma expire_owned h : keeps owned_inv any_event (expire h).
Proof.
  apply keeps_any. intros w [Hf Ho]. unfold expire.
  destruct (timers (plat w) !! h) as [[cb nm [us|]]|] eqn:Hl;
    try (split; assumption).
  assert (Hrest : forall h' t', 
            (<[h := mkTimer cb nm None]> (timers (plat w))) !! h' = Some t' ->
            t_armed t' <> None ->
            h' <> h /\ timers (plat w) !! h' = Some t').
  { intros h' t' H1 H2. destruct (decide (h = h')) as [->|Hne].
    - rewrite lookup_insert_eq in H1. injection H1 as <-. contradiction.
    - rewrite lookup_insert_ne in H1 by exact Hne. split; [congruence | exact H1]. }
  pose proof (Ho h _ Hl) as Hh. simpl in Hh.
  destruct cb; cbv zeta.
  - apply disarm_timer_cb_owned. split.
    + unfold no_faults in *. destruct w as [d rtc p]; destruct p; exact Hf.
    + intros h' t' H1 H2. simpl in H1.
      destruct (Hrest h' t' H1 H2) as [Hne Hl'].
      specialize (Ho h' t' Hl' H2). simpl.
      destruct (t_callback t'); [| exact Ho].
      rewrite Hh in Ho by discriminate. congruence.
  - apply arm_timer_cb_owned. split.
    + unfold no_faults in *. destruct w as [d rtc p]; destruct p; exact Hf.
    + intros h' t' H1 H2. simpl in H1.
      destruct (Hrest h' t' H1 H2) as [Hne Hl'].
      specialize (Ho h' t' Hl' H2). simpl.
      destruct (t_callback t'); [exact Ho |].
      rewrite Hh in Ho by discriminate. congruence.
Qed.

Lemma run_step_owned s :
  dispatched s = true -> keeps owned_inv any_event (run_step s).
Proof.
  destruct s as [[| window | | |]|h]; simpl; intros Hd; try discriminate.
  - apply keeps_bind; [apply configure_owned | intros; apply keeps_ret].
  - apply keeps_bind; [apply check_and_clear_owned | intros; apply keeps_ret].
  - apply clear_flag_owned.
  - apply expire_owned.
Qed.

Lemma run_steps_owned ss :
  forallb dispatched ss = true -> keeps owned_inv any_event (run_steps ss).
Proof.
  induction ss as [|s rest IH]; simpl; intros Hd.
  - apply keeps_ret.
  - apply andb_true_iff in Hd. destruct Hd as [H1 H2].
    apply keeps_bind; [apply run_step_owned, H1 | intros _; apply IH, H2].
Qed.

Lemma owned_one_pending w : timers_owned w -> one_pending_per_kind w.
Proof.
  intros Ho h1 h2 t1 t2 H1 H2 A1 A2 Hcb.
  pose proof (Ho h1 t1 H1 A1) as O1. pose proof (Ho h2 t2 H2 A2) as O2.
  rewrite Hcb in O1. destruct (t_callback t2); congruence.
Qed.

(** X6. As long as the platform does not fail, at most one disarm timer
    and at most one arm timer are pending at any moment of a boot: starting
    from a world in which every pending timer is the one the detector holds
    for its kind, this still holds after any sequence of host calls
    ([configure], [check_and_clear], [clear_flag]) and timer expiries. *)
Theorem one_timer_of_each_kind (ss : list boot_step) (w : World) :
  forallb dispatched ss = true ->
  no_faults w ->
  timers_owned w ->
  let w' := world (run_steps ss w) in
  timers_owned w' /\ one_pending_per_kind w'.
Proof.
  intros Hd Hf Ho w'. subst w'.
  destruct (run_steps_owned ss Hd w (conj Hf Ho)) as [[_ H] _].
  split; [exact H | apply owned_one_pending, H].
Qed.

Ltac timer_frame_side :=
  solve [ reflexivity | intros; reflexivity
        | let w' := fresh "w" in let H := fresh "H" in
          intros w' H; destruct w' as [? ? []]; simpl in *; unfold_ops;
          repeat first
            [ case_stuck
            | match goal with
              | |- context [let (_, _) := ?x in _] => destruct x
              end ];
          simpl; exact H ].

Lemma schedule_disarm_frame window w :
  let w' := world (schedule_disarm window w) in
  arm_timer_ (det w') = arm_timer_ (det w) /\
  arm_window_s_ (det w') = arm_window_s_ (det w) /\
  nvs (plat w') = nvs (plat w) /\
  s_rtc_magic w' = s_rtc_magic w.
Proof.
  intros w'. subst w'.
  assert (K : keeps (fun w' => arm_timer_ (det w') = arm_timer_ (det w) /\
                               arm_window_s_ (det w') = arm_window_s_ (det w))
                any_event (schedule_disarm window)).
  { keeps_with ltac:(solve [ reflexivity | intros; reflexivity
                           | intros ? [? ?]; split; simpl; assumption ]). }
  assert (K2 : keeps (fun w' => nvs (plat w') = nvs (plat w)) any_event
                 (schedule_disarm window)) by keeps_with timer_frame_side.
  destruct (K w (conj eq_refl eq_refl)) as [[H1 H2] _].
  destruct (K2 w eq_refl) as [H3 _].
  destruct (schedule_disarm_keeps_rtc (s_rtc_magic w) window w eq_refl) as [H4 _].
  repeat split; assumption.
Qed.

(** X7. [schedule_disarm] restarts the disarm window.  Whatever fails, the
    disarm handle it leaves is either null or designates a pending timer of
    [window] seconds with the disarm callback; the arm timer handle, the
    store and the RTC cell are not touched.  When nothing fails, the timer
    held before is deleted from the service and a fresh one is pending. *)
Theorem schedule_disarm_restarts (window : Z) (w : World) :
  let w' := world (schedule_disarm window w) in
  let pending :=
    mkTimer DisarmCb "drd_disarm" (Some ((window * 1000000) mod 2 ^ 64)) in
  (forall h, disarm_timer_ (det w') = Some h ->
     timers (plat w') !! h = Some pending) /\
  arm_timer_ (det w') = arm_timer_ (det w) /\
  nvs (plat w') = nvs (plat w) /\
  s_rtc_magic w' = s_rtc_magic w /\
  (faults (plat w) = [] ->
     disarm_timer_ (det w') = Some (next_timer (plat w)) /\
     timers (plat w') =
       <[next_timer (plat w) := pending]>
         (drop_timer (disarm_timer_ (det w)) (timers (plat w)))).
Proof.
  intros w' pending. subst w' pending.
  destruct (schedule_disarm_frame window w) as (H1 & _ & H2 & H3).
  split; [intros h; apply schedule_disarm_pending |].
  split; [exact H1 | split; [exact H2 | split; [exact H3 |]]].
  intros Hf. destruct (schedule_disarm_exact window w Hf) as (Hd & _ & Hp).
  rewrite Hd, Hp. split; reflexivity.
Qed.

Lemma schedule_arm_deferred window :
  CONFIG_DRD_ARM_DELAY_SECONDS mod 2 ^ 32 <> 0 ->
  schedule_arm window =
    (cancel_arm ;;
     modify (set_arm_window_s_ window) ;;
     t0 <- gets arm_timer_ ;;
     r <- esp_timer_create ArmCb "drd_arm" t0 ;;
     modify (set_arm_timer_ (snd r)) ;;
     if not_err (fst r) ESP_OK then
       ESP_LOGW "esp_timer_create(DRD arm delay) failed. err=%s" ;;
       modify (set_arm_timer_ None)
     else
       t <- gets arm_timer_ ;;
       err <- esp_timer_start_once t (CONFIG_DRD_ARM_DELAY_SECONDS mod 2 ^ 32 * 1000000) ;;
       if not_err err ESP_OK then
         ESP_LOGW "esp_timer_start_once(DRD arm delay) failed. err=%s" ;;
         _ <- esp_timer_delete t ;;
         modify (set_arm_timer_ None)
       else ret tt).
Proof.
  intros H. apply Z.eqb_neq in H. unfold schedule_arm. rewrite H. reflexivity.
Qed.

Lemma schedule_arm_pending window w h :
  CONFIG_DRD_ARM_DELAY_SECONDS mod 2 ^ 32 <> 0 ->
  let w' := world (schedule_arm window w) in
  arm_timer_ (det w') = Some h ->
  timers (plat w') !! h =
    Some (mkTimer ArmCb "drd_arm" (Some (CONFIG_DRD_ARM_DELAY_SECONDS mod 2 ^ 32 * 1000000))).
Proof.
  intros Hdelay w'. subst w'. rewrite (schedule_arm_deferred window Hdelay).
  rewrite bind_world.
  pose proof (cancel_arm_clears w) as Hd.
  destruct (world (cancel_arm w)) as [d1 rtc1 p1]. simpl in Hd.
  match goal with
  | |- context [world (?m ?W)] =>
      destruct (m W) as [[[] w'] evs] eqn:E
  end.
  unfold world; simpl. revert E.
  unfold esp_timer_create, esp_timer_start_once, esp_timer_delete.
  exec_calls; intros [= <- <-]; simpl; try discriminate.
  intros Hh. timer_specs; try congruence. subst.
  repeat match goal with H : Some _ = Some _ |- _ => injection H as <- end.
  match goal with
  | H1 : timers ?p0 = <[_ := _]> _, H2 : timers ?p0 !! _ = Some _,
    H3 : timers _ = <[_ := _]> (timers ?p0) |- _ =>
      rewrite H1, lookup_insert_eq in H2; injection H2 as <-;
      rewrite H3, lookup_insert_eq
  end.
  reflexivity.
Qed.

Lemma schedule_arm_frame window w :
  CONFIG_DRD_ARM_DELAY_SECONDS mod 2 ^ 32 <> 0 ->
  let r := schedule_arm window w in
  arm_window_s_ (det (world r)) = window /\
  disarm_timer_ (det (world r)) = disarm_timer_ (det w) /\
  nvs (plat (world r)) = nvs (plat w) /\
  s_rtc_magic (world r) = s_rtc_magic w /\
  forallb no_storage_event (events r) = true.
Proof.
  intros Hdelay r. subst r. rewrite (schedule_arm_deferred window Hdelay).
  rewrite bind_world, bind_events.
  rewrite bind_world, bind_events, modify_run, world_pair, events_pair.
  pose proof (cancel_arm_det w) as Hd.
  pose proof (cancel_arm_nvs w) as Hn.
  pose proof (cancel_arm_rtc w) as Hr.
  assert (Hev : keeps any_world no_storage_event cancel_arm)
    by keeps_with any_side.
  destruct (Hev w I) as [_ He]. rewrite forallb_app, He. cbn [app andb].
  set (w1 := world (cancel_arm w)) in *.
  match goal with
  | |- context [world (?m ?W)] =>
      assert (K1 : keeps (fun w' => arm_window_s_ (det w') = window /\
                                    disarm_timer_ (det w') = disarm_timer_ (det w))
                     no_storage_event m)
        by keeps_with ltac:(solve [ reflexivity | intros; reflexivity
                                  | intros ? [? ?]; split; simpl; assumption ]);
      assert (K2 : keeps (fun w' => nvs (plat w') = nvs (plat w)) any_event m)
        by keeps_with timer_frame_side;
      assert (K3 : keeps (rtc_is (s_rtc_magic w)) any_event m)
        by keeps_with rtc_side;
      destruct (K1 W) as [[H1 H2] H3];
        [| destruct (K2 W) as [H4 _]; [| destruct (K3 W) as [H5 _]]]
  end.
  4: repeat split; assumption.
  - split; [reflexivity |]. simpl. rewrite Hd.
    destruct (arm_timer_ (det w)); reflexivity.
  - exact Hn.
  - exact Hr.
Qed.

(** X8. The arm delay is the configured value taken as a [uint32_t].  When
    that is not zero, [schedule_arm] only defers: it records the window in
    [arm_window_s_] and makes no call to NVS or the RTC cell; whatever
    fails, the arm handle it leaves is either null or designates a pending
    timer of that delay with the arm callback, and the disarm timer handle
    is not touched.  When nothing fails, the arm timer held before is
    deleted and a fresh one is pending. *)
Theorem schedule_arm_defers (window : Z) (w : World) :
  CONFIG_DRD_ARM_DELAY_SECONDS mod 2 ^ 32 <> 0 ->
  let r := schedule_arm window w in
  let w' := world r in
  let pending :=
    mkTimer ArmCb "drd_arm" (Some (CONFIG_DRD_ARM_DELAY_SECONDS mod 2 ^ 32 * 1000000)) in
  arm_window_s_ (det w') = window /\
  forallb no_storage_event (events r) = true /\
  nvs (plat w') = nvs (plat w) /\
  s_rtc_magic w' = s_rtc_magic w /\
  disarm_timer_ (det w') = disarm_timer_ (det w) /\
  (forall h, arm_timer_ (det w') = Some h ->
     timers (plat w') !! h = Some pending) /\
  (faults (plat w) = [] ->
     arm_timer_ (det w') = Some (next_timer (plat w)) /\
     timers (plat w') =
       <[next_timer (plat w) := pending]>
         (drop_timer (arm_timer_ (det w)) (timers (plat w)))).
Proof.
  intros Hdelay r w' pending. subst r w' pending.
  destruct (schedule_arm_frame window w Hdelay) as (H1 & H2 & H3 & H4 & H5).
  split; [exact H1 | split; [exact H5 | split; [exact H3 | split; [exact H4 |]]]].
  split; [exact H2 |].
  split; [intros h; apply schedule_arm_pending, Hdelay |].
  intros Hf. destruct (schedule_arm_exact window w Hdelay Hf) as (Ha & _ & _ & _ & Hp).
  rewrite Ha, Hp. split; reflexivity.
Qed.


(** ** The NVS decision when the platform does not fail *)

Lemma overwrite_full (dst src : list Z) :
  length src = length dst -> overwrite dst src = src.
Proof.
  intros H. unfold overwrite. rewrite H, drop_all, app_nil_r, <- H.
  apply firstn_all.
Qed.

(** Execution of a run in a world whose fault script is empty and whose
    NVS handle is valid: the platform calls are unfolded, the lookups of
    the namespace are rewritten with the hypotheses or split. *)
Ltac exec_nf :=
  unfold_ops; unfold handle_valid; unfold_monad;
  repeat first
    [ progress simpl
    | match goal with
      | H : bool_decide ?P = _ |- context [bool_decide ?P] => rewrite H
      | H : ?m !! ?k = _ |- context [?m !! ?k] => rewrite H
      | H : length ?l = _ |- context [length ?l] => rewrite H
      end
    | rewrite lookup_insert_eq
    | rewrite lookup_delete_eq
    | rewrite lookup_insert_ne by discriminate
    | rewrite lookup_delete_ne by discriminate
    | match goal with
      | |- context [match ?m !! ?k with _ => _ end] =>
          destruct (m !! k) as [[?|?|?|?]|] eqn:?
      end ].

Lemma overwrite_descriptor (dst sha : list Z) :
  length dst = 32%nat -> length sha = 32%nat ->
  overwrite dst (take (Z.to_nat kSha256Len) sha) = sha.
Proof.
  intros Hd Hs. rewrite firstn_all2 by (rewrite Hs; vm_compute; lia).
  apply overwrite_full. congruence.
Qed.

Lemma overwrite_blob (dst sha : list Z) :
  length dst = 32%nat -> length sha = 32%nat -> overwrite dst sha = sha.
Proof. intros Hd Hs. apply overwrite_full. congruence. Qed.

Lemma bool_decide_neq_refl {A} `{EqDecision A} (x : A) :
  bool_decide (x <> x) = false.
Proof. apply bool_decide_eq_false_2. intros H. apply H. reflexivity. Qed.

Opaque firstn overwrite.

Lemma track_identity_unchanged_run (h : Z) (w : World) (sha : list Z) :
  faults (plat w) = [] ->
  handle_valid h (nvs (plat w)) = true ->
  app_elf_sha256 (plat w) = Some sha ->
  length sha = 32%nat ->
  staged w !! kKeyAppSha256 = Some (Blob sha) ->
  let r := track_identity h w in
  result r = false /\ world r = w /\
  exists e1 e2,
    calls (events r) =
      [EvAppDescription true; EvNvsGet kKeyAppSha256 ESP_OK;
       EvNvsGet kKeyAppHash e1; EvNvsGet kKeyFirstBoot e2].
Proof.
  intros Hf Hv Hsha Hlen Hst r. subst r.
  destruct w as [d rtc [rr sha' [ini hs nh st du] t nt fs]].
  unfold staged, handle_valid in *. simpl in *. subst fs sha'.
  unfold track_identity, read_current_identity, get_current_app_sha256,
    read_stored_identity, read_first_boot, identity_changed,
    esp_app_get_description, nvs_get_blob, nvs_get_u32, nvs_get_u8.
  exec_nf.
  all: rewrite overwrite_descriptor, overwrite_blob by (reflexivity || assumption).
  all: rewrite bool_decide_neq_refl.
  all: repeat split; eexists _, _; reflexivity.
Qed.

Lemma with_namespace_id w : with_namespace (staged w) (durable w) w = w.
Proof. destruct w as [d rtc [rr sha [ini hs nh st du] t nt fs]]. reflexivity. Qed.

Lemma with_namespace_twice a b c d w :
  with_namespace a b (with_namespace c d w) = with_namespace a b w.
Proof. reflexivity. Qed.

Lemma with_namespace_det a b f w :
  with_namespace a b (with_det f w) = with_det f (with_namespace a b w).
Proof. reflexivity. Qed.

Lemma staged_with_namespace a b w : staged (with_namespace a b w) = a.
Proof. reflexivity. Qed.

Lemma durable_with_namespace a b w : durable (with_namespace a b w) = b.
Proof. reflexivity. Qed.

Lemma staged_with_det f w : staged (with_det f w) = staged w.
Proof. reflexivity. Qed.

Lemma durable_with_det f w : durable (with_det f w) = durable w.
Proof. reflexivity. Qed.

Lemma usable_with_namespace h a b w :
  store_usable h w -> store_usable h (with_namespace a b w).
Proof. intros H. exact H. Qed.

Lemma usable_with_det h f w :
  store_usable h w -> store_usable h (with_det f w).
Proof. intros H. exact H. Qed.

Ltac usable :=
  repeat first [ assumption | apply usable_with_namespace | apply usable_with_det ].

Section NvsRuns.
Context (h : Z) (w : World) (Hu : store_usable h w).

Lemma nvs_get_run {A} (sel : nvs_value -> A -> esp_err_t * A) k out ev :
  call (nvs_get_op sel h k out) ev w =
    let r := match staged w !! k with
             | Some v => sel v out
             | None => (ESP_ERR_NVS_NOT_FOUND, out)
             end in
    (r, w, [ev r]).
Proof.
  destruct Hu as [Hf Hv]. unfold call, nvs_get_op.
  rewrite with_fault_none by exact Hf. rewrite Hv. cbn [negb].
  unfold staged. destruct w as [d rtc p]; cbn [plat with_plat det s_rtc_magic].
  destruct (nvs_staged (nvs p) !! k); reflexivity.
Qed.

Lemma nvs_set_run k v ev :
  call (nvs_set_op h k v) ev w =
    (ESP_OK, with_namespace (<[k := v]> (staged w)) (durable w) w, [ev ESP_OK]).
Proof.
  destruct Hu as [Hf Hv]. unfold call, nvs_set_op.
  rewrite with_fault_none by exact Hf. rewrite Hv. cbn [negb].
  destruct w as [d rtc [rr sha [ini hs nh st du] t nt fs]]. reflexivity.
Qed.

Lemma nvs_erase_run k ev :
  call (nvs_erase_key_op h k) ev w =
    let e := match staged w !! k with
             | Some _ => ESP_OK
             | None => ESP_ERR_NVS_NOT_FOUND
             end in
    (e, with_namespace (delete k (staged w)) (durable w) w, [ev e]).
Proof.
  destruct Hu as [Hf Hv]. unfold call, nvs_erase_key_op.
  rewrite with_fault_none by exact Hf. rewrite Hv. cbn [negb].
  destruct w as [d rtc [rr sha [ini hs nh st du] t nt fs]].
  unfold staged, durable, with_namespace; cbn.
  destruct (st !! k) eqn:E; [reflexivity |].
  rewrite delete_id by exact E. reflexivity.
Qed.

Lemma nvs_commit_run ev :
  call (nvs_commit_op h) ev w =
    (ESP_OK, with_namespace (staged w) (staged w) w, [ev ESP_OK]).
Proof.
  destruct Hu as [Hf Hv]. unfold call, nvs_commit_op.
  rewrite with_fault_none by exact Hf. cbv zeta. rewrite Hv. cbn [negb].
  destruct w as [d rtc [rr sha [ini hs nh st du] t nt fs]]. reflexivity.
Qed.

End NvsRuns.

Ltac lookup_solve :=
  repeat first
    [ rewrite lookup_insert_eq | rewrite lookup_delete_eq
    | rewrite lookup_insert_ne by discriminate
    | rewrite lookup_delete_ne by discriminate ];
  try first [ assumption | reflexivity | discriminate ].

Lemma when_log_world b s w : world (when b (ESP_LOGW s) w) = w.
Proof. destruct b; reflexivity. Qed.

Lemma not_err_same e : not_err e e = false.
Proof. apply not_err_false. reflexivity. Qed.

Lemma is_err_same e : is_err e e = true.
Proof. apply bool_decide_eq_true. reflexivity. Qed.

(** Step through a run in a usable store: the NVS calls are replaced by
    their outcome, innermost first. *)
Ltac run_nf :=
  repeat first
    [ match goal with
      | |- context [call (nvs_get_op ?sel ?h ?k ?out) ?ev ?W] =>
          rewrite (nvs_get_run h W ltac:(usable) sel k out ev)
      | |- context [call (nvs_set_op ?h ?k ?v) ?ev ?W] =>
          rewrite (nvs_set_run h W ltac:(usable) k v ev)
      | |- context [call (nvs_erase_key_op ?h ?k) ?ev ?W] =>
          rewrite (nvs_erase_run h W ltac:(usable) k ev)
      | |- context [call (nvs_commit_op ?h) ?ev ?W] =>
          rewrite (nvs_commit_run h W ltac:(usable) ev)
      end
    | rewrite result_pair | rewrite world_pair | rewrite events_pair
    | rewrite when_log_world | rewrite log_world_i | rewrite log_world_w
    | rewrite gets_run | rewrite modify_run | rewrite run_ret
    | rewrite not_err_same | rewrite is_err_same
    | rewrite staged_with_namespace | rewrite durable_with_namespace
    | rewrite staged_with_det | rewrite durable_with_det
    | rewrite with_namespace_twice
    | progress cbv beta zeta iota
    | rewrite bind_world | rewrite bind_result ].

Lemma reset_identity_run h cur (legacy fb : bool) w :
  store_usable h w ->
  let m1 := <[kKeyAppSha256 := Blob (take (Z.to_nat kSha256Len) cur)]>
              (delete kKeyMagic (staged w)) in
  let m2 := if legacy then delete kKeyAppHash m1 else m1 in
  let m := <[kKeyFirstBoot := U8 1]> (<[kKeyDirty := U8 1]> m2) in
  world (reset_identity h cur legacy fb w) =
    with_det (set_firmware_id_dirty_ true) (with_namespace m m w).
Proof.
  intros Hu m1 m2 m. subst m1 m2 m.
  unfold reset_identity, nvs_erase_key, nvs_set_blob, nvs_set_u8, nvs_commit.
  destruct legacy; run_nf; reflexivity.
Qed.

Lemma read_current_identity_run w sha :
  app_elf_sha256 (plat w) = Some sha -> length sha = 32%nat ->
  read_current_identity w = (sha, w, [EvAppDescription true]).
Proof.
  intros Hsha Hlen. destruct w as [d rtc p].
  unfold read_current_identity, get_current_app_sha256, esp_app_get_description.
  unfold_monad. simpl in *. rewrite Hsha. simpl.
  rewrite overwrite_descriptor by (reflexivity || assumption).
  destruct p; simpl in *. reflexivity.
Qed.

Lemma identity_changed_run valid stored cur legacy w :
  world (identity_changed valid stored cur legacy w) = w /\
  result (identity_changed valid stored cur legacy w) =
    negb valid || bool_decide (stored <> cur).
Proof.
  unfold identity_changed.
  destruct valid, legacy; simpl; try (split; reflexivity).
  all: destruct (bool_decide (stored <> cur)); split; reflexivity.
Qed.

Lemma read_first_boot_world h w :
  store_usable h w -> world (read_first_boot h w) = w.
Proof.
  intros Hu. unfold read_first_boot, nvs_get_u8. run_nf.
  destruct (staged w !! kKeyFirstBoot) as [[]|]; simpl; reflexivity.
Qed.

(** The stored identity counts as valid only when the key holds a blob of
    exactly 32 bytes, whatever fails. *)
Lemma read_stored_identity_valid h w :
  let r := read_stored_identity h w in
  snd (result r) = true ->
  exists bs,
    staged w !! kKeyAppSha256 = Some (Blob bs) /\ length bs = 32%nat /\
    fst (result r) = bs.
Proof.
  intros r. subst r. unfold read_stored_identity, nvs_get_blob.
  rewrite bind_result. unfold call.
  destruct (nvs_get_op sel_blob h kKeyAppSha256 _ (plat w)) as [[e [buf len]] p'] eqn:E.
  apply nvs_get_op_spec in E. destruct E as (_ & _ & _ & Hc).
  cbn [result world events fst snd].
  destruct (is_err e ESP_OK && (len =? kSha256Len)) eqn:Hok.
  2: { destruct (is_err e ESP_ERR_NVS_NOT_FOUND); simpl; discriminate. }
  intros _. apply andb_true_iff in Hok. destruct Hok as [He Hl].
  apply bool_decide_eq_true in He. apply Z.eqb_eq in Hl. subst e.
  destruct Hc as [(v & Hv & Hs)|[(H1 & _)|(H1 & _)]]; try (simpl in H1; congruence).
  destruct v; simpl in Hs; try discriminate.
  destruct (Z.of_nat (length bs) <=? _) eqn:Hle; try discriminate.
  injection Hs as -> ->.
  assert (Hlen : length bs = 32%nat).
  { change kSha256Len with 32 in Hl. lia. }
  exists bs. split; [exact Hv | split; [exact Hlen |]].
  rewrite run_ret, result_pair. cbn [fst].
  apply overwrite_blob; [reflexivity | exact Hlen].
Qed.

Lemma read_stored_identity_world h w :
  store_usable h w -> world (read_stored_identity h w) = w.
Proof.
  intros Hu. unfold read_stored_identity, nvs_get_blob. run_nf.
  match goal with |- world ((if ?b then _ else _) _) = _ => destruct b end;
    [reflexivity |].
  match goal with |- world ((if ?b then _ else _) _) = _ => destruct b end;
    reflexivity.
Qed.

Lemma read_stored_identity_blob h w bs :
  store_usable h w ->
  staged w !! kKeyAppSha256 = Some (Blob bs) -> length bs = 32%nat ->
  result (read_stored_identity h w) = (bs, true).
Proof.
  intros Hu Hst Hlen. unfold read_stored_identity, nvs_get_blob. run_nf.
  rewrite Hst. unfold sel_blob. cbn [fst snd]. rewrite Hlen.
  change (Z.of_nat 32 <=? kSha256Len) with true. cbv iota. cbn [fst snd].
  change (Z.of_nat 32 =? kSha256Len) with true. rewrite is_err_same.
  cbn [andb]. cbv iota. run_nf.
  rewrite overwrite_blob by (reflexivity || assumption). reflexivity.
Qed.

Ltac track_nf :=
  repeat first
    [ match goal with
      | |- context [world (read_stored_identity ?h ?W)] =>
          rewrite (read_stored_identity_world h W ltac:(usable))
      | |- context [world (read_first_boot ?h ?W)] =>
          rewrite (read_first_boot_world h W ltac:(usable))
      | |- context [world (identity_changed ?a ?b ?c ?d ?W)] =>
          rewrite (proj1 (identity_changed_run a b c d W))
      | |- context [result (identity_changed ?a ?b ?c ?d ?W)] =>
          rewrite (proj2 (identity_changed_run a b c d W))
      | |- context [world ((if ?b then ESP_LOGI ?s1 else ESP_LOGI ?s2) ?W)] =>
          replace (world ((if b then ESP_LOGI s1 else ESP_LOGI s2) W)) with W
            by (destruct b; reflexivity)
      end
    | progress run_nf ].

Lemma track_identity_changed_run (h : Z) (w : World) (sha : list Z) :
  store_usable h w ->
  app_elf_sha256 (plat w) = Some sha ->
  length sha = 32%nat ->
  staged w !! kKeyAppSha256 <> Some (Blob sha) ->
  let r := track_identity h w in
  result r = true /\
  exists m,
    world r = with_det (set_firmware_id_dirty_ true) (with_namespace m m w) /\
    m !! kKeyMagic = None /\
    m !! kKeyAppSha256 = Some (Blob sha) /\
    m !! kKeyDirty = Some (U8 1) /\
    m !! kKeyFirstBoot = Some (U8 1) /\
    (forall v, m !! kKeyAppHash <> Some (U32 v)) /\
    m !! kKeyBoot = staged w !! kKeyBoot.
Proof.
  intros Hu Hsha Hlen Hst r. subst r.
  assert (Hch : negb (snd (result (read_stored_identity h w))) ||
                bool_decide (fst (result (read_stored_identity h w)) <> sha) = true).
  { destruct (snd (result (read_stored_identity h w))) eqn:Hvalid; [| reflexivity].
    destruct (read_stored_identity_valid h w Hvalid) as (bs & Hbs & _ & ->).
    apply bool_decide_eq_true. congruence. }
  unfold track_identity.
  rewrite !bind_result, !bind_world.
  rewrite (read_current_identity_run w sha Hsha Hlen).
  unfold nvs_get_u32. track_nf.
  rewrite Hch. cbv iota. split; [reflexivity |].
  rewrite reset_identity_run by usable.
  eexists. split; [reflexivity |].
  rewrite firstn_all2 by (rewrite Hlen; vm_compute; lia).
  assert (Hleg : forall (m : gmap string nvs_value) v, 
            (if is_err
                  (match staged w !! kKeyAppHash with
                   | Some v0 => sel_u32 v0 0
                   | None => (ESP_ERR_NVS_NOT_FOUND, 0)
                   end).1 ESP_OK
             then delete kKeyAppHash m else m) !! kKeyAppHash = Some (U32 v) ->
            m !! kKeyAppHash = staged w !! kKeyAppHash -> False).
  { intros m v. destruct (staged w !! kKeyAppHash) as [[]|] eqn:E; simpl;
      rewrite ?lookup_delete_eq; intros H1 H2; congruence. }
  repeat split.
  - destruct (is_err _ ESP_OK); lookup_solve.
  - destruct (is_err _ ESP_OK); lookup_solve.
  - lookup_solve.
  - lookup_solve.
  - intros v Hv. rewrite !lookup_insert_ne in Hv by discriminate.
    eapply Hleg; [exact Hv |]. lookup_solve.
  - destruct (is_err _ ESP_OK); lookup_solve.
Qed.

Lemma classify_and_configure_opens (w : World) :
  backend_ (det w) = NVS ->
  configured_ (det w) = false ->
  faults (plat w) = [] ->
  0 <= nvs_next_handle (nvs (plat w)) < 2 ^ 32 ->
  let w0 := world (classify_and_configure w) in
  store_usable (nvs_handle_ (det w0)) w0 /\
  backend_ (det w0) = NVS /\ nvs_ready_ (det w0) = true /\
  firmware_id_dirty_ (det w0) = firmware_id_dirty_ (det w) /\
  staged w0 = staged w /\ durable w0 = durable w /\
  app_elf_sha256 (plat w0) = app_elf_sha256 (plat w) /\
  s_rtc_magic w0 = s_rtc_magic w.
Proof.
  intros Hb Hc Hf Hh w0. subst w0.
  destruct w as [d rtc [rr sha [ini hs nh st du] t nt fs]].
  simpl in *. subst fs.
  unfold classify_and_configure, configure, safe_nvs_init, esp_reset_reason,
    nvs_flash_init, nvs_open, store_usable, staged, durable.
  unfold_ops. unfold handle_valid. exec.
  all: rewrite Z.mod_small by exact Hh.
  all: repeat split.
  all: apply bool_decide_eq_true; left.
Qed.

Lemma classify_and_configure_ready (w : World) :
  configured_ (det w) = true ->
  world (classify_and_configure w) = w.
Proof.
  intros Hc. destruct w as [d rtc p]. simpl in *.
  unfold classify_and_configure, esp_reset_reason.
  exec; destruct p; reflexivity.
Qed.

Lemma read_firmware_dirty_run h changed w :
  store_usable h w ->
  world (read_firmware_dirty h changed w) = w /\
  result (read_firmware_dirty h changed w) =
    match staged w !! kKeyDirty with
    | Some (U8 v) => negb (v =? 0)
    | Some _ => true
    | None => changed || firmware_id_dirty_ (det w)
    end.
Proof.
  intros Hu. unfold read_firmware_dirty, nvs_get_u8. run_nf.
  destruct (staged w !! kKeyDirty) as [[]|]; simpl; split; reflexivity.
Qed.

Lemma read_stored_magic_run h w :
  store_usable h w ->
  world (read_stored_magic h w) = w /\
  result (read_stored_magic h w) =
    match staged w !! kKeyMagic with
    | Some (U32 v) => v
    | _ => 0
    end.
Proof.
  intros Hu. unfold read_stored_magic, nvs_get_u32. run_nf.
  destruct (staged w !! kKeyMagic) as [[]|]; simpl; split; reflexivity.
Qed.

Lemma cancel_disarm_usable h w :
  store_usable h w -> store_usable h (world (cancel_disarm w)).
Proof.
  intros [Hf Hv]. split.
  - apply (cancel_disarm_no_faults w Hf).
  - rewrite cancel_disarm_nvs. exact Hv.
Qed.

Lemma nvs_detected_world h w :
  store_usable h w ->
  let w1 := world (cancel_disarm w) in
  let m := delete kKeyMagic (staged w) in
  world (nvs_detected h w) =
    with_det (set_cached_result_ true) (with_namespace m m w1).
Proof.
  intros Hu w1 m. subst w1 m.
  pose proof (cancel_disarm_usable h w Hu) as Hu1.
  assert (Hs : staged (world (cancel_disarm w)) = staged w).
  { unfold staged. rewrite cancel_disarm_nvs. reflexivity. }
  unfold nvs_detected, nvs_erase_key, nvs_commit.
  rewrite bind_world, log_world_i, bind_world.
  set (w1 := world (cancel_disarm w)) in *.
  run_nf. rewrite Hs. reflexivity.
Qed.

Lemma nvs_arm_window_world h window w :
  store_usable h w ->
  let m := <[kKeyMagic := U32 kDrdMagic]> (staged w) in
  world (nvs_arm_window h window w) =
    world (schedule_disarm window (with_namespace m m w)).
Proof.
  intros Hu m. subst m.
  unfold nvs_arm_window, nvs_set_u32, nvs_commit.
  run_nf. reflexivity.
Qed.

Lemma schedule_disarm_usable h window w :
  store_usable h w -> store_usable h (world (schedule_disarm window w)).
Proof.
  intros [Hf Hv]. split.
  - destruct (schedule_disarm_exact window w Hf) as (_ & _ & ->).
    destruct (plat w); exact Hf.
  - destruct (schedule_disarm_frame window w) as (_ & _ & -> & _). exact Hv.
Qed.

Lemma check_and_clear_nvs_boot window w :
  nvs_boot w ->
  let w0 := world (classify_and_configure (mark_evaluated w)) in
  let tooling := is_tooling_reset (reset_reason (plat w)) in
  check_and_clear window w = 
    after_events (events (classify_and_configure (mark_evaluated w)))
      (check_and_clear_nvs tooling window w0) /\
  store_usable (nvs_handle_ (det w0)) w0 /\
  firmware_id_dirty_ (det w0) = false /\
  staged w0 = staged w /\ durable w0 = durable w /\
  app_elf_sha256 (plat w0) = app_elf_sha256 (plat w) /\
  backend_ (det w0) = NVS /\ nvs_ready_ (det w0) = true.
Proof.
  intros (Hb & Hc & He & Hd & Hf & Hh) w0 tooling.
  destruct (classify_and_configure_opens (mark_evaluated w) Hb Hc Hf Hh)
    as (Hu & Hb0 & Hr0 & Hd0 & Hs0 & Hdu0 & Ha0 & _).
  fold w0 in Hu, Hb0, Hr0, Hd0, Hs0, Hdu0, Ha0.
  split; [| split; [exact Hu | split; [| repeat split; assumption]]].
  - rewrite check_and_clear_first by exact He.
    unfold evaluate, after_events.
    rewrite (run_eta (bind _ _ _)).
    rewrite bind_result, bind_world, bind_events.
    rewrite classify_and_configure_result. fold w0.
    change (reset_reason (plat (mark_evaluated w))) with (reset_reason (plat w)).
    fold tooling.
    rewrite bind_result, bind_world, bind_events, gets_run.
    rewrite result_pair, world_pair, events_pair. rewrite Hb0.
    change (bool_decide (NVS = RTC)) with false. cbv iota.
    rewrite bind_result, bind_world, bind_events, gets_run.
    rewrite result_pair, world_pair, events_pair. rewrite Hr0.
    cbn [negb app]. cbv iota. reflexivity.
  - rewrite Hd0. exact Hd.
Qed.

Lemma read_nvs_state_clean h w sha :
  store_usable h w -> same_image sha w -> dirty_flag_clear w ->
  firmware_id_dirty_ (det w) = false ->
  world (read_nvs_state h w) = w /\
  result (read_nvs_state h w) =
    (false, match staged w !! kKeyMagic with Some (U32 v) => v | _ => 0 end).
Proof.
  intros Hu (Hsha & Hlen & Hst) Hdirty Hfid.
  destruct (track_identity_unchanged_run h w sha (proj1 Hu) (proj2 Hu) Hsha Hlen Hst)
    as (Hr & Hw & _).
  unfold read_nvs_state.
  rewrite !bind_world, !bind_result, Hw, Hr.
  destruct (read_firmware_dirty_run h false w Hu) as [-> ->].
  destruct (read_stored_magic_run h w Hu) as [-> ->].
  rewrite run_ret, world_pair, result_pair. split; [reflexivity |].
  rewrite Hfid. destruct Hdirty as [-> | ->]; reflexivity.
Qed.

Lemma read_nvs_state_new h w sha :
  store_usable h w -> new_image sha w ->
  exists m,
    world (read_nvs_state h w) =
      with_det (set_firmware_id_dirty_ true) (with_namespace m m w) /\
    fst (result (read_nvs_state h w)) = true /\
    m !! kKeyMagic = None /\
    m !! kKeyAppSha256 = Some (Blob sha) /\
    m !! kKeyDirty = Some (U8 1) /\
    m !! kKeyFirstBoot = Some (U8 1) /\
    (forall v, m !! kKeyAppHash <> Some (U32 v)).
Proof.
  intros Hu (Hsha & Hlen & Hst).
  destruct (track_identity_changed_run h w sha Hu Hsha Hlen Hst)
    as (Hr & m & Hw & H1 & H2 & H3 & H4 & H5 & _).
  exists m. unfold read_nvs_state.
  rewrite !bind_world, !bind_result, Hw, Hr.
  set (w1 := with_det (set_firmware_id_dirty_ true) (with_namespace m m w)).
  assert (Hu1 : store_usable h w1) by (subst w1; usable).
  destruct (read_firmware_dirty_run h true w1 Hu1) as [-> ->].
  destruct (read_stored_magic_run h w1 Hu1) as [-> ->].
  rewrite run_ret, world_pair, result_pair. cbn [fst].
  change (staged w1) with m. rewrite H3.
  repeat split; assumption.
Qed.

Lemma check_and_clear_nvs_arms window w sha :
  store_usable (nvs_handle_ (det w)) w -> same_image sha w ->
  dirty_flag_clear w -> firmware_id_dirty_ (det w) = false ->
  staged w !! kKeyMagic <> Some (U32 kDrdMagic) ->
  let m := <[kKeyMagic := U32 kDrdMagic]> (staged w) in
  let r := check_and_clear_nvs false window w in
  result r = false /\
  world r =
    with_det (set_cached_result_ false)
      (world (schedule_disarm window (with_namespace m m w))).
Proof.
  intros Hu Himg Hdirty Hfid Hmagic m r. subst m r.
  destruct (read_nvs_state_clean _ w sha Hu Himg Hdirty Hfid) as [Hw Hr].
  unfold check_and_clear_nvs.
  rewrite !bind_result, !bind_world, gets_run, result_pair, world_pair.
  rewrite Hw, Hr. cbn [fst snd negb andb].
  assert (Hne : (match staged w !! kKeyMagic with
                 | Some (U32 v) => v | _ => 0 end =? kDrdMagic) = false).
  { apply Z.eqb_neq. destruct (staged w !! kKeyMagic) as [[]|]; try discriminate.
    congruence. }
  rewrite Hne. cbv iota.
  rewrite !bind_result, !bind_world, modify_run, world_pair, run_ret, result_pair,
    world_pair.
  split; [reflexivity |].
  rewrite nvs_arm_window_world by exact Hu. reflexivity.
Qed.

Lemma check_and_clear_nvs_detects window w sha :
  store_usable (nvs_handle_ (det w)) w -> same_image sha w ->
  dirty_flag_clear w -> firmware_id_dirty_ (det w) = false ->
  staged w !! kKeyMagic = Some (U32 kDrdMagic) ->
  let m := delete kKeyMagic (staged w) in
  let r := check_and_clear_nvs false window w in
  result r = true /\
  world r =
    with_det (set_cached_result_ true)
      (with_namespace m m (world (cancel_disarm w))).
Proof.
  intros Hu Himg Hdirty Hfid Hmagic m r. subst m r.
  destruct (read_nvs_state_clean _ w sha Hu Himg Hdirty Hfid) as [Hw Hr].
  unfold check_and_clear_nvs.
  rewrite !bind_result, !bind_world, gets_run, result_pair, world_pair.
  rewrite Hw, Hr. cbn [fst snd negb andb]. rewrite Hmagic.
  change (kDrdMagic =? kDrdMagic) with true. cbv iota.
  split; [apply nvs_detected_run |].
  apply nvs_detected_world, Hu.
Qed.

Lemma check_and_clear_nvs_new_image tooling window w sha :
  store_usable (nvs_handle_ (det w)) w -> new_image sha w ->
  let r := check_and_clear_nvs tooling window w in
  result r = false /\
  exists m,
    world r =
      with_det (set_cached_result_ false)
        (world (schedule_arm window
                  (with_det (set_firmware_id_dirty_ true)
                     (with_namespace m m w)))) /\
    m !! kKeyMagic = None /\
    m !! kKeyAppSha256 = Some (Blob sha) /\
    m !! kKeyDirty = Some (U8 1) /\
    m !! kKeyFirstBoot = Some (U8 1) /\
    (forall v, m !! kKeyAppHash <> Some (U32 v)).
Proof.
  intros Hu Himg r. subst r.
  destruct (read_nvs_state_new _ w sha Hu Himg) as (m & Hw & Hr & Hm).
  unfold check_and_clear_nvs.
  rewrite !bind_result, !bind_world, gets_run, result_pair, world_pair.
  rewrite Hw, Hr. cbn [negb andb]. rewrite andb_false_r. cbn [andb]. cbv iota.
  rewrite !bind_result, !bind_world, modify_run, world_pair, run_ret, result_pair,
    world_pair, log_world_i.
  split; [reflexivity |]. exists m. split; [reflexivity | exact Hm].
Qed.

Lemma result_after_events {A} pre (r : A * World * list Event) :
  result (after_events pre r) = result r.
Proof. reflexivity. Qed.

Lemma world_after_events {A} pre (r : A * World * list Event) :
  world (after_events pre r) = world r.
Proof. reflexivity. Qed.

Lemma schedule_disarm_pending_nf window w :
  faults (plat w) = [] -> disarm_pending window (world (schedule_disarm window w)).
Proof. intros Hf. apply schedule_disarm_armed, Hf. Qed.


Lemma schedule_disarm_det_nf window w :
  faults (plat w) = [] ->
  let w' := world (schedule_disarm window w) in
  backend_ (det w') = backend_ (det w) /\
  nvs_ready_ (det w') = nvs_ready_ (det w) /\
  nvs_handle_ (det w') = nvs_handle_ (det w) /\
  app_elf_sha256 (plat w') = app_elf_sha256 (plat w).
Proof.
  intros Hf w'. subst w'.
  destruct (schedule_disarm_exact window w Hf) as (-> & _ & ->).
  destruct (plat w). repeat split.
Qed.

(** What a boot leaves for the callbacks and for the next boot. *)
Lemma boot_arms_summary (window : Z) (w : World) (sha : list Z) :
  nvs_boot w -> same_image sha w -> dirty_flag_clear w ->
  is_tooling_reset (reset_reason (plat w)) = false ->
  staged w !! kKeyMagic <> Some (U32 kDrdMagic) ->
  let w1 := world (check_and_clear window w) in
  result (check_and_clear window w) = false /\
  staged w1 = <[kKeyMagic := U32 kDrdMagic]> (staged w) /\
  durable w1 = staged w1 /\
  disarm_pending window w1 /\
  store_usable (nvs_handle_ (det w1)) w1 /\
  backend_ (det w1) = NVS /\ nvs_ready_ (det w1) = true /\
  app_elf_sha256 (plat w1) = app_elf_sha256 (plat w).
Proof.
  intros Hboot (Ha & Hlen & Hst) Hdirty Htool Hmagic w1. subst w1.
  destruct (check_and_clear_nvs_boot window w Hboot)
    as (-> & Hu & Hfid & Hs0 & Hd0 & Ha0 & Hb0 & Hr0).
  rewrite Htool, result_after_events, world_after_events.
  set (w0 := world (classify_and_configure (mark_evaluated w))) in *.
  assert (Himg : same_image sha w0).
  { unfold same_image. rewrite Ha0, Hs0. auto. }
  assert (Hdc : dirty_flag_clear w0).
  { unfold dirty_flag_clear. rewrite Hs0. exact Hdirty. }
  destruct (check_and_clear_nvs_arms window w0 sha Hu Himg Hdc Hfid) as [Hr Hw].
  { rewrite Hs0. exact Hmagic. }
  rewrite Hr, Hw. split; [reflexivity |].
  set (m := <[kKeyMagic:=U32 kDrdMagic]> (staged w0)).
  set (wn := with_namespace m m w0).
  assert (Hun : store_usable (nvs_handle_ (det w0)) wn) by (subst wn; usable).
  destruct (schedule_disarm_frame window wn) as (_ & _ & Hn & _).
  pose proof (schedule_disarm_pending_nf window _ (proj1 Hun)) as Hp.
  pose proof (schedule_disarm_usable _ window wn Hun) as Hu2.
  destruct (schedule_disarm_det_nf window wn (proj1 Hun)) as (Hb2 & Hr2 & Hh2 & Ha2).
  split; [| split; [| split; [| split; [| split; [| split]]]]].
  - unfold staged in *. cbn [plat with_det det]. rewrite Hn. cbn. subst m.
    rewrite Hs0. reflexivity.
  - unfold staged, durable in *. cbn [plat with_det det]. rewrite Hn. reflexivity.
  - destruct Hp as (t & H1 & H2). exists t. split; [exact H1 | exact H2].
  - cbn [det with_det]. 
    change (nvs_handle_ (set_cached_result_ false (det (world (schedule_disarm window wn)))))
      with (nvs_handle_ (det (world (schedule_disarm window wn)))).
    rewrite Hh2. exact Hu2.
  - cbn [det with_det].
    change (backend_ (set_cached_result_ false (det (world (schedule_disarm window wn)))))
      with (backend_ (det (world (schedule_disarm window wn)))).
    rewrite Hb2. exact Hb0.
  - change (nvs_ready_ (det (world (schedule_disarm window wn))) = true).
    rewrite Hr2. exact Hr0.
  - change (app_elf_sha256 (plat (world (schedule_disarm window wn))) =
            app_elf_sha256 (plat w)).
    rewrite Ha2. exact Ha0.
Qed.

(** X9. A clean boot arms the window.  On the NVS backend, when nothing
    fails, the running image is the one whose identity is stored, the
    Dirty Flag is clear, the reset is not a tooling reset and the marker
    is not set, the first [check_and_clear] returns [false], writes the
    marker and commits it (the namespace is otherwise unchanged, and flash
    holds what the handle sees), and leaves a disarm timer of [window]
    seconds pending. *)
Theorem clean_boot_arms (window : Z) (w : World) (sha : list Z) :
  nvs_boot w -> same_image sha w -> dirty_flag_clear w ->
  is_tooling_reset (reset_reason (plat w)) = false ->
  staged w !! kKeyMagic <> Some (U32 kDrdMagic) ->
  let r := check_and_clear window w in
  result r = false /\
  staged (world r) = <[kKeyMagic := U32 kDrdMagic]> (staged w) /\
  durable (world r) = staged (world r) /\
  disarm_pending window (world r).
Proof.
  intros Hboot Himg Hdirty Htool Hmagic r. subst r.
  destruct (boot_arms_summary window w sha Hboot Himg Hdirty Htool Hmagic)
    as (H1 & H2 & H3 & H4 & _).
  repeat split; assumption.
Qed.

Lemma boot_detects_summary (window : Z) (w : World) (sha : list Z) :
  nvs_boot w -> same_image sha w -> dirty_flag_clear w ->
  is_tooling_reset (reset_reason (plat w)) = false ->
  staged w !! kKeyMagic = Some (U32 kDrdMagic) ->
  let w1 := world (check_and_clear window w) in
  result (check_and_clear window w) = true /\
  staged w1 = delete kKeyMagic (staged w) /\
  durable w1 = staged w1 /\
  disarm_timer_ (det w1) = None /\
  app_elf_sha256 (plat w1) = app_elf_sha256 (plat w).
Proof.
  intros Hboot (Ha & Hlen & Hst) Hdirty Htool Hmagic w1. subst w1.
  destruct (check_and_clear_nvs_boot window w Hboot)
    as (-> & Hu & Hfid & Hs0 & Hd0 & Ha0 & Hb0 & Hr0).
  rewrite Htool, result_after_events, world_after_events.
  set (w0 := world (classify_and_configure (mark_evaluated w))) in *.
  assert (Himg : same_image sha w0).
  { unfold same_image. rewrite Ha0, Hs0. auto. }
  assert (Hdc : dirty_flag_clear w0).
  { unfold dirty_flag_clear. rewrite Hs0. exact Hdirty. }
  destruct (check_and_clear_nvs_detects window w0 sha Hu Himg Hdc Hfid) as [Hr Hw].
  { rewrite Hs0. exact Hmagic. }
  rewrite Hr, Hw. split; [reflexivity |].
  rewrite Hs0. split; [reflexivity | split; [reflexivity |]].
  cbn [det with_det with_namespace with_plat].
  rewrite cancel_disarm_det. split; [reflexivity |].
  cbn [plat with_det with_namespace with_plat set_nvs app_elf_sha256].
  rewrite <- Ha0.
  pose proof (cancel_disarm_exact w0 (proj1 Hu)) as Hp. rewrite Hp.
  destruct (plat w0); reflexivity.
Qed.

(** X10. An armed boot detects.  On the NVS backend, when nothing fails,
    the running image is the one whose identity is stored, the Dirty Flag
    is clear, the reset is not a tooling reset and the marker is set, the
    first [check_and_clear] returns [true], erases the marker and commits
    (flash holds what the handle sees), and holds no disarm timer. *)
Theorem armed_boot_detects (window : Z) (w : World) (sha : list Z) :
  nvs_boot w -> same_image sha w -> dirty_flag_clear w ->
  is_tooling_reset (reset_reason (plat w)) = false ->
  staged w !! kKeyMagic = Some (U32 kDrdMagic) ->
  let r := check_and_clear window w in
  result r = true /\
  staged (world r) = delete kKeyMagic (staged w) /\
  durable (world r) = staged (world r) /\
  disarm_timer_ (det (world r)) = None.
Proof.
  intros Hboot Himg Hdirty Htool Hmagic r. subst r.
  destruct (boot_detects_summary window w sha Hboot Himg Hdirty Htool Hmagic)
    as (H1 & H2 & H3 & H4 & _).
  repeat split; assumption.
Qed.

(** ** From one boot to the next *)

Lemma nvs_boot_reboot r w : nvs_boot (reboot NVS r [] w).
Proof. repeat split; try reflexivity. discriminate. Qed.

Lemma same_image_reboot sha r fs w m :
  app_elf_sha256 (plat w) = Some sha -> length sha = 32%nat ->
  durable w = m -> m !! kKeyAppSha256 = Some (Blob sha) ->
  same_image sha (reboot NVS r fs w).
Proof.
  intros Ha Hl Hd Hm. unfold same_image.
  change (staged (reboot NVS r fs w)) with (durable w).
  change (app_elf_sha256 (plat (reboot NVS r fs w))) with (app_elf_sha256 (plat w)).
  rewrite Hd. auto.
Qed.

Lemma dirty_flag_clear_lookup w m :
  staged w = m ->
  (m !! kKeyDirty = None \/ m !! kKeyDirty = Some (U8 0)) ->
  dirty_flag_clear w.
Proof. intros <- H. exact H. Qed.

Lemma nvs_boot_not_detecting window w :
  nvs_boot w ->
  is_tooling_reset (reset_reason (plat w)) = true ->
  result (check_and_clear window w) = false.
Proof.
  intros Hboot Ht.
  destruct (check_and_clear_nvs_boot window w Hboot) as (-> & _).
  rewrite Ht, result_after_events. apply check_and_clear_nvs_tooling.
Qed.

(** A boot of the stored image with the Dirty Flag clear and without the
    marker never detects. *)
Lemma unarmed_boot_returns_false window w sha :
  nvs_boot w -> same_image sha w -> dirty_flag_clear w ->
  staged w !! kKeyMagic <> Some (U32 kDrdMagic) ->
  result (check_and_clear window w) = false.
Proof.
  intros Hboot Himg Hdirty Hmagic.
  destruct (is_tooling_reset (reset_reason (plat w))) eqn:Ht.
  - apply nvs_boot_not_detecting; assumption.
  - apply (boot_arms_summary window w sha Hboot Himg Hdirty Ht Hmagic).
Qed.

(** X11. Round trip on the NVS backend, nothing failing.  After a clean
    boot has armed the window, a reset that is not a tooling reset, taken
    before the disarm timer expires, makes the next boot return [true];
    the boot after that one returns [false] whatever its reset reason:
    a detection consumes the marker. *)
Theorem nvs_double_reset_detected (window window' window'' : Z) (w : World)
    (sha : list Z) (r r' : esp_reset_reason_t) :
  nvs_boot w -> same_image sha w -> dirty_flag_clear w ->
  is_tooling_reset (reset_reason (plat w)) = false ->
  staged w !! kKeyMagic <> Some (U32 kDrdMagic) ->
  is_tooling_reset r = false ->
  let boot_a := check_and_clear window w in
  let boot_b := check_and_clear window' (reboot NVS r [] (world boot_a)) in
  let boot_c := check_and_clear window'' (reboot NVS r' [] (world boot_b)) in
  result boot_a = false /\ result boot_b = true /\ result boot_c = false.
Proof.
  intros Hboot Himg Hdirty Htool Hmagic Hr boot_a boot_b boot_c.
  subst boot_a boot_b boot_c.
  destruct (boot_arms_summary window w sha Hboot Himg Hdirty Htool Hmagic)
    as (H1 & H2 & H3 & _ & _ & _ & _ & H4).
  set (w1 := world (check_and_clear window w)) in *.
  destruct Himg as (Ha & Hlen & Hst).
  assert (Hd1 : durable w1 = <[kKeyMagic := U32 kDrdMagic]> (staged w))
    by (rewrite H3; exact H2).
  assert (Himg2 : same_image sha (reboot NVS r [] w1)).
  { apply (same_image_reboot sha r [] w1 _ (eq_trans H4 Ha) Hlen Hd1).
    rewrite lookup_insert_ne by discriminate. exact Hst. }
  assert (Hdc2 : dirty_flag_clear (reboot NVS r [] w1)).
  { eapply dirty_flag_clear_lookup; [exact Hd1 |].
    rewrite lookup_insert_ne by discriminate. exact Hdirty. }
  assert (Hm2 : staged (reboot NVS r [] w1) !! kKeyMagic = Some (U32 kDrdMagic)).
  { change (staged (reboot NVS r [] w1)) with (durable w1).
    rewrite Hd1. apply lookup_insert_eq. }
  destruct (boot_detects_summary window' _ sha (nvs_boot_reboot r w1)
              Himg2 Hdc2 Hr Hm2) as (B1 & B2 & B3 & _ & B4).
  set (w2 := world (check_and_clear window' (reboot NVS r [] w1))) in *.
  split; [exact H1 | split; [exact B1 |]].
  assert (Hd2 : durable w2 = delete kKeyMagic (durable w1))
    by (rewrite B3; exact B2).
  apply (unarmed_boot_returns_false window'' _ sha (nvs_boot_reboot r' w2)).
  - apply (same_image_reboot sha r' [] w2 _
             (eq_trans B4 (eq_trans H4 Ha)) Hlen Hd2).
    rewrite lookup_delete_ne by discriminate. rewrite Hd1.
    rewrite lookup_insert_ne by discriminate. exact Hst.
  - eapply dirty_flag_clear_lookup; [exact Hd2 |].
    rewrite lookup_delete_ne by discriminate. rewrite Hd1.
    rewrite lookup_insert_ne by discriminate. exact Hdirty.
  - change (staged (reboot NVS r' [] w2)) with (durable w2).
    rewrite Hd2, lookup_delete_eq. discriminate.
Qed.

Lemma disarm_timer_cb_world w :
  backend_ (det w) = NVS -> nvs_ready_ (det w) = true ->
  store_usable (nvs_handle_ (det w)) w ->
  let m := delete kKeyMagic (staged w) in
  world (disarm_timer_cb w) =
    with_namespace m m (with_det (set_disarm_timer_ None) w).
Proof.
  intros Hb Hr Hu m. subst m.
  unfold disarm_timer_cb, nvs_erase_key, nvs_commit.
  rewrite bind_world, modify_run, world_pair.
  rewrite bind_world, gets_run, result_pair, world_pair.
  change (backend_ (det (with_det (set_disarm_timer_ None) w)))
    with (backend_ (det w)). rewrite Hb.
  change (bool_decide (NVS = RTC)) with false. cbv iota.
  rewrite bind_world, gets_run, result_pair, world_pair.
  change (nvs_ready_ (det (with_det (set_disarm_timer_ None) w)))
    with (nvs_ready_ (det w)). rewrite Hr. cbn [negb]. cbv iota.
  rewrite bind_world, gets_run, result_pair, world_pair.
  change (nvs_handle_ (det (with_det (set_disarm_timer_ None) w)))
    with (nvs_handle_ (det w)).
  assert (Hu1 : store_usable (nvs_handle_ (det w))
                  (with_det (set_disarm_timer_ None) w)) by usable.
  run_nf. reflexivity.
Qed.

Lemma arm_timer_cb_world w :
  backend_ (det w) = NVS -> nvs_ready_ (det w) = true ->
  store_usable (nvs_handle_ (det w)) w ->
  let m := <[kKeyMagic := U32 kDrdMagic]> (<[kKeyDirty := U8 0]> (staged w)) in
  world (arm_timer_cb w) =
    world (schedule_disarm (arm_window_s_ (det w))
             (with_namespace m m (with_det (set_arm_timer_ None) w))).
Proof.
  intros Hb Hr Hu m. subst m.
  unfold arm_timer_cb, nvs_set_u8, nvs_set_u32, nvs_commit.
  rewrite bind_world, modify_run, world_pair.
  rewrite bind_world, gets_run, result_pair, world_pair.
  change (backend_ (det (with_det (set_arm_timer_ None) w)))
    with (backend_ (det w)). rewrite Hb.
  rewrite bind_world, gets_run, result_pair, world_pair.
  change (nvs_ready_ (det (with_det (set_arm_timer_ None) w)))
    with (nvs_ready_ (det w)). rewrite Hr.
  change (bool_decide (NVS <> NVS) || negb true) with false. cbv iota.
  rewrite bind_world, gets_run, result_pair, world_pair.
  change (nvs_handle_ (det (with_det (set_arm_timer_ None) w)))
    with (nvs_handle_ (det w)).
  assert (Hu1 : store_usable (nvs_handle_ (det w))
                  (with_det (set_arm_timer_ None) w)) by usable.
  run_nf. reflexivity.
Qed.

Lemma expire_disarm_pending t window w :
  disarm_timer_ (det w) = Some t ->
  disarm_pending window w ->
  expire t w =
    disarm_timer_cb
      (with_plat
         (set_timers (<[t := mkTimer DisarmCb "drd_disarm" None]> (timers (plat w)))
            (next_timer (plat w)) (plat w)) w).
Proof.
  intros Ht (t' & Ht' & Hl). rewrite Ht in Ht'. injection Ht' as <-.
  unfold expire. rewrite Hl. reflexivity.
Qed.

(** X12. Expiry of the window on the NVS backend, nothing failing.  After
    a clean boot has armed the window, the expiry of the disarm timer
    erases the marker and commits; the next boot returns [false] whatever
    its reset reason. *)
Theorem nvs_window_expiry_disarms (window window' : Z) (w : World)
    (sha : list Z) (t : nat) (r : esp_reset_reason_t) :
  nvs_boot w -> same_image sha w -> dirty_flag_clear w ->
  is_tooling_reset (reset_reason (plat w)) = false ->
  staged w !! kKeyMagic <> Some (U32 kDrdMagic) ->
  let boot_a := check_and_clear window w in
  disarm_timer_ (det (world boot_a)) = Some t ->
  let expired := world (expire t (world boot_a)) in
  staged expired !! kKeyMagic = None /\
  durable expired !! kKeyMagic = None /\
  disarm_timer_ (det expired) = None /\
  result (check_and_clear window' (reboot NVS r [] expired)) = false.
Proof.
  intros Hboot Himg Hdirty Htool Hmagic boot_a Ht expired.
  subst boot_a expired.
  destruct (boot_arms_summary window w sha Hboot Himg Hdirty Htool Hmagic)
    as (H1 & H2 & H3 & H4 & H5 & H6 & H7 & H8).
  set (w1 := world (check_and_clear window w)) in *.
  rewrite (expire_disarm_pending t window w1 Ht H4).
  set (w1' := with_plat _ w1).
  assert (Hu : store_usable (nvs_handle_ (det w1')) w1').
  { destruct H5 as [Hf Hv]. split; [| exact Hv].
    subst w1'. cbn. destruct (plat w1); exact Hf. }
  rewrite (disarm_timer_cb_world w1' H6 H7 Hu).
  change (staged w1') with (staged w1).
  rewrite staged_with_namespace, durable_with_namespace.
  split; [apply lookup_delete_eq | split; [apply lookup_delete_eq |]].
  split; [reflexivity |].
  destruct Himg as (Ha & Hlen & Hst).
  set (w2 := with_namespace _ _ _).
  assert (Hd2 : durable w2 = delete kKeyMagic (staged w1)) by reflexivity.
  apply (unarmed_boot_returns_false window' _ sha (nvs_boot_reboot r w2)).
  - apply (same_image_reboot sha r [] w2 _ (eq_trans H8 Ha) Hlen Hd2).
    rewrite lookup_delete_ne by discriminate. rewrite H2.
    rewrite lookup_insert_ne by discriminate. exact Hst.
  - eapply dirty_flag_clear_lookup; [exact Hd2 |].
    rewrite lookup_delete_ne by discriminate. rewrite H2.
    rewrite lookup_insert_ne by discriminate. exact Hdirty.
  - change (staged (reboot NVS r [] w2)) with (durable w2).
    rewrite Hd2, lookup_delete_eq. discriminate.
Qed.

(** ** A boot after a firmware change *)

Lemma schedule_arm_usable h window w :
  CONFIG_DRD_ARM_DELAY_SECONDS mod 2 ^ 32 <> 0 ->
  store_usable h w -> store_usable h (world (schedule_arm window w)).
Proof.
  intros Hdelay [Hf Hv]. split.
  - destruct (schedule_arm_exact window w Hdelay Hf) as (_ & _ & _ & _ & ->).
    destruct (plat w); exact Hf.
  - destruct (schedule_arm_frame window w Hdelay) as (_ & _ & -> & _). exact Hv.
Qed.

Lemma schedule_arm_det_nf window w :
  CONFIG_DRD_ARM_DELAY_SECONDS mod 2 ^ 32 <> 0 ->
  let w' := world (schedule_arm window w) in
  backend_ (det w') = backend_ (det w) /\
  nvs_ready_ (det w') = nvs_ready_ (det w) /\
  nvs_handle_ (det w') = nvs_handle_ (det w).
Proof.
  intros Hdelay w'. subst w'.
  assert (K : keeps (fun w' => backend_ (det w') = backend_ (det w) /\
                               nvs_ready_ (det w') = nvs_ready_ (det w) /\
                               nvs_handle_ (det w') = nvs_handle_ (det w))
                any_event (schedule_arm window)).
  { rewrite (schedule_arm_deferred window Hdelay).
    keeps_with ltac:(solve [ reflexivity | intros; reflexivity
                           | intros ? (? & ? & ?); repeat split; simpl; assumption ]). }
  apply (K w). repeat split.
Qed.

Lemma boot_new_image_summary (window : Z) (w : World) (sha : list Z) :
  CONFIG_DRD_ARM_DELAY_SECONDS mod 2 ^ 32 <> 0 ->
  nvs_boot w -> new_image sha w ->
  let w1 := world (check_and_clear window w) in
  result (check_and_clear window w) = false /\
  staged w1 !! kKeyMagic = None /\
  staged w1 !! kKeyAppSha256 = Some (Blob sha) /\
  staged w1 !! kKeyDirty = Some (U8 1) /\
  durable w1 = staged w1 /\
  (exists t,
     arm_timer_ (det w1) = Some t /\
     timers (plat w1) !! t =
       Some (mkTimer ArmCb "drd_arm"
               (Some (CONFIG_DRD_ARM_DELAY_SECONDS mod 2 ^ 32 * 1000000)))) /\
  arm_window_s_ (det w1) = window /\
  store_usable (nvs_handle_ (det w1)) w1 /\
  backend_ (det w1) = NVS /\ nvs_ready_ (det w1) = true /\
  app_elf_sha256 (plat w1) = app_elf_sha256 (plat w).
Proof.
  intros Hdelay Hboot (Ha & Hlen & Hst) w1. subst w1.
  destruct (check_and_clear_nvs_boot window w Hboot)
    as (-> & Hu & Hfid & Hs0 & Hd0 & Ha0 & Hb0 & Hr0).
  rewrite result_after_events, world_after_events.
  set (w0 := world (classify_and_configure (mark_evaluated w))) in *.
  assert (Himg : new_image sha w0).
  { unfold new_image. rewrite Ha0, Hs0. auto. }
  destruct (check_and_clear_nvs_new_image
              (is_tooling_reset (reset_reason (plat w))) window w0 sha Hu Himg)
    as (Hr & m & Hw & M1 & M2 & M3 & _).
  rewrite Hr, Hw. split; [reflexivity |].
  set (wn := with_det (set_firmware_id_dirty_ true) (with_namespace m m w0)).
  assert (Hun : store_usable (nvs_handle_ (det w0)) wn) by (subst wn; usable).
  destruct (schedule_arm_frame window wn Hdelay) as (Hwin & _ & Hn & _ & _).
  destruct (schedule_arm_exact window wn Hdelay (proj1 Hun))
    as (Harm & _ & _ & _ & Hp).
  pose proof (schedule_arm_usable _ window wn Hdelay Hun) as Hu2.
  destruct (schedule_arm_det_nf window wn Hdelay) as (Hb2 & Hr2 & Hh2).
  assert (Hst2 : staged (world (schedule_arm window wn)) = m).
  { unfold staged. rewrite Hn. reflexivity. }
  assert (Hdu2 : durable (world (schedule_arm window wn)) = m).
  { unfold durable. rewrite Hn. reflexivity. }
  change (staged (with_det (set_cached_result_ false) (world (schedule_arm window wn))))
    with (staged (world (schedule_arm window wn))).
  change (durable (with_det (set_cached_result_ false) (world (schedule_arm window wn))))
    with (durable (world (schedule_arm window wn))).
  rewrite Hst2, Hdu2.
  split; [exact M1 | split; [exact M2 | split; [exact M3 | split; [reflexivity |]]]].
  split.
  { exists (next_timer (plat wn)). split; [exact Harm |].
    change (timers (plat (with_det (set_cached_result_ false)
                            (world (schedule_arm window wn)))))
      with (timers (plat (world (schedule_arm window wn)))).
    rewrite Hp. destruct (plat wn); simpl. apply lookup_insert_eq. }
  split; [exact Hwin |].
  split.
  { change (store_usable (nvs_handle_ (det (world (schedule_arm window wn))))
              (world (schedule_arm window wn))).
    rewrite Hh2. exact Hu2. }
  split; [change (backend_ (det (world (schedule_arm window wn))) = NVS);
          rewrite Hb2; exact Hb0 |].
  split; [change (nvs_ready_ (det (world (schedule_arm window wn))) = true);
          rewrite Hr2; exact Hr0 |].
  change (app_elf_sha256 (plat (world (schedule_arm window wn))) =
          app_elf_sha256 (plat w)).
  rewrite Hp, <- Ha0. destruct (plat w0) eqn:E. subst wn. cbn. rewrite E. reflexivity.
Qed.

Lemma expire_arm_pending t us w :
  timers (plat w) !! t = Some (mkTimer ArmCb "drd_arm" (Some us)) ->
  expire t w =
    arm_timer_cb
      (with_plat
         (set_timers (<[t := mkTimer ArmCb "drd_arm" None]> (timers (plat w)))
            (next_timer (plat w)) (plat w)) w).
Proof. intros Hl. unfold expire. rewrite Hl. reflexivity. Qed.

(** What the arm callback leaves, in a usable store. *)
Lemma arm_timer_cb_summary w :
  backend_ (det w) = NVS -> nvs_ready_ (det w) = true ->
  store_usable (nvs_handle_ (det w)) w ->
  let w' := world (arm_timer_cb w) in
  staged w' = <[kKeyMagic := U32 kDrdMagic]> (<[kKeyDirty := U8 0]> (staged w)) /\
  durable w' = staged w' /\
  disarm_pending (arm_window_s_ (det w)) w' /\
  arm_timer_ (det w') = None /\
  app_elf_sha256 (plat w') = app_elf_sha256 (plat w).
Proof.
  intros Hb Hr Hu w'. subst w'.
  rewrite (arm_timer_cb_world w Hb Hr Hu).
  set (m := <[kKeyMagic := U32 kDrdMagic]> (<[kKeyDirty := U8 0]> (staged w))).
  set (wn := with_namespace m m (with_det (set_arm_timer_ None) w)).
  assert (Hun : store_usable (nvs_handle_ (det w)) wn) by (subst wn; usable).
  destruct (schedule_disarm_frame (arm_window_s_ (det w)) wn) as (Ha & _ & Hn & _).
  destruct (schedule_disarm_det_nf (arm_window_s_ (det w)) wn (proj1 Hun))
    as (_ & _ & _ & Happ).
  pose proof (schedule_disarm_pending_nf (arm_window_s_ (det w)) wn (proj1 Hun)) as Hp.
  unfold staged, durable. rewrite Hn.
  split; [reflexivity | split; [reflexivity | split; [exact Hp |]]].
  split; [rewrite Ha; reflexivity | rewrite Happ; reflexivity].
Qed.

(** ** The firmware identity *)

Lemma read_stored_identity_frame h w :
  staged (world (read_stored_identity h w)) = staged w /\
  durable (world (read_stored_identity h w)) = durable w.
Proof.
  unfold read_stored_identity, nvs_get_blob. rewrite bind_world. unfold call.
  destruct (nvs_get_op sel_blob h kKeyAppSha256 _ (plat w)) as [[e [buf len]] p'] eqn:E.
  apply nvs_get_op_spec in E. destruct E as (_ & Hs & Hd & _).
  cbn [result world events fst snd].
  assert (H : staged (with_plat p' w) = staged w /\
              durable (with_plat p' w) = durable w) by (split; assumption).
  destruct (is_err e ESP_OK && (len =? kSha256Len)); [exact H |].
  destruct (is_err e ESP_ERR_NVS_NOT_FOUND); exact H.
Qed.

(** X15. The stored identity counts only as a blob of exactly 32 bytes.
    Whatever fails, when [read_stored_identity] reports a valid identity,
    the key app_sha256 holds a blob of 32 bytes and that blob is the
    identity returned; conversely, in a usable store such a blob is
    returned as valid.  Reading never changes the namespace. *)
Theorem stored_identity_validity (h : Z) (w : World) :
  let r := read_stored_identity h w in
  (snd (result r) = true ->
   exists bs,
     staged w !! kKeyAppSha256 = Some (Blob bs) /\ length bs = 32%nat /\
     fst (result r) = bs) /\
  (store_usable h w ->
   forall bs, staged w !! kKeyAppSha256 = Some (Blob bs) -> length bs = 32%nat ->
     result r = (bs, true)) /\
  staged (world r) = staged w /\ durable (world r) = durable w.
Proof.
  intros r. subst r.
  split; [apply read_stored_identity_valid |].
  split; [intros Hu bs; apply read_stored_identity_blob, Hu |].
  apply read_stored_identity_frame.
Qed.

(** X16. When the running image is the one whose identity is stored, the
    identity tracking of [check_and_clear] only reads: in a usable store it
    reports no change, leaves the world as it is, and its calls are the
    four reads of the application descriptor, app_sha256, app_hash and
    first_boot. *)
Theorem unchanged_identity_writes_nothing (h : Z) (w : World) (sha : list Z) :
  store_usable h w -> same_image sha w ->
  let r := track_identity h w in
  result r = false /\ world r = w /\
  exists e1 e2,
    calls (events r) =
      [EvAppDescription true; EvNvsGet kKeyAppSha256 ESP_OK;
       EvNvsGet kKeyAppHash e1; EvNvsGet kKeyFirstBoot e2].
Proof.
  intros [Hf Hv] (Ha & Hlen & Hst).
  apply (track_identity_unchanged_run h w sha Hf Hv Ha Hlen Hst).
Qed.

(** X17. When the running image is not the one whose identity is stored,
    the identity tracking resets the detector's persistent state: in a
    usable store it reports a change, erases the marker, stores the
    identity of the running image, sets the Dirty Flag and first_boot,
    removes a legacy app_hash, commits (flash holds what the handle sees),
    and sets [firmware_id_dirty_]; the key last_boot_us is left alone. *)
Theorem changed_identity_resets_state (h : Z) (w : World) (sha : list Z) :
  store_usable h w -> new_image sha w ->
  let r := track_identity h w in
  result r = true /\
  staged (world r) !! kKeyMagic = None /\
  staged (world r) !! kKeyAppSha256 = Some (Blob sha) /\
  staged (world r) !! kKeyDirty = Some (U8 1) /\
  staged (world r) !! kKeyFirstBoot = Some (U8 1) /\
  (forall v, staged (world r) !! kKeyAppHash <> Some (U32 v)) /\
  staged (world r) !! kKeyBoot = staged w !! kKeyBoot /\
  durable (world r) = staged (world r) /\
  firmware_id_dirty_ (det (world r)) = true.
Proof.
  intros Hu (Ha & Hlen & Hst) r. subst r.
  destruct (track_identity_changed_run h w sha Hu Ha Hlen Hst)
    as (Hr & m & -> & H1 & H2 & H3 & H4 & H5 & H6).
  split; [exact Hr |].
  change (staged (with_det (set_firmware_id_dirty_ true) (with_namespace m m w)))
    with m.
  repeat split; assumption.
Qed.

Lemma schedule_arm_immediate window :
  CONFIG_DRD_ARM_DELAY_SECONDS mod 2 ^ 32 = 0 ->
  schedule_arm window =
    (cancel_arm ;; modify (set_arm_window_s_ window) ;; arm_timer_cb).
Proof. intros H. unfold schedule_arm. rewrite H. reflexivity. Qed.

Lemma cancel_arm_usable h w :
  store_usable h w -> store_usable h (world (cancel_arm w)).
Proof.
  intros [Hf Hv]. split.
  - apply (cancel_arm_no_faults w Hf).
  - rewrite cancel_arm_nvs. exact Hv.
Qed.

Lemma cancel_arm_fields w :
  let w' := world (cancel_arm w) in
  backend_ (det w') = backend_ (det w) /\
  nvs_ready_ (det w') = nvs_ready_ (det w) /\
  nvs_handle_ (det w') = nvs_handle_ (det w).
Proof.
  intros w'. subst w'. rewrite cancel_arm_det.
  destruct (arm_timer_ (det w)); repeat split.
Qed.

(** The boot after a firmware change when the arm delay, as a [uint32_t],
    is zero: the arm callback has run inside [schedule_arm]. *)
Lemma boot_new_image_immediate (window : Z) (w : World) (sha : list Z) :
  CONFIG_DRD_ARM_DELAY_SECONDS mod 2 ^ 32 = 0 ->
  nvs_boot w -> new_image sha w ->
  let r := check_and_clear window w in
  result r = false /\
  staged (world r) !! kKeyMagic = Some (U32 kDrdMagic) /\
  staged (world r) !! kKeyDirty = Some (U8 0) /\
  staged (world r) !! kKeyAppSha256 = Some (Blob sha) /\
  durable (world r) = staged (world r) /\
  disarm_pending window (world r) /\
  arm_timer_ (det (world r)) = None.
Proof.
  intros Hdelay Hboot (Ha & Hlen & Hst) r. subst r.
  destruct (check_and_clear_nvs_boot window w Hboot)
    as (-> & Hu & Hfid & Hs0 & Hd0 & Ha0 & Hb0 & Hr0).
  rewrite result_after_events, world_after_events.
  set (w0 := world (classify_and_configure (mark_evaluated w))) in *.
  assert (Himg : new_image sha w0).
  { unfold new_image. rewrite Ha0, Hs0. auto. }
  destruct (check_and_clear_nvs_new_image
              (is_tooling_reset (reset_reason (plat w))) window w0 sha Hu Himg)
    as (Hr & m & Hw & _ & M2 & _).
  rewrite Hr, Hw. split; [reflexivity |].
  set (wn := with_det (set_firmware_id_dirty_ true) (with_namespace m m w0)).
  assert (Hun : store_usable (nvs_handle_ (det w0)) wn) by (subst wn; usable).
  rewrite (schedule_arm_immediate window Hdelay).
  rewrite bind_world, bind_world, modify_run, world_pair.
  destruct (cancel_arm_fields wn) as (Hb1 & Hr1 & Hh1).
  pose proof (cancel_arm_usable _ wn Hun) as Hu1.
  set (w2 := with_det (set_arm_window_s_ window) (world (cancel_arm wn))).
  assert (Hb2 : backend_ (det w2) = NVS).
  { change (backend_ (det (world (cancel_arm wn))) = NVS). rewrite Hb1. exact Hb0. }
  assert (Hr2 : nvs_ready_ (det w2) = true).
  { change (nvs_ready_ (det (world (cancel_arm wn))) = true). rewrite Hr1. exact Hr0. }
  assert (Hu2 : store_usable (nvs_handle_ (det w2)) w2).
  { change (store_usable (nvs_handle_ (det (world (cancel_arm wn)))) w2).
    rewrite Hh1. subst w2. usable. }
  assert (Hm2 : staged w2 = m).
  { change (nvs_staged (nvs (plat (world (cancel_arm wn)))) = m).
    rewrite cancel_arm_nvs. reflexivity. }
  destruct (arm_timer_cb_summary w2 Hb2 Hr2 Hu2) as (S1 & S2 & S3 & S4 & _).
  change (arm_window_s_ (det w2)) with window in S3.
  change (staged (with_det (set_cached_result_ false) (world (arm_timer_cb w2))))
    with (staged (world (arm_timer_cb w2))).
  change (durable (with_det (set_cached_result_ false) (world (arm_timer_cb w2))))
    with (durable (world (arm_timer_cb w2))).
  rewrite S1.
  split; [apply lookup_insert_eq |].
  split; [rewrite lookup_insert_ne by discriminate; apply lookup_insert_eq |].
  split; [rewrite !lookup_insert_ne by discriminate; rewrite Hm2; exact M2 |].
  split; [rewrite S2, S1; reflexivity |].
  split; [| exact S4].
  destruct S3 as (t & T1 & T2). exists t. split; [exact T1 | exact T2].
Qed.

(** X13. A boot after a firmware change never detects.  On the NVS
    backend, when nothing fails and the running image is not the one whose
    identity is stored (or none is stored), the first [check_and_clear]
    returns [false] whatever the marker, the reset reason and the arm
    delay, and leaves the identity of the running image stored, flash
    holding what the handle sees.  When the arm delay, as the [uint32_t]
    the code takes it for, is not zero, it leaves the marker erased, the
    Dirty Flag set and an arm timer of that delay pending that remembers
    [window]. *)
Theorem firmware_change_blocks_detection (window : Z) (w : World) (sha : list Z) :
  nvs_boot w -> new_image sha w ->
  let r := check_and_clear window w in
  result r = false /\
  staged (world r) !! kKeyAppSha256 = Some (Blob sha) /\
  durable (world r) = staged (world r) /\
  (CONFIG_DRD_ARM_DELAY_SECONDS mod 2 ^ 32 <> 0 ->
   staged (world r) !! kKeyMagic = None /\
   staged (world r) !! kKeyDirty = Some (U8 1) /\
   arm_window_s_ (det (world r)) = window /\
   exists t,
     arm_timer_ (det (world r)) = Some t /\
     timers (plat (world r)) !! t =
       Some (mkTimer ArmCb "drd_arm"
               (Some (CONFIG_DRD_ARM_DELAY_SECONDS mod 2 ^ 32 * 1000000)))).
Proof.
  intros Hboot Himg r. subst r.
  destruct (decide (CONFIG_DRD_ARM_DELAY_SECONDS mod 2 ^ 32 = 0)) as [Hz | Hdelay].
  - destruct (boot_new_image_immediate window w sha Hz Hboot Himg)
      as (H1 & _ & _ & H3 & H5 & _).
    split; [exact H1 | split; [exact H3 | split; [exact H5 |]]].
    intros Hnz. contradiction.
  - destruct (boot_new_image_summary window w sha Hdelay Hboot Himg)
      as (H1 & H2 & H3 & H4 & H5 & H6 & H7 & _).
    split; [exact H1 | split; [exact H3 | split; [exact H5 |]]].
    intros _. split; [exact H2 | split; [exact H4 | split; [exact H7 | exact H6]]].
Qed.

(** X14. The arm delay.  On the NVS backend, nothing failing, after the
    boot that follows a firmware change the expiry of the arm timer clears
    the Dirty Flag, sets the marker, commits both and leaves a disarm timer
    of the window of that boot pending; a reset that is not a tooling
    reset, taken before that timer expires, makes the next boot return
    [true]. *)
Theorem arm_delay_completes (window window' : Z) (w : World) (sha : list Z)
    (t : nat) (r : esp_reset_reason_t) :
  CONFIG_DRD_ARM_DELAY_SECONDS <> 0 ->
  nvs_boot w -> new_image sha w ->
  is_tooling_reset r = false ->
  let boot_a := check_and_clear window w in
  arm_timer_ (det (world boot_a)) = Some t ->
  let fired := world (expire t (world boot_a)) in
  result boot_a = false /\
  staged fired !! kKeyDirty = Some (U8 0) /\
  staged fired !! kKeyMagic = Some (U32 kDrdMagic) /\
  durable fired = staged fired /\
  disarm_pending window fired /\
  arm_timer_ (det fired) = None /\
  result (check_and_clear window' (reboot NVS r [] fired)) = true.
Proof.
  intros _ Hboot Himg Hr boot_a Ht fired. subst boot_a fired.
  destruct (decide (CONFIG_DRD_ARM_DELAY_SECONDS mod 2 ^ 32 = 0)) as [Hz | Hdelay].
  { destruct (boot_new_image_immediate window w sha Hz Hboot Himg)
      as (_ & _ & _ & _ & _ & _ & Hnone).
    rewrite Hnone in Ht. discriminate. }
  destruct (boot_new_image_summary window w sha Hdelay Hboot Himg)
    as (H1 & H2 & H3 & H4 & H5 & (t' & Ht' & Hl) & H7 & H8 & H9 & H10 & H11).
  set (w1 := world (check_and_clear window w)) in *.
  rewrite Ht in Ht'. injection Ht' as <-.
  rewrite (expire_arm_pending t _ w1 Hl).
  set (w1' := with_plat _ w1).
  assert (Hu : store_usable (nvs_handle_ (det w1')) w1').
  { destruct H8 as [Hf Hv]. split; [| exact Hv].
    subst w1'. cbn. destruct (plat w1); exact Hf. }
  destruct (arm_timer_cb_summary w1' H9 H10 Hu) as (S1 & S2 & S3 & S4 & S5).
  change (staged w1') with (staged w1) in S1.
  change (arm_window_s_ (det w1')) with (arm_window_s_ (det w1)) in S3.
  rewrite H7 in S3.
  set (w2 := world (arm_timer_cb w1')) in *.
  split; [exact H1 |].
  split; [rewrite S1, lookup_insert_ne by discriminate; apply lookup_insert_eq |].
  split; [rewrite S1; apply lookup_insert_eq |].
  split; [exact S2 | split; [exact S3 | split; [exact S4 |]]].
  destruct Himg as (Ha & Hlen & _).
  assert (Hd2 : durable w2 =
                <[kKeyMagic := U32 kDrdMagic]> (<[kKeyDirty := U8 0]> (staged w1)))
    by (rewrite S2; exact S1).
  assert (Happ : app_elf_sha256 (plat w2) = Some sha).
  { rewrite S5. change (app_elf_sha256 (plat w1')) with (app_elf_sha256 (plat w1)).
    subst w1'. cbn. destruct (plat w1) eqn:E. cbn in *. congruence. }
  apply (boot_detects_summary window' _ sha (nvs_boot_reboot r w2)).
  - apply (same_image_reboot sha r [] w2 _ Happ Hlen Hd2).
    rewrite !lookup_insert_ne by discriminate. exact H3.
  - eapply dirty_flag_clear_lookup; [exact Hd2 |]. right.
    rewrite lookup_insert_ne by discriminate. apply lookup_insert_eq.
  - exact Hr.
  - change (staged (reboot NVS r [] w2)) with (durable w2).
    rewrite Hd2. apply lookup_insert_eq.
Qed.

(** X18. With a zero arm delay the arm callback runs inside
    [schedule_arm]: on the NVS backend, nothing failing, the boot that
    follows a firmware change returns [false] but leaves the Dirty Flag
    clear and the marker set, both on flash, a disarm timer of [window]
    seconds pending and no arm timer. *)
Theorem zero_delay_arms_at_once (window : Z) (w : World) (sha : list Z) :
  CONFIG_DRD_ARM_DELAY_SECONDS = 0 ->
  nvs_boot w -> new_image sha w ->
  let r := check_and_clear window w in
  result r = false /\
  staged (world r) !! kKeyMagic = Some (U32 kDrdMagic) /\
  staged (world r) !! kKeyDirty = Some (U8 0) /\
  durable (world r) = staged (world r) /\
  disarm_pending window (world r) /\
  arm_timer_ (det (world r)) = None.
Proof.
  intros Hdelay Hboot Himg r. subst r.
  assert (Hz : CONFIG_DRD_ARM_DELAY_SECONDS mod 2 ^ 32 = 0)
    by (rewrite Hdelay; reflexivity).
  destruct (boot_new_image_immediate window w sha Hz Hboot Himg)
    as (H1 & H2 & H3 & _ & H5 & H6 & H7).
  repeat split; assumption.
Qed.

(** ** From one boot to the next on the RTC backend *)

Lemma classify_and_configure_keeps_backend_rtc :
  keeps backend_rtc any_event classify_and_configure.
Proof. keeps_with backend_side. Qed.

Lemma classify_and_configure_rtc w :
  s_rtc_magic (world (classify_and_configure w)) = s_rtc_magic w.
Proof.
  assert (K : keeps (rtc_is (s_rtc_magic w)) any_event classify_and_configure)
    by keeps_with rtc_side.
  apply (K w). reflexivity.
Qed.

Lemma rtc_boot_decision window w :
  evaluated_ (det w) = false -> backend_ (det w) = RTC ->
  let w0 := world (classify_and_configure (mark_evaluated w)) in
  let tooling := is_tooling_reset (reset_reason (plat w)) in
  result (check_and_clear window w) =
    result (check_and_clear_rtc tooling window w0) /\
  world (check_and_clear window w) =
    world (check_and_clear_rtc tooling window w0) /\
  s_rtc_magic w0 = s_rtc_magic w /\ backend_ (det w0) = RTC.
Proof.
  intros He Hb w0 tooling.
  assert (Hb0 : backend_ (det w0) = RTC).
  { apply (classify_and_configure_keeps_backend_rtc (mark_evaluated w)). exact Hb. }
  rewrite check_and_clear_first by exact He. unfold evaluate.
  rewrite !bind_result, !bind_world, classify_and_configure_result, gets_run,
    result_pair, world_pair.
  fold w0. rewrite Hb0. change (bool_decide (RTC = RTC)) with true. cbv iota.
  repeat split; try assumption.
  exact (classify_and_configure_rtc (mark_evaluated w)).
Qed.

Lemma rtc_boot_without_marker window w :
  evaluated_ (det w) = false -> backend_ (det w) = RTC ->
  s_rtc_magic w <> kDrdMagic ->
  result (check_and_clear window w) = false.
Proof.
  intros He Hb Hm.
  destruct (rtc_boot_decision window w He Hb) as (-> & _ & Hr & _).
  set (w0 := world (classify_and_configure (mark_evaluated w))) in *.
  destruct (check_and_clear_rtc_cases
              (is_tooling_reset (reset_reason (plat w))) window w0) as (C1 & _ & C3).
  destruct (is_tooling_reset (reset_reason (plat w))).
  - apply C1. reflexivity.
  - apply C3; [reflexivity | rewrite Hr; exact Hm].
Qed.

Lemma rtc_boot_arms window w :
  evaluated_ (det w) = false -> backend_ (det w) = RTC ->
  is_tooling_reset (reset_reason (plat w)) = false ->
  s_rtc_magic w <> kDrdMagic ->
  let w1 := world (check_and_clear window w) in
  result (check_and_clear window w) = false /\
  s_rtc_magic w1 = kDrdMagic /\ backend_ (det w1) = RTC /\
  forall t, disarm_timer_ (det w1) = Some t ->
    timers (plat w1) !! t =
      Some (mkTimer DisarmCb "drd_disarm" (Some ((window * 1000000) mod 2 ^ 64))).
Proof.
  intros He Hb Ht Hm w1. subst w1.
  destruct (rtc_boot_decision window w He Hb) as (-> & -> & Hr & Hb0).
  rewrite Ht.
  set (w0 := world (classify_and_configure (mark_evaluated w))) in *.
  pose proof (check_and_clear_rtc_keeps_backend false window w0 Hb0) as [Hk _].
  destruct (check_and_clear_rtc_cases false window w0) as (_ & _ & C3).
  destruct (C3 eq_refl) as (R1 & R2 & R3 & _); [rewrite Hr; exact Hm |].
  split; [exact R1 | split; [exact R2 | split; [exact Hk |]]].
  rewrite R3. intros t Hd.
  apply (schedule_disarm_pending window (with_rtc kDrdMagic w0) t Hd).
Qed.

Lemma disarm_timer_cb_rtc w :
  backend_ (det w) = RTC -> s_rtc_magic (world (disarm_timer_cb w)) = 0.
Proof.
  intros Hb. destruct w as [d rtc p]. simpl in Hb.
  unfold disarm_timer_cb, clear_flag. exec; reflexivity.
Qed.

(** X19. Round trip on the RTC backend, whatever fails.  After a boot
    that found no marker and was not a tooling reset, the RTC cell holds
    the magic; a reset that is neither a tooling reset nor a power-on reset
    makes the next boot return [true] and zero the cell, while a power-on
    reset (the cell is lost) makes it return [false]. *)
Theorem rtc_double_reset_detected (window window' : Z) (w : World)
    (r : esp_reset_reason_t) (fs fs' : list (option fault)) :
  evaluated_ (det w) = false -> backend_ (det w) = RTC ->
  is_tooling_reset (reset_reason (plat w)) = false ->
  s_rtc_magic w <> kDrdMagic ->
  is_tooling_reset r = false -> r <> ESP_RST_POWERON ->
  let boot_a := check_and_clear window w in
  let boot_b := check_and_clear window' (reboot RTC r fs (world boot_a)) in
  let cold := check_and_clear window' (reboot RTC ESP_RST_POWERON fs' (world boot_a)) in
  result boot_a = false /\ s_rtc_magic (world boot_a) = kDrdMagic /\
  result boot_b = true /\ s_rtc_magic (world boot_b) = 0 /\
  result cold = false.
Proof.
  intros He Hb Ht Hm Hr Hp boot_a boot_b cold. subst boot_a boot_b cold.
  destruct (rtc_boot_arms window w He Hb Ht Hm) as (A1 & A2 & _).
  set (w1 := world (check_and_clear window w)) in *.
  split; [exact A1 | split; [exact A2 |]].
  assert (Hcell : s_rtc_magic (reboot RTC r fs w1) = kDrdMagic).
  { unfold reboot, boot. cbn [s_rtc_magic].
    rewrite bool_decide_eq_false_2 by exact Hp. exact A2. }
  destruct (rtc_boot_decision window' (reboot RTC r fs w1) eq_refl eq_refl)
    as (-> & -> & Hr0 & _).
  change (reset_reason (plat (reboot RTC r fs w1))) with r. rewrite Hr.
  set (w0 := world (classify_and_configure (mark_evaluated (reboot RTC r fs w1)))) in *.
  destruct (check_and_clear_rtc_cases false window' w0) as (_ & C2 & _).
  destruct (C2 eq_refl) as (B1 & B2 & _); [rewrite Hr0; exact Hcell |].
  split; [exact B1 | split; [exact B2 |]].
  apply rtc_boot_without_marker; try reflexivity.
  unfold reboot, boot. cbn [s_rtc_magic]. discriminate.
Qed.

(** X20. Expiry of the window on the RTC backend, whatever fails.  After
    a boot that armed the window, the expiry of the disarm timer it holds
    zeroes the RTC cell and nulls the handle; the next boot returns
    [false] whatever its reset reason. *)
Theorem rtc_window_expiry_disarms (window window' : Z) (w : World) (t : nat)
    (r : esp_reset_reason_t) (fs : list (option fault)) :
  evaluated_ (det w) = false -> backend_ (det w) = RTC ->
  is_tooling_reset (reset_reason (plat w)) = false ->
  s_rtc_magic w <> kDrdMagic ->
  let boot_a := check_and_clear window w in
  disarm_timer_ (det (world boot_a)) = Some t ->
  let expired := world (expire t (world boot_a)) in
  s_rtc_magic expired = 0 /\
  result (check_and_clear window' (reboot RTC r fs expired)) = false.
Proof.
  intros He Hb Ht Hm boot_a Hd expired. subst boot_a expired.
  destruct (rtc_boot_arms window w He Hb Ht Hm) as (_ & _ & Hb1 & Hp).
  set (w1 := world (check_and_clear window w)) in *.
  assert (Hz : s_rtc_magic (world (expire t w1)) = 0).
  { unfold expire. rewrite (Hp t Hd). apply disarm_timer_cb_rtc. exact Hb1. }
  split; [exact Hz |].
  apply rtc_boot_without_marker; try reflexivity.
  unfold reboot, boot. cbn [s_rtc_magic]. rewrite Hz.
  destruct (bool_decide (r = ESP_RST_POWERON)); discriminate.
Qed.

Transparent firstn overwrite.


(** ** sha256_to_hex *)

Lemma nibbles v :
  0 <= v < 256 ->
  Z.land (Z.shiftr v 4) 0x0F = v / 16 /\ Z.land v 0x0F = v mod 16.
Proof.
  intros Hv. change 0x0F with (Z.ones 4).
  rewrite !Z.land_ones by lia. rewrite Z.shiftr_div_pow2 by lia.
  change (2 ^ 4) with 16. split; [| reflexivity].
  apply Z.mod_small. split; [apply Z.div_pos; lia |].
  apply Z.div_lt_upper_bound; lia.
Qed.

Lemma hex_loop_spec n : forall i sha out,
  (i + n <= length sha)%nat ->
  (2 * (i + n) <= length out)%nat ->
  Z.of_nat (length out) <= 2 ^ 32 ->
  hex_loop n (Z.of_nat i) sha out =
    take (2 * i) out
    ++ flat_map (fun v => [hex_at (Z.land (Z.shiftr v 4) 0x0F);
                           hex_at (Z.land v 0x0F)]) (take n (drop i sha))
    ++ drop (2 * (i + n)) out.
Proof.
  induction n as [|n IH]; intros i sha out Hs Ho Hmax.
  - cbn [hex_loop]. rewrite take_0. cbn [flat_map app].
    rewrite Nat.add_0_r. symmetry. apply take_drop.
  - cbn [hex_loop]. cbv zeta.
    rewrite Nat2Z.id.
    rewrite !Z.mod_small by lia.
    replace (Z.to_nat (Z.of_nat i * 2 + 0)) with (2 * i)%nat by lia.
    replace (Z.to_nat (Z.of_nat i * 2 + 1)) with (2 * i + 1)%nat by lia.
    replace (Z.of_nat i + 1) with (Z.of_nat (S i)) by lia.
    set (v := nth i sha 0).
    set (a := hex_at (Z.land (Z.shiftr v 4) 15)).
    set (b := hex_at (Z.land v 15)).
    rewrite IH by (rewrite ?length_insert; lia).
    assert (Hd : drop i sha = v :: drop (S i) sha).
    { subst v. destruct (lookup_lt_is_Some_2 sha i) as [x Hx]; [lia |].
      rewrite (drop_S _ _ _ Hx). f_equal. symmetry. apply nth_lookup_Some with (d := 0).
      exact Hx. }
    rewrite Hd. cbn [take firstn flat_map app].
    rewrite drop_insert_lt by lia. rewrite drop_insert_lt by lia.
    replace (2 * (S i + n))%nat with (2 * (i + S n))%nat by lia.
    assert (Ht : take (2 * S i) (<[(2 * i + 1)%nat := b]> (<[(2 * i)%nat := a]> out))
                 = take (2 * i) out ++ [a; b]).
    { destruct (lookup_lt_is_Some_2 out (2 * i)) as [x0 Hx0]; [lia |].
      destruct (lookup_lt_is_Some_2 out (2 * i + 1)) as [x1 Hx1]; [lia |].
      rewrite <- (take_drop (2 * i) out) at 1.
      rewrite (drop_S _ _ _ Hx0).
      assert (Hx1' : drop (S (2 * i)) out !! 0%nat = Some x1).
      { rewrite lookup_drop. rewrite <- Hx1. f_equal. lia. }
      destruct (drop (S (2 * i)) out) as [|y rest] eqn:E; [discriminate |].
      assert (Hlen : length (take (2 * i) out) = (2 * i)%nat)
        by (rewrite length_take; lia).
      rewrite insert_app_r_alt by lia. rewrite Hlen, Nat.sub_diag. cbn [insert list_insert].
      rewrite insert_app_r_alt by lia. rewrite Hlen.
      replace (2 * i + 1 - 2 * i)%nat with 1%nat by lia. cbn [insert list_insert].
      replace (2 * S i)%nat with (length (take (2 * i) out) + 2)%nat by lia.
      rewrite take_app_add. reflexivity. }
    rewrite Ht. rewrite <- !app_assoc. reflexivity.
Qed.

Lemma hex_at_digit k :
  0 <= k < 16 -> hex_at k ∈ String.list_ascii_of_string hex.
Proof.
  intros Hk. apply list_elem_of_In.
  assert (H : k = 0 \/ k = 1 \/ k = 2 \/ k = 3 \/ k = 4 \/ k = 5 \/ k = 6 \/
              k = 7 \/ k = 8 \/ k = 9 \/ k = 10 \/ k = 11 \/ k = 12 \/
              k = 13 \/ k = 14 \/ k = 15) by lia.
  repeat (destruct H as [-> | H]); try subst k; vm_compute; auto 20.
Qed.

Lemma hex_at_inj a b :
  0 <= a < 16 -> 0 <= b < 16 -> hex_at a = hex_at b -> a = b.
Proof.
  intros Ha Hb.
  assert (H : a = 0 \/ a = 1 \/ a = 2 \/ a = 3 \/ a = 4 \/ a = 5 \/ a = 6 \/
              a = 7 \/ a = 8 \/ a = 9 \/ a = 10 \/ a = 11 \/ a = 12 \/
              a = 13 \/ a = 14 \/ a = 15) by lia.
  assert (H' : b = 0 \/ b = 1 \/ b = 2 \/ b = 3 \/ b = 4 \/ b = 5 \/ b = 6 \/
               b = 7 \/ b = 8 \/ b = 9 \/ b = 10 \/ b = 11 \/ b = 12 \/
               b = 13 \/ b = 14 \/ b = 15) by lia.
  clear Ha Hb.
  repeat (destruct H as [-> | H]); try subst a;
    repeat (destruct H' as [-> | H']); try subst b;
    vm_compute; intros E; first [reflexivity | discriminate E].
Qed.

Lemma hex_digits_nibbles (bytes : list Z) :
  Forall (fun v => 0 <= v < 256) bytes ->
  flat_map (fun v => [hex_at (Z.land (Z.shiftr v 4) 0x0F); hex_at (Z.land v 0x0F)])
    bytes =
  flat_map (fun v => [hex_at (v / 16); hex_at (v mod 16)]) bytes.
Proof.
  induction 1 as [|v l Hv _ IH]; [reflexivity |].
  cbn [flat_map]. rewrite IH. destruct (nibbles v Hv) as [-> ->]. reflexivity.
Qed.

Lemma hex_digits_length (bytes : list Z) :
  length (flat_map (fun v => [hex_at (v / 16); hex_at (v mod 16)]) bytes) =
  (2 * length bytes)%nat.
Proof. induction bytes as [|v l IH]; simpl; [reflexivity | rewrite IH; lia]. Qed.

Lemma hex_digits_alphabet (bytes : list Z) :
  Forall (fun v => 0 <= v < 256) bytes ->
  Forall (fun c => c ∈ String.list_ascii_of_string hex)
    (flat_map (fun v => [hex_at (v / 16); hex_at (v mod 16)]) bytes).
Proof.
  induction 1 as [|v l Hv _ IH]; [constructor |].
  cbn [flat_map app]. constructor; [| constructor; [| exact IH]].
  - apply hex_at_digit. split; [apply Z.div_pos; lia |].
    apply Z.div_lt_upper_bound; lia.
  - apply hex_at_digit. apply Z.mod_pos_bound. lia.
Qed.

Lemma sha256_to_hex_run (bytes : list Z) (buf : list Ascii.ascii) :
  bytes <> [] ->
  Forall (fun v => 0 <= v < 256) bytes ->
  (2 * length bytes + 1 <= length buf)%nat ->
  Z.of_nat (length buf) < 2 ^ 32 ->
  sha256_to_hex (Some bytes) (Z.of_nat (length bytes)) (Some buf)
    (Z.of_nat (length buf)) =
  Some (flat_map (fun v => [hex_at (v / 16); hex_at (v mod 16)]) bytes
        ++ Ascii.zero :: drop (2 * length bytes + 1) buf).
Proof.
  intros Hne Hb Hlen Hmax. unfold sha256_to_hex.
  assert (Hl : (0 < length bytes)%nat) by (destruct bytes; [congruence | simpl; lia]).
  rewrite (proj2 (Z.eqb_neq _ 0)) by lia.
  rewrite (proj2 (Z.eqb_neq (Z.of_nat (length bytes)) 0)) by lia.
  cbv zeta. rewrite !Z.mod_small by lia.
  rewrite (proj2 (Z.ltb_ge _ _)) by lia.
  rewrite Nat2Z.id. change 0 with (Z.of_nat 0).
  rewrite hex_loop_spec by lia.
  rewrite take_0, drop_0, firstn_all. cbn [app].
  rewrite hex_digits_nibbles by exact Hb. f_equal.
  replace (Z.to_nat (Z.of_nat (length bytes) * 2)) with (2 * length bytes)%nat by lia.
  rewrite insert_app_r_alt by (rewrite hex_digits_length; lia).
  rewrite hex_digits_length, Nat.sub_diag. f_equal.
  replace (2 * (0 + length bytes))%nat with (2 * length bytes)%nat by lia.
  destruct (lookup_lt_is_Some_2 buf (2 * length bytes)) as [x Hx]; [lia |].
  rewrite (drop_S _ _ _ Hx). cbn [insert list_insert]. f_equal. f_equal. lia.
Qed.

(** X21. For a digest of [len > 0] bytes and a buffer of at least
    [2 * len + 1] chars, [sha256_to_hex] writes, byte for byte, the two
    lowercase hexadecimal digits of each byte, high nibble first, then the
    terminating NUL, and leaves the rest of the buffer alone. *)
Theorem sha256_to_hex_digits (bytes : list Z) (buf : list Ascii.ascii) :
  bytes <> [] ->
  Forall (fun v => 0 <= v < 256) bytes ->
  (2 * length bytes + 1 <= length buf)%nat ->
  Z.of_nat (length buf) < 2 ^ 32 ->
  exists out,
    sha256_to_hex (Some bytes) (Z.of_nat (length bytes)) (Some buf)
      (Z.of_nat (length buf)) = Some out /\
    length out = length buf /\
    take (2 * length bytes) out =
      flat_map (fun v => [hex_at (v / 16); hex_at (v mod 16)]) bytes /\
    Forall (fun c => c ∈ String.list_ascii_of_string hex)
      (take (2 * length bytes) out) /\
    out !! (2 * length bytes)%nat = Some Ascii.zero /\
    drop (2 * length bytes + 1) out = drop (2 * length bytes + 1) buf.
Proof.
  intros Hne Hb Hlen Hmax.
  eexists. split; [apply sha256_to_hex_run; assumption |].
  set (D := flat_map (fun v => [hex_at (v / 16); hex_at (v mod 16)]) bytes).
  assert (HD : length D = (2 * length bytes)%nat) by apply hex_digits_length.
  assert (Ht : take (2 * length bytes) (D ++ Ascii.zero :: drop (2 * length bytes + 1) buf) = D).
  { rewrite <- HD. apply take_app_length. }
  split; [| split; [exact Ht | split; [rewrite Ht; apply hex_digits_alphabet, Hb |]]].
  - rewrite length_app. cbn [length]. rewrite length_drop, HD. lia.
  - split.
    + rewrite lookup_app_r by lia. rewrite HD, Nat.sub_diag. reflexivity.
    + replace (2 * length bytes + 1)%nat with (length D + 1)%nat by lia.
      rewrite drop_app_add. reflexivity.
Qed.

Lemma hex_digits_inj (b1 b2 : list Z) :
  Forall (fun v => 0 <= v < 256) b1 -> Forall (fun v => 0 <= v < 256) b2 ->
  flat_map (fun v => [hex_at (v / 16); hex_at (v mod 16)]) b1 =
  flat_map (fun v => [hex_at (v / 16); hex_at (v mod 16)]) b2 ->
  b1 = b2.
Proof.
  intros H1. revert b2. induction H1 as [|v l Hv _ IH]; intros b2 H2 E.
  - destruct b2; [reflexivity | discriminate].
  - destruct H2 as [|v' l' Hv' H2']; [discriminate |].
    cbn [flat_map app] in E. injection E as E1 E2 E3.
    apply hex_at_inj in E1.
    2,3: split; [apply Z.div_pos; lia | apply Z.div_lt_upper_bound; lia].
    apply hex_at_inj in E2. 2,3: apply Z.mod_pos_bound; lia.
    f_equal; [| apply IH; assumption].
    rewrite (Z.div_mod v 16), (Z.div_mod v' 16) by lia. rewrite E1, E2. reflexivity.
Qed.

(** X22. [sha256_to_hex] loses nothing: two digests of the same length
    that it renders alike are the same digest. *)
Theorem sha256_to_hex_injective (b1 b2 : list Z) (buf1 buf2 : list Ascii.ascii) :
  b1 <> [] -> length b1 = length b2 ->
  Forall (fun v => 0 <= v < 256) b1 -> Forall (fun v => 0 <= v < 256) b2 ->
  (2 * length b1 + 1 <= length buf1)%nat -> Z.of_nat (length buf1) < 2 ^ 32 ->
  (2 * length b2 + 1 <= length buf2)%nat -> Z.of_nat (length buf2) < 2 ^ 32 ->
  sha256_to_hex (Some b1) (Z.of_nat (length b1)) (Some buf1)
    (Z.of_nat (length buf1)) =
  sha256_to_hex (Some b2) (Z.of_nat (length b2)) (Some buf2)
    (Z.of_nat (length buf2)) ->
  b1 = b2.
Proof.
  intros Hne Hlen H1 H2 L1 M1 L2 M2.
  assert (Hne2 : b2 <> []) by (destruct b1, b2; simpl in *; congruence).
  rewrite !sha256_to_hex_run by assumption. intros [= E].
  apply app_inj_1 in E; [| rewrite !hex_digits_length; lia].
  apply hex_digits_inj; [exact H1 | exact H2 | apply E].
Qed.

(** X23. What [sha256_to_hex] does when it cannot render: a null or
    zero-sized buffer is not touched; a null or empty digest, or a buffer
    shorter than [2 * len + 1] chars, gives the empty string, only the
    first char of the buffer being written. *)
Theorem sha256_to_hex_refuses :
  (forall sha len out_len, sha256_to_hex sha len None out_len = None) /\
  (forall sha len buf, sha256_to_hex sha len (Some buf) 0 = Some buf) /\
  (forall sha len buf out_len,
     out_len <> 0 -> sha = None \/ len = 0 ->
     sha256_to_hex sha len (Some buf) out_len =
       Some (<[0%nat := Ascii.zero]> buf)) /\
  (forall bytes len buf out_len,
     0 <= len < 2 ^ 31 -> 0 < out_len < 2 * len + 1 ->
     sha256_to_hex (Some bytes) len (Some buf) out_len =
       Some (<[0%nat := Ascii.zero]> buf)).
Proof.
  split; [reflexivity | split; [reflexivity | split]].
  - intros sha len buf out_len Ho Hs. unfold sha256_to_hex.
    rewrite (proj2 (Z.eqb_neq _ _) Ho).
    destruct Hs as [-> | ->]; [reflexivity |]. destruct sha; reflexivity.
  - intros bytes len buf out_len Hl Ho. unfold sha256_to_hex.
    rewrite (proj2 (Z.eqb_neq out_len 0)) by lia.
    destruct (len =? 0); [reflexivity |]. cbv zeta.
    rewrite Z.mod_small by lia.
    rewrite (proj2 (Z.ltb_lt _ _)) by lia. reflexivity.
Qed.


(** ** A tooling reset on the NVS backend *)

Opaque firstn overwrite.



Transparent firstn overwrite.

(** ** The disarm callback *)

(** X25. The disarm callback only clears the marker.  Whatever fails, it
    nulls the disarm handle, touches no timer and leaves every key of the
    namespace other than the marker as it is; on the RTC backend it zeroes
    the RTC cell; on the NVS backend with the store ready it calls
    [nvs_erase_key] on the marker, then [nvs_commit], and the marker is gone
    from the namespace when the erase did not fail, and from flash when the
    commit did not fail either. *)
Theorem disarm_callback_only_clears_marker (w : World) :
  let r := disarm_timer_cb w in
  disarm_timer_ (det (world r)) = None /\
  timers (plat (world r)) = timers (plat w) /\
  (forall k, k <> kKeyMagic -> staged (world r) !! k = staged w !! k) /\
  (backend_ (det w) = RTC -> s_rtc_magic (world r) = 0) /\
  (backend_ (det w) = NVS -> nvs_ready_ (det w) = true ->
   s_rtc_magic (world r) = s_rtc_magic w /\
   exists e ec,
     calls (events r) = [EvNvsEraseKey kKeyMagic e; EvNvsCommit ec] /\
     (erased e -> staged (world r) !! kKeyMagic = None) /\
     (erased e -> ec = ESP_OK -> durable (world r) !! kKeyMagic = None)).
Proof.
  intros r. subst r. destruct w as [d rtc p].
  destruct (disarm_timer_cb _) as [[[] w'] evs] eqn:E.
  unfold result, world, events, staged, durable; simpl. revert E.
  unfold disarm_timer_cb, clear_flag, nvs_erase_key, nvs_commit.
  destruct (backend_ d) eqn:Hb; destruct (nvs_ready_ d) eqn:Hr.
  1,2,4: exec_calls; intros [= <- <-]; simpl;
         repeat split; try reflexivity; intros; congruence.
  exec_calls; intros [= <- <-]; simpl.
  all: split; [reflexivity |].
  all: op_specs; subst; simpl in *.
  all: split; [congruence |].
  all: split; [intros k Hk;
               repeat match goal with
                      | H : nvs_staged _ = _ |- _ => rewrite H
                      end;
               rewrite ?lookup_delete_ne by congruence; reflexivity |].
  all: split; [intros; congruence | intros _ _].
  all: split; [reflexivity |].
  all: eexists _, _; split; [reflexivity |].
  all: unfold erased; split; intros;
         repeat match goal with H : _ \/ _ |- _ => destruct H end;
         try congruence.
  all: repeat match goal with
              | H : nvs_staged _ = _ |- _ => rewrite H
              | H : nvs_durable _ = _ |- _ => rewrite H
              end.
  all: first [ apply lookup_delete_eq | assumption ].
Qed.

(** ** Explicit and implicit configuration *)

Lemma configure_mark_commute w :
  result (configure (mark_evaluated w)) = result (configure w) /\
  world (configure (mark_evaluated w)) = mark_evaluated (world (configure w)).
Proof.
  destruct w as [d rtc p]. unfold mark_evaluated, with_det; simpl.
  destruct (configure {| det := d; s_rtc_magic := rtc; plat := p |})
    as [[a w1] e1] eqn:E1.
  destruct (configure _) as [[b w2] e2] eqn:E2 in |- *.
  unfold result, world; simpl. revert E1 E2.
  unfold configure, safe_nvs_init, nvs_flash_init, nvs_open.
  exec_calls.
  all: intros [= <- <- <-] [= <- <- <-]; split; reflexivity.
Qed.

Lemma configure_fields w :
  configured_ (det (world (configure w))) = true /\
  evaluated_ (det (world (configure w))) = evaluated_ (det w) /\
  reset_reason (plat (world (configure w))) = reset_reason (plat w).
Proof.
  destruct w as [d rtc [rr sha n t nt fs]].
  destruct (configure _) as [[a w'] evs] eqn:E.
  unfold world; simpl. revert E.
  unfold configure, safe_nvs_init, nvs_flash_init, nvs_open.
  unfold_ops. exec_all.
  all: intros [= <- <- <-]; simpl; repeat split; assumption.
Qed.

Lemma classify_and_configure_implicit w :
  configured_ (det w) = false -> result (configure w) = ESP_OK ->
  world (classify_and_configure w) = world (configure w).
Proof.
  intros Hc Hok.
  assert (Hrw : world (esp_reset_reason w) = w) by (destruct w; reflexivity).
  unfold classify_and_configure. cbv zeta.
  rewrite bind_world, Hrw.
  rewrite bind_world, log_world_i.
  rewrite bind_world, when_world.
  match goal with
  | |- context [if ?b then world (ESP_LOGI ?s w) else w] =>
      replace (if b then world (ESP_LOGI s w) else w) with w
        by (destruct b; reflexivity)
  end.
  rewrite bind_world, gets_run, result_pair, world_pair, Hc. cbn [negb].
  rewrite bind_world, run_ret, world_pair.
  rewrite bind_world, bind_world, gets_run, result_pair, world_pair.
  rewrite Hok, not_err_same. reflexivity.
Qed.

(** X26. An explicit [configure] that succeeds is optional: running
    [configure] and then [check_and_clear] gives the result and the final
    world of [check_and_clear] alone, which configures the detector itself
    on its first call. *)
Theorem explicit_configure_is_optional (window : Z) (w : World) :
  configured_ (det w) = false -> evaluated_ (det w) = false ->
  result (configure w) = ESP_OK ->
  let implicit := check_and_clear window w in
  let explicit := check_and_clear window (world (configure w)) in
  result explicit = result implicit /\ world explicit = world implicit.
Proof.
  intros Hc He Hok implicit explicit. subst implicit explicit.
  destruct (configure_mark_commute w) as [Hr Hw].
  destruct (configure_fields w) as (Hc1 & He1 & Hrr).
  rewrite He in He1.
  rewrite (check_and_clear_first window w He).
  rewrite (check_and_clear_first window _ He1).
  set (w1 := world (configure w)) in *.
  assert (Hi : world (classify_and_configure (mark_evaluated w)) = mark_evaluated w1).
  { rewrite classify_and_configure_implicit; [exact Hw | exact Hc |].
    rewrite Hr. exact Hok. }
  assert (Hx : world (classify_and_configure (mark_evaluated w1)) = mark_evaluated w1).
  { apply classify_and_configure_ready. exact Hc1. }
  unfold evaluate.
  rewrite !(bind_result classify_and_configure), !(bind_world classify_and_configure).
  rewrite !classify_and_configure_result, Hi, Hx.
  change (reset_reason (plat (mark_evaluated w1))) with (reset_reason (plat w1)).
  change (reset_reason (plat (mark_evaluated w))) with (reset_reason (plat w)).
  rewrite Hrr. split; reflexivity.
Qed.


(** ** The arm-timer callback, step by step *)

Lemma schedule_disarm_timer_calls window w :
  forallb is_timer_event (calls (events (schedule_disarm window w))) = true.
Proof.
  assert (K : keeps any_world (fun ev => is_log ev || is_timer_event ev)
                (schedule_disarm window)).
  { keeps_with ltac:(solve [ reflexivity | intros; reflexivity
                           | intros; exact I ]). }
  destruct (K w I) as [_ H]. revert H.
  generalize (events (schedule_disarm window w)). intros evs.
  induction evs as [|ev evs IH]; simpl; [reflexivity |].
  intros H. apply andb_prop in H. destruct H as [H1 H2].
  destruct (is_log ev) eqn:E; simpl.
  - apply IH, H2.
  - simpl in H1. rewrite H1. apply IH, H2.
Qed.

(** C8. The arm-timer callback, on the NVS backend with the store ready,
    calls in this order [nvs_set_u8(fw_dirty, 0)], [nvs_set_u32(magic,
    MAGIC)], [nvs_commit], then [schedule_disarm(arm_window_s_)].  The
    first of the three NVS calls that does not return [ESP_OK] is the last
    call made: nothing after it runs, the disarm timer handle and the timer
    service are as before.  When the three return [ESP_OK], the namespace
    holds the cleared Dirty Flag and the marker, on flash too, and
    [schedule_disarm] runs from there: only timer calls follow, the
    namespace is not touched again, the disarm handle is left null or
    designating a pending timer of [arm_window_s_] seconds, and such a
    timer is pending when the timer service does not fail.  In a usable
    store with no failure this is the only outcome.  When the backend is not
    NVS or the store is not ready the callback makes no call at all. *)
Theorem arm_timer_cb_order (w : World) :
  let r := arm_timer_cb w in
  let set_dirty := EvNvsSet kKeyDirty (U8 0) in
  let set_magic := EvNvsSet kKeyMagic (U32 kDrdMagic) in
  let window := arm_window_s_ (det w) in
  let h := nvs_handle_ (det w) in
  let w1 :=
    world (nvs_commit h
             (world (nvs_set_u32 h kKeyMagic kDrdMagic
                       (world (nvs_set_u8 h kKeyDirty 0
                                 (with_det (set_arm_timer_ None) w)))))) in
  let arm := schedule_disarm window w1 in
  let pending :=
    mkTimer DisarmCb "drd_disarm" (Some ((window * 1000000) mod 2 ^ 64)) in
  (backend_ (det w) <> NVS \/ nvs_ready_ (det w) = false ->
     calls (events r) = []) /\
  (backend_ (det w) = NVS -> nvs_ready_ (det w) = true ->
     let done := abandoned w (world r) (calls (events r)) in
     (exists e, e <> ESP_OK /\ done [] (set_dirty e)) \/
     (exists e, e <> ESP_OK /\ done [set_dirty ESP_OK] (set_magic e)) \/
     (exists e, e <> ESP_OK /\
        done [set_dirty ESP_OK; set_magic ESP_OK] (EvNvsCommit e)) \/
     (calls (events r) =
        [set_dirty ESP_OK; set_magic ESP_OK; EvNvsCommit ESP_OK]
        ++ calls (events arm) /\
      world r = world arm /\
      forallb is_timer_event (calls (events arm)) = true /\
      det w1 = set_arm_timer_ None (det w) /\
      timers (plat w1) = timers (plat w) /\
      staged w1 =
        <[kKeyMagic := U32 kDrdMagic]> (<[kKeyDirty := U8 0]> (staged w)) /\
      durable w1 = staged w1 /\
      staged (world r) = staged w1 /\
      durable (world r) = durable w1 /\
      (forall t, disarm_timer_ (det (world r)) = Some t ->
         timers (plat (world r)) !! t = Some pending) /\
      (faults (plat w1) = [] -> disarm_pending window (world r)))) /\
  (backend_ (det w) = NVS -> nvs_ready_ (det w) = true ->
   store_usable h w ->
     calls (events r) =
       [set_dirty ESP_OK; set_magic ESP_OK; EvNvsCommit ESP_OK]
       ++ calls (events arm) /\
     staged (world r) !! kKeyDirty = Some (U8 0) /\
     staged (world r) !! kKeyMagic = Some (U32 kDrdMagic) /\
     durable (world r) = staged (world r) /\
     disarm_pending window (world r)).
Proof.
  intros r set_dirty set_magic window h w1 arm pending.
  assert (Harm : (forall t, disarm_timer_ (det (world arm)) = Some t ->
                    timers (plat (world arm)) !! t = Some pending) /\
                 staged (world arm) = staged w1 /\
                 durable (world arm) = durable w1 /\
                 (faults (plat w1) = [] -> disarm_pending window (world arm)) /\
                 forallb is_timer_event (calls (events arm)) = true).
  { split; [intros t; apply schedule_disarm_pending |].
    destruct (schedule_disarm_frame window w1) as (_ & _ & Hn & _).
    split; [unfold staged; fold arm in Hn; rewrite Hn; reflexivity |].
    split; [unfold durable; fold arm in Hn; rewrite Hn; reflexivity |].
    split; [apply schedule_disarm_pending_nf | apply schedule_disarm_timer_calls]. }
  clearbody pending. subst r.
  destruct w as [d rtc p]. cbn [det plat s_rtc_magic] in *.
  destruct (nvs_set_op h kKeyDirty (U8 0) p) as [e1 p1] eqn:E1.
  destruct (nvs_set_op h kKeyMagic (U32 kDrdMagic) p1) as [e2 p2] eqn:E2.
  destruct (nvs_commit_op h p2) as [e3 p3] eqn:E3.
  assert (Hw1 : w1 = mkWorld (set_arm_timer_ None d) rtc p3).
  { subst w1. unfold nvs_commit, nvs_set_u32, nvs_set_u8, call, with_det, with_plat.
    cbn [world result fst snd det plat s_rtc_magic]. rewrite E1.
    cbn [world result fst snd det plat s_rtc_magic]. rewrite E2.
    cbn [world result fst snd det plat s_rtc_magic]. rewrite E3.
    reflexivity. }
  clearbody w1. subst w1. subst h window.
  assert (F : store_usable (nvs_handle_ d) (mkWorld d rtc p) ->
              e1 = ESP_OK /\ e2 = ESP_OK /\ e3 = ESP_OK /\ faults p3 = []).
  { intros Hu.
    pose proof (nvs_set_run _ _ Hu kKeyDirty (U8 0) (EvNvsSet kKeyDirty (U8 0))) as R1.
    unfold call in R1. cbn [plat] in R1. rewrite E1 in R1.
    injection R1 as -> R1.
    assert (Hu1 : store_usable (nvs_handle_ d) (mkWorld d rtc p1)).
    { rewrite R1. usable. }
    pose proof (nvs_set_run _ _ Hu1 kKeyMagic (U32 kDrdMagic)
                  (EvNvsSet kKeyMagic (U32 kDrdMagic))) as R2.
    unfold call in R2. cbn [plat] in R2. rewrite E2 in R2.
    injection R2 as -> R2.
    assert (Hu2 : store_usable (nvs_handle_ d) (mkWorld d rtc p2)).
    { rewrite R2. usable. }
    pose proof (nvs_commit_run _ _ Hu2 EvNvsCommit) as R3.
    unfold call in R3. cbn [plat] in R3. rewrite E3 in R3.
    injection R3 as -> R3.
    assert (Hu3 : store_usable (nvs_handle_ d) (mkWorld d rtc p3)).
    { rewrite R3. usable. }
    repeat split. exact (proj1 Hu3). }
  destruct (arm_timer_cb _) as [[[] w'] evs] eqn:E.
  rewrite ?result_pair, ?world_pair, ?events_pair. revert E.
  unfold arm_timer_cb, nvs_set_u8, nvs_set_u32, nvs_commit.
  Opaque schedule_disarm.
  unfold_monad. simpl.
  destruct (backend_ d) eqn:Hb; destruct (nvs_ready_ d) eqn:Hr; simpl.
  1,2,4: intros [= <- <-]; split;
         [reflexivity
         | split; intros H1 H2; first [discriminate H1 | discriminate H2]].
  rewrite E1; simpl. destruct (not_err e1 ESP_OK) eqn:N1; simpl.
  2: rewrite E2; simpl; destruct (not_err e2 ESP_OK) eqn:N2; simpl.
  3: rewrite E3; simpl; destruct (not_err e3 ESP_OK) eqn:N3; simpl.
  Transparent schedule_disarm.
  all: destruct Harm as (A1 & A2 & A3 & A4 & A5); subst arm.
  4: destruct (schedule_disarm _ _) as [[[] w2] ev2] eqn:E4.
  all: intros [= <- <-]; split; [intros [H|H]; [exfalso; apply H; reflexivity | discriminate H] |].
  all: split; [intros _ _ | intros _ _ Hu; destruct (F Hu) as (-> & -> & -> & Hf3)];
       try discriminate.
  all: op_specs; subst; try congruence; unfold abandoned; simpl in *.
  1-7: first
    [ solve [left; eexists; repeat split; eauto; congruence]
    | solve [right; left; eexists; repeat split; eauto; congruence]
    | solve [right; right; left; eexists; repeat split; eauto; congruence] ].
  all: assert (S1 : nvs_staged (nvs p3) =
                   <[kKeyMagic := U32 kDrdMagic]>
                     (<[kKeyDirty := U8 0]> (nvs_staged (nvs p)))) by congruence.
  all: assert (S2 : nvs_durable (nvs p3) = nvs_staged (nvs p3)) by congruence.
  all: unfold staged, durable in *; cbn [world fst snd plat det] in *.
  - right; right; right.
    split; [reflexivity |]. split; [reflexivity |]. split; [exact A5 |].
    split; [reflexivity |]. split; [congruence |]. split; [exact S1 |].
    split; [exact S2 |]. split; [exact A2 |]. split; [exact A3 |].
    split; [exact A1 | exact A4].
  - split; [reflexivity |].
    split; [rewrite A2, S1, lookup_insert_ne by discriminate; apply lookup_insert_eq |].
    split; [rewrite A2, S1; apply lookup_insert_eq |].
    split; [congruence | exact (A4 Hf3)].
Qed.

(** ** The trees of steps denote the runs *)

Lemma bind_ext {A B} (m m' : M A) (k k' : A -> M B) :
  (forall w, m w = m' w) -> (forall a w, k a w = k' a w) ->
  forall w, bind m k w = bind m' k' w.
Proof.
  intros Hm Hk w. unfold bind. rewrite Hm.
  destruct (m' w) as [[a w1] e1]. rewrite Hk. reflexivity.
Qed.

Create HintDb denote_db.

Ltac same :=
  repeat first
    [ reflexivity
    | progress cbn [denote]
    | progress unfold swhen, when
    | solve [auto with denote_db]
    | apply bind_ext; [ intros ? | intros ? ? ]
    | progress cbv zeta
    | match goal with
      | |- context [if ?b then _ else _] => destruct b
      | |- context [match ?x with _ => _ end] => destruct x
      end ].

Lemma denote_get_current_app_sha256 out w :
  denote (get_current_app_sha256_steps out) w = get_current_app_sha256 out w.
Proof. unfold get_current_app_sha256_steps, get_current_app_sha256. same. Qed.
#[local] Hint Resolve denote_get_current_app_sha256 : denote_db.

Lemma denote_safe_nvs_init w : denote safe_nvs_init_steps w = safe_nvs_init w.
Proof. unfold safe_nvs_init_steps, safe_nvs_init. same. Qed.
#[local] Hint Resolve denote_safe_nvs_init : denote_db.

Lemma denote_configure w : denote configure_steps w = configure w.
Proof. unfold configure_steps, configure. same. Qed.
#[local] Hint Resolve denote_configure : denote_db.

Lemma denote_cancel_disarm w :
  denote cancel_disarm_steps w = cancel_disarm w.
Proof. unfold cancel_disarm_steps, cancel_disarm. same. Qed.
#[local] Hint Resolve denote_cancel_disarm : denote_db.

Lemma denote_schedule_disarm window w :
  denote (schedule_disarm_steps window) w = schedule_disarm window w.
Proof. unfold schedule_disarm_steps, schedule_disarm. same. Qed.
#[local] Hint Resolve denote_schedule_disarm : denote_db.

Lemma denote_cancel_arm w :
  denote cancel_arm_steps w = cancel_arm w.
Proof. unfold cancel_arm_steps, cancel_arm. same. Qed.
#[local] Hint Resolve denote_cancel_arm : denote_db.

Lemma denote_arm_timer_cb w :
  denote arm_timer_cb_steps w = arm_timer_cb w.
Proof. unfold arm_timer_cb_steps, arm_timer_cb. same. Qed.
#[local] Hint Resolve denote_arm_timer_cb : denote_db.

Lemma denote_schedule_arm window w :
  denote (schedule_arm_steps window) w = schedule_arm window w.
Proof. unfold schedule_arm_steps, schedule_arm. same. Qed.
#[local] Hint Resolve denote_schedule_arm : denote_db.

Lemma denote_read_current_identity w :
  denote read_current_identity_steps w = read_current_identity w.
Proof. unfold read_current_identity_steps, read_current_identity. same. Qed.
#[local] Hint Resolve denote_read_current_identity : denote_db.

Lemma denote_read_stored_identity h w :
  denote (read_stored_identity_steps h) w = read_stored_identity h w.
Proof. unfold read_stored_identity_steps, read_stored_identity. same. Qed.
#[local] Hint Resolve denote_read_stored_identity : denote_db.

Lemma denote_read_first_boot h w :
  denote (read_first_boot_steps h) w = read_first_boot h w.
Proof. unfold read_first_boot_steps, read_first_boot. same. Qed.
#[local] Hint Resolve denote_read_first_boot : denote_db.

Lemma denote_identity_changed valid stored current legacy w :
  denote (identity_changed_steps valid stored current legacy) w = identity_changed valid stored current legacy w.
Proof. unfold identity_changed_steps, identity_changed. same. Qed.
#[local] Hint Resolve denote_identity_changed : denote_db.

Lemma denote_reset_identity h current legacy seen w :
  denote (reset_identity_steps h current legacy seen) w = reset_identity h current legacy seen w.
Proof. unfold reset_identity_steps, reset_identity. same. Qed.
#[local] Hint Resolve denote_reset_identity : denote_db.

Lemma denote_track_identity h w :
  denote (track_identity_steps h) w = track_identity h w.
Proof. unfold track_identity_steps, track_identity. same. Qed.
#[local] Hint Resolve denote_track_identity : denote_db.

Lemma denote_read_firmware_dirty h changed w :
  denote (read_firmware_dirty_steps h changed) w = read_firmware_dirty h changed w.
Proof. unfold read_firmware_dirty_steps, read_firmware_dirty. same. Qed.
#[local] Hint Resolve denote_read_firmware_dirty : denote_db.

Lemma denote_read_stored_magic h w :
  denote (read_stored_magic_steps h) w = read_stored_magic h w.
Proof. unfold read_stored_magic_steps, read_stored_magic. same. Qed.
#[local] Hint Resolve denote_read_stored_magic : denote_db.

Lemma denote_nvs_detected h w :
  denote (nvs_detected_steps h) w = nvs_detected h w.
Proof. unfold nvs_detected_steps, nvs_detected. same. Qed.
#[local] Hint Resolve denote_nvs_detected : denote_db.

Lemma denote_nvs_tooling_reset h window w :
  denote (nvs_tooling_reset_steps h window) w = nvs_tooling_reset h window w.
Proof. unfold nvs_tooling_reset_steps, nvs_tooling_reset. same. Qed.
#[local] Hint Resolve denote_nvs_tooling_reset : denote_db.

Lemma denote_nvs_arm_window h window w :
  denote (nvs_arm_window_steps h window) w = nvs_arm_window h window w.
Proof. unfold nvs_arm_window_steps, nvs_arm_window. same. Qed.
#[local] Hint Resolve denote_nvs_arm_window : denote_db.

Lemma denote_read_nvs_state h w :
  denote (read_nvs_state_steps h) w = read_nvs_state h w.
Proof. unfold read_nvs_state_steps, read_nvs_state. same. Qed.
#[local] Hint Resolve denote_read_nvs_state : denote_db.

Lemma denote_check_and_clear_nvs tooling window w :
  denote (check_and_clear_nvs_steps tooling window) w = check_and_clear_nvs tooling window w.
Proof. unfold check_and_clear_nvs_steps, check_and_clear_nvs. same. Qed.
#[local] Hint Resolve denote_check_and_clear_nvs : denote_db.

Lemma denote_check_and_clear_rtc tooling window w :
  denote (check_and_clear_rtc_steps tooling window) w = check_and_clear_rtc tooling window w.
Proof. unfold check_and_clear_rtc_steps, check_and_clear_rtc. same. Qed.
#[local] Hint Resolve denote_check_and_clear_rtc : denote_db.

Lemma denote_classify_and_configure w :
  denote classify_and_configure_steps w = classify_and_configure w.
Proof. unfold classify_and_configure_steps, classify_and_configure. same. Qed.
#[local] Hint Resolve denote_classify_and_configure : denote_db.

Lemma denote_evaluate window w :
  denote (evaluate_steps window) w = evaluate window w.
Proof. unfold evaluate_steps, evaluate. same. Qed.
#[local] Hint Resolve denote_evaluate : denote_db.

Lemma denote_check_and_clear window w :
  denote (check_and_clear_steps window) w = check_and_clear window w.
Proof. unfold check_and_clear_steps, check_and_clear. same. Qed.
#[local] Hint Resolve denote_check_and_clear : denote_db.

(** ** Between the steps *)

Lemma stable_world (I : World -> Prop) {A} (p : Steps A) :
  stable I p -> forall w, I w -> I (world (denote p w)).
Proof.
  induction p as [A a | A B m IHm k IHk | A f | f | ev | A op ev | | v];
    cbn [stable denote]; try (intros H w Hw; apply H; exact Hw).
  - intros _ w Hw. exact Hw.
  - intros [Hm Hk] w Hw. rewrite bind_world.
    apply IHk; [apply Hk | apply IHm; assumption].
Qed.

Lemma stable_points (I : World -> Prop) {A} (p : Steps A) :
  stable I p -> forall w, I w -> Forall I (points p w).
Proof.
  induction p as [A a | A B m IHm k IHk | A f | f | ev | A op ev | | v];
    cbn [stable points]; try (intros _ w Hw; repeat constructor; exact Hw).
  intros [Hm Hk] w Hw. apply Forall_app. split.
  - apply IHm; assumption.
  - apply IHk; [apply Hk | apply (stable_world I m Hm w Hw)].
Qed.

(** A call that enters where [I] holds and does nothing there leaves the
    run as it is. *)
Lemma reentered_run (I : World -> Prop) (inner : M bool) (c : World -> bool) :
  (forall w, I w -> inner w = (c w, w, [])) ->
  forall {A} (p : Steps A), stable I p -> forall w, I w ->
    reentered inner p w =
      ((result (denote p w), map c (points p w)),
       world (denote p w), events (denote p w)).
Proof.
  intros Hin A p.
  induction p as [A a | A B m IHm k IHk | A f | f | ev | A op ev | | v];
    cbn [stable reentered points denote].
  - intros _ w _. reflexivity.
  - intros [Hm Hk] w Hw.
    pose proof (stable_world I m Hm w Hw) as Hw1.
    unfold bind at 1. rewrite (IHm Hm w Hw).
    unfold bind at 1. cbn [fst snd].
    rewrite (IHk _ (Hk _) _ Hw1).
    unfold ret, result, world, events, bind. cbn [fst snd].
    destruct (denote m w) as [[a w1] e1]. cbn [fst snd].
    destruct (denote (k a) w1) as [[b w2] e2]. cbn [fst snd].
    rewrite map_app, app_nil_r. reflexivity.
  - intros _ w Hw. unfold bind at 1. rewrite (Hin w Hw). reflexivity.
  - intros _ w Hw. unfold bind at 1. rewrite (Hin w Hw). reflexivity.
  - intros _ w Hw. unfold bind at 1. rewrite (Hin w Hw). reflexivity.
  - intros _ w Hw. unfold bind at 1. rewrite (Hin w Hw).
    unfold bind, call, ret, result, world, events.
    destruct (op (plat w)) as [a p']. reflexivity.
  - intros _ w Hw. unfold bind at 1. rewrite (Hin w Hw). reflexivity.
  - intros _ w Hw. unfold bind at 1. rewrite (Hin w Hw). reflexivity.
Qed.

(** No step of the decision clears [evaluated_]. *)
Lemma call_det {A} (op : Platform -> A * Platform) (ev : A -> Event) w :
  det (world (call op ev w)) = det w.
Proof. unfold call. destruct (op (plat w)). reflexivity. Qed.

Ltac stable_step :=
  let w := fresh "w" in
  let H := fresh "H" in
  intros w H; cbn [denote]; unfold evaluated_inv in *;
  first [ exact H | rewrite call_det; exact H ].

Create HintDb stable_db.

Ltac unfold_steps :=
  unfold ESP_LOGI_step, ESP_LOGW_step, esp_reset_reason_step,
    esp_app_get_description_step, nvs_flash_init_step, nvs_open_step,
    nvs_get_u8_step, nvs_get_u32_step, nvs_get_blob_step, nvs_set_u8_step,
    nvs_set_u32_step, nvs_set_blob_step, nvs_erase_key_step, nvs_commit_step,
    esp_timer_create_step, esp_timer_start_once_step, esp_timer_stop_step,
    esp_timer_delete_step.

Ltac stable_tac :=
  repeat first
    [ exact I
    | progress unfold_steps
    | solve [auto with stable_db]
    | progress cbn [stable]
    | progress unfold swhen
    | progress cbv zeta
    | match goal with
      | |- stable _ (if ?b then _ else _) => destruct b
      | |- stable _ (match ?x with _ => _ end) => destruct x
      | |- forall w, evaluated_inv w -> _ => stable_step
      | |- _ /\ _ => split
      | |- forall _, _ => intros ?
      end ].

Lemma stable_get_current_app_sha256 out :
  stable evaluated_inv (get_current_app_sha256_steps out).
Proof. unfold get_current_app_sha256_steps. stable_tac. Qed.
#[local] Hint Resolve stable_get_current_app_sha256 : stable_db.

Lemma stable_safe_nvs_init : stable evaluated_inv safe_nvs_init_steps.
Proof. unfold safe_nvs_init_steps. stable_tac. Qed.
#[local] Hint Resolve stable_safe_nvs_init : stable_db.

Lemma stable_configure : stable evaluated_inv configure_steps.
Proof. unfold configure_steps. stable_tac. Qed.
#[local] Hint Resolve stable_configure : stable_db.

Lemma stable_cancel_disarm : stable evaluated_inv cancel_disarm_steps.
Proof. unfold cancel_disarm_steps. stable_tac. Qed.
#[local] Hint Resolve stable_cancel_disarm : stable_db.

Lemma stable_schedule_disarm window : stable evaluated_inv (schedule_disarm_steps window).
Proof. unfold schedule_disarm_steps. stable_tac. Qed.
#[local] Hint Resolve stable_schedule_disarm : stable_db.

Lemma stable_cancel_arm : stable evaluated_inv cancel_arm_steps.
Proof. unfold cancel_arm_steps. stable_tac. Qed.
#[local] Hint Resolve stable_cancel_arm : stable_db.

Lemma stable_arm_timer_cb : stable evaluated_inv arm_timer_cb_steps.
Proof. unfold arm_timer_cb_steps. stable_tac. Qed.
#[local] Hint Resolve stable_arm_timer_cb : stable_db.

Lemma stable_schedule_arm window : stable evaluated_inv (schedule_arm_steps window).
Proof. unfold schedule_arm_steps. stable_tac. Qed.
#[local] Hint Resolve stable_schedule_arm : stable_db.

Lemma stable_read_current_identity : stable evaluated_inv read_current_identity_steps.
Proof. unfold read_current_identity_steps. stable_tac. Qed.
#[local] Hint Resolve stable_read_current_identity : stable_db.

Lemma stable_read_stored_identity h : stable evaluated_inv (read_stored_identity_steps h).
Proof. unfold read_stored_identity_steps. stable_tac. Qed.
#[local] Hint Resolve stable_read_stored_identity : stable_db.

Lemma stable_read_first_boot h : stable evaluated_inv (read_first_boot_steps h).
Proof. unfold read_first_boot_steps. stable_tac. Qed.
#[local] Hint Resolve stable_read_first_boot : stable_db.

Lemma stable_identity_changed valid stored current legacy : stable evaluated_inv (identity_changed_steps valid stored current legacy).
Proof. unfold identity_changed_steps. stable_tac. Qed.
#[local] Hint Resolve stable_identity_changed : stable_db.

Lemma stable_reset_identity h current legacy seen : stable evaluated_inv (reset_identity_steps h current legacy seen).
Proof. unfold reset_identity_steps. stable_tac. Qed.
#[local] Hint Resolve stable_reset_identity : stable_db.

Lemma stable_track_identity h : stable evaluated_inv (track_identity_steps h).
Proof. unfold track_identity_steps. stable_tac. Qed.
#[local] Hint Resolve stable_track_identity : stable_db.

Lemma stable_read_firmware_dirty h changed : stable evaluated_inv (read_firmware_dirty_steps h changed).
Proof. unfold read_firmware_dirty_steps. stable_tac. Qed.
#[local] Hint Resolve stable_read_firmware_dirty : stable_db.

Lemma stable_read_stored_magic h : stable evaluated_inv (read_stored_magic_steps h).
Proof. unfold read_stored_magic_steps. stable_tac. Qed.
#[local] Hint Resolve stable_read_stored_magic : stable_db.

Lemma stable_nvs_detected h : stable evaluated_inv (nvs_detected_steps h).
Proof. unfold nvs_detected_steps. stable_tac. Qed.
#[local] Hint Resolve stable_nvs_detected : stable_db.

Lemma stable_nvs_tooling_reset h window : stable evaluated_inv (nvs_tooling_reset_steps h window).
Proof. unfold nvs_tooling_reset_steps. stable_tac. Qed.
#[local] Hint Resolve stable_nvs_tooling_reset : stable_db.

Lemma stable_nvs_arm_window h window : stable evaluated_inv (nvs_arm_window_steps h window).
Proof. unfold nvs_arm_window_steps. stable_tac. Qed.
#[local] Hint Resolve stable_nvs_arm_window : stable_db.

Lemma stable_read_nvs_state h : stable evaluated_inv (read_nvs_state_steps h).
Proof. unfold read_nvs_state_steps. stable_tac. Qed.
#[local] Hint Resolve stable_read_nvs_state : stable_db.

Lemma stable_check_and_clear_nvs tooling window : stable evaluated_inv (check_and_clear_nvs_steps tooling window).
Proof. unfold check_and_clear_nvs_steps. stable_tac. Qed.
#[local] Hint Resolve stable_check_and_clear_nvs : stable_db.

Lemma stable_check_and_clear_rtc tooling window : stable evaluated_inv (check_and_clear_rtc_steps tooling window).
Proof. unfold check_and_clear_rtc_steps. stable_tac. Qed.
#[local] Hint Resolve stable_check_and_clear_rtc : stable_db.

Lemma stable_classify_and_configure : stable evaluated_inv classify_and_configure_steps.
Proof. unfold classify_and_configure_steps. stable_tac. Qed.
#[local] Hint Resolve stable_classify_and_configure : stable_db.

Lemma stable_evaluate window : stable evaluated_inv (evaluate_steps window).
Proof. unfold evaluate_steps. stable_tac. Qed.
#[local] Hint Resolve stable_evaluate : stable_db.

(** C4. Within one boot every call of [check_and_clear] after the first,
    whatever ran in between ([configure], [clear_flag], the timer
    callbacks, other calls), returns the value of the first call, leaves
    the world as it is and emits no event: no persistent read or write, no
    timer call.  The first call tests [evaluated_], sets it, sets the cache
    to [false], and only then runs the decision: every step of the
    decision, the first included, starts in a world where [evaluated_] is
    set.  So a call of [check_and_clear] that enters before any step of the
    decision returns the value the cache holds at that moment, changes
    nothing and emits nothing, and the run of the first call in which such
    a call enters before every step of the decision has the result, the
    final world and the trace of the run in which none does. *)
Theorem check_and_clear_memoised (window window' : Z) (es : list entry) (w : World) :
  evaluated_ (det w) = false ->
  let first := check_and_clear window w in
  let later := world (run_entries es (world first)) in
  let inside := points (evaluate_steps window) (mark_evaluated w) in
  let cached := fun w' : World => cached_result_ (det w') in
  check_and_clear window' later = (result first, later, []) /\
  first = evaluate window (mark_evaluated w) /\
  evaluated_ (det (mark_evaluated w)) = true /\
  cached_result_ (det (mark_evaluated w)) = false /\
  keeps evaluated_inv any_event (evaluate window) /\
  (forall w', evaluated_ (det w') = true ->
     check_and_clear window' w' = (cached_result_ (det w'), w', [])) /\
  denote (check_and_clear_steps window) w = first /\
  points (check_and_clear_steps window) w =
    [w; w; with_det (set_evaluated_ true) w] ++ inside /\
  head inside = Some (mark_evaluated w) /\
  Forall (fun w' => evaluated_ (det w') = true /\
                    check_and_clear window' w' = (cached w', w', [])) inside /\
  reentered (check_and_clear window') (evaluate_steps window) (mark_evaluated w) =
    ((result first, map cached inside), world first, events first).
Proof.
  intros He first later inside cached.
  assert (Hfirst : cache_inv (result first) (world first)).
  { subst first. rewrite check_and_clear_first by exact He. split.
    - apply (evaluate_keeps_evaluated window (mark_evaluated w)). reflexivity.
    - apply evaluate_caches. }
  assert (Hlater : cache_inv (result first) later).
  { apply (run_entries_keeps_cache (result first) es (world first) Hfirst). }
  destruct Hlater as [Hl1 Hl2].
  assert (Hm : evaluated_inv (mark_evaluated w)) by reflexivity.
  split; [| split; [| split; [| split; [| split; [| split]]]]].
  - rewrite check_and_clear_cached by exact Hl1. rewrite Hl2. reflexivity.
  - apply check_and_clear_first, He.
  - reflexivity.
  - reflexivity.
  - apply evaluate_keeps_evaluated.
  - intros w' Hw'. apply check_and_clear_cached, Hw'.
  - split; [apply denote_check_and_clear |].
    split.
    { unfold check_and_clear_steps. cbn [points denote].
      rewrite gets_run, result_pair, world_pair, He.
      cbn [points denote]. rewrite !modify_run, !world_pair. reflexivity. }
    split.
    { subst inside. unfold evaluate_steps, classify_and_configure_steps.
      unfold_steps. cbn [points]. reflexivity. }
    split.
    { subst inside.
      eapply Forall_impl; [apply (stable_points evaluated_inv _ (stable_evaluate window) _ Hm) |].
      intros w' Hw'. split; [exact Hw' | apply check_and_clear_cached, Hw']. }
    rewrite (reentered_run evaluated_inv (check_and_clear window') cached
               (fun w' Hw' => check_and_clear_cached window' w' Hw')
               (evaluate_steps window) (stable_evaluate window) _ Hm).
    subst first inside. rewrite check_and_clear_first by exact He.
    rewrite denote_evaluate. reflexivity.
Qed.

End Detector.

(** ** The scenarios of the specification

    With tooling-reset suppression enabled, an arm delay of 5 s and a
    window of 10 s. *)

Example scenario_cold_first_boot :
  let r := check_and_clear true 5 10 boot_rtc_cold in
  result r = false /\ s_rtc_magic (world r) = kDrdMagic /\
  timers (plat (world r)) !! 0%nat =
    Some (mkTimer DisarmCb "drd_disarm" (Some 10000000)).
Proof. vm_compute. repeat split. Qed.

Example scenario_double_reset_rtc :
  let r := check_and_clear true 5 10
             (boot RTC kDrdMagic ESP_RST_EXT (Some sha_a) ∅ []) in
  result r = true /\ s_rtc_magic (world r) = 0.
Proof. vm_compute. repeat split. Qed.

Example scenario_tooling_reset_rtc :
  let r := check_and_clear true 5 10
             (boot RTC kDrdMagic ESP_RST_SW (Some sha_a) ∅ []) in
  result r = false /\ s_rtc_magic (world r) = 0 /\
  disarm_timer_ (det (world r)) = None /\ timers (plat (world r)) = ∅.
Proof. vm_compute. repeat split. Qed.

Example scenario_fresh_flash :
  let r := check_and_clear true 5 10 boot_nvs_fresh_flash in
  let fired := world (arm_timer_cb (world r)) in
  result r = false /\
  staged (world r) !! kKeyAppSha256 = Some (Blob sha_a) /\
  staged (world r) !! kKeyDirty = Some (U8 1) /\
  staged (world r) !! kKeyMagic = None /\
  timers (plat (world r)) !! 0%nat =
    Some (mkTimer ArmCb "drd_arm" (Some 5000000)) /\
  staged fired !! kKeyDirty = Some (U8 0) /\
  staged fired !! kKeyMagic = Some (U32 kDrdMagic) /\
  timers (plat fired) !! 1%nat =
    Some (mkTimer DisarmCb "drd_disarm" (Some 10000000)).
Proof. vm_compute. repeat split. Qed.

Example scenario_legacy_migration :
  let r := check_and_clear true 5 10 boot_nvs_legacy in
  result r = false /\
  staged (world r) !! kKeyAppSha256 = Some (Blob sha_a) /\
  staged (world r) !! kKeyAppHash = None /\
  staged (world r) !! kKeyDirty = Some (U8 1).
Proof. vm_compute. repeat split. Qed.

Example scenario_double_reset_nvs :
  let r := check_and_clear true 5 10 boot_nvs_double_reset in
  result r = true /\
  staged (world r) !! kKeyMagic = None /\
  durable (world r) !! kKeyMagic = None.
Proof. vm_compute. repeat split. Qed.

(** ** Witnesses and counterexamples *)

(** C6 as stated fails: the partition cannot be initialised, [nvs_open] is
    refused, and [configure] hands that error code to the host. *)
Lemma configure_failing_status :
  result (configure boot_nvs_unavailable) = ESP_ERR_NVS_NOT_INITIALIZED /\
  result (configure boot_nvs_unavailable) <> ESP_OK /\
  calls (events (configure boot_nvs_unavailable)) =
    [EvNvsFlashInit ESP_ERR_NVS_NO_FREE_PAGES;
     EvNvsOpen "drd" ESP_ERR_NVS_NOT_INITIALIZED].
Proof. vm_compute. repeat split. discriminate. Qed.

(** C5 as stated fails: after an explicit [configure] that failed, the
    backend is still NVS; [check_and_clear] skips the detection although the RTC cell holds the
    magic, where the RTC decision on the same world returns [true]. *)
Lemma explicit_configure_does_not_degrade :
  let w1 := world (configure boot_nvs_unavailable) in
  let r := check_and_clear true 5 10 w1 in
  result (configure boot_nvs_unavailable) <> ESP_OK /\
  backend_ (det w1) = NVS /\
  result r = false /\
  s_rtc_magic (world r) = kDrdMagic /\
  backend_ (det (world r)) = NVS /\
  result (check_and_clear true 5 10 (with_det (set_backend_ RTC) w1)) = true.
Proof. vm_compute. repeat split. discriminate. Qed.

(** C1 as stated fails: flash refuses the erase of the detection branch;
    [check_and_clear] still returns [true] and the marker is still in the
    namespace and on flash. *)
Lemma detection_with_failed_erase :
  let r := check_and_clear true 5 10 boot_nvs_erase_fails in
  result r = true /\
  backend_ (det (world r)) = NVS /\
  staged (world r) !! kKeyMagic = Some (U32 kDrdMagic) /\
  durable (world r) !! kKeyMagic = Some (U32 kDrdMagic) /\
  calls (events r) =
    [EvResetReason ESP_RST_EXT; EvNvsFlashInit ESP_OK; EvNvsOpen "drd" ESP_OK;
     EvAppDescription true; EvNvsGet kKeyAppSha256 ESP_OK;
     EvNvsGet kKeyAppHash ESP_ERR_NVS_NOT_FOUND;
     EvNvsGet kKeyFirstBoot ESP_ERR_NVS_NOT_FOUND; EvNvsGet kKeyDirty ESP_OK;
     EvNvsGet kKeyMagic ESP_OK;
     EvNvsEraseKey kKeyMagic ESP_ERR_FLASH_OP_FAIL; EvNvsCommit ESP_OK].
Proof. vm_compute. repeat split. Qed.

(** C9 as stated fails: flash refuses the erase of the marker;
    [clear_flag] logs and goes on, and the marker is still in the
    namespace. *)
Lemma clear_flag_with_failed_erase :
  let r := clear_flag nvs_clear_fails in
  backend_ (det nvs_clear_fails) = NVS /\
  nvs_ready_ (det nvs_clear_fails) = true /\
  staged (world r) !! kKeyMagic = Some (U32 kDrdMagic) /\
  calls (events r) =
    [EvNvsEraseKey kKeyMagic ESP_ERR_FLASH_OP_FAIL;
     EvNvsEraseKey kKeyBoot ESP_ERR_NVS_NOT_FOUND;
     EvNvsEraseKey kKeyDirty ESP_OK;
     EvNvsEraseKey kKeyFirstBoot ESP_ERR_NVS_NOT_FOUND;
     EvNvsEraseKey kKeyAppSha256 ESP_OK;
     EvNvsEraseKey kKeyAppHash ESP_ERR_NVS_NOT_FOUND;
     EvNvsCommit ESP_OK].
Proof. vm_compute. repeat split. Qed.

(** Witness of C1: the second reset within the window on the NVS backend. *)
Lemma detection_clears_marker_witness :
  let r := check_and_clear true 5 10 boot_nvs_double_reset in
  evaluated_ (det boot_nvs_double_reset) = false /\
  result r = true /\
  ((backend_ (det (world r)) = RTC /\ s_rtc_magic (world r) = 0) \/
   (backend_ (det (world r)) = NVS /\
    disarm_timer_ (det (world r)) = None /\
    exists pre w1 e_erase e_commit,
      forallb sensing_event pre = true /\
      timers_are (disarm_timer_ (det boot_nvs_double_reset))
        (timers (plat boot_nvs_double_reset)) w1 /\
      calls (events r) =
        calls pre ++ calls (events (cancel_disarm w1))
        ++ [EvNvsEraseKey kKeyMagic e_erase; EvNvsCommit e_commit] /\
      (erased e_erase -> staged (world r) !! kKeyMagic = None) /\
      (erased e_erase -> e_commit = ESP_OK ->
       durable (world r) !! kKeyMagic = None))).
Proof.
  split; [reflexivity | split; [vm_compute; reflexivity |]].
  apply (detection_clears_marker true 5 10 boot_nvs_double_reset).
  - reflexivity.
  - vm_compute; reflexivity.
Defined.

(** Witness of C2: the cold first boot arms the RTC cell and a disarm timer
    of ten seconds. *)
Lemma check_and_clear_rtc_algorithm_witness :
  let r := check_and_clear true 5 10 boot_rtc_cold in
  evaluated_ (det boot_rtc_cold) = false /\
  backend_ (det boot_rtc_cold) = RTC /\
  result r = false /\
  s_rtc_magic (world r) = kDrdMagic /\
  exists h,
    disarm_timer_ (det (world r)) = Some h /\
    timers (plat (world r)) !! h =
      Some (mkTimer DisarmCb "drd_disarm" (Some (10 * 1000000))).
Proof.
  split; [reflexivity | split; [reflexivity |]].
  destruct (check_and_clear_rtc_algorithm true 5 10 boot_rtc_cold
              eq_refl eq_refl) as (_ & _ & H).
  destruct H as (Hr & Hm & _ & _ & Ht).
  - reflexivity.
  - vm_compute. discriminate.
  - split; [exact Hr | split; [exact Hm |]].
    apply Ht; [reflexivity | lia].
Defined.

(** Witness of C3: marker present, Dirty Flag set, reset by the pin. *)
Lemma dirty_flag_blocks_detection_witness :
  let r := check_and_clear true 5 10 boot_nvs_dirty in
  evaluated_ (det boot_nvs_dirty) = false /\
  backend_ (det boot_nvs_dirty) = NVS /\
  dirty_flag_set boot_nvs_dirty /\
  staged boot_nvs_dirty !! kKeyMagic = Some (U32 kDrdMagic) /\
  backend_ (det (world r)) = NVS /\
  result r = false.
Proof.
  assert (Hd : dirty_flag_set boot_nvs_dirty).
  { exists 1. split; [vm_compute; reflexivity | lia]. }
  assert (Hb : backend_ (det (world (check_and_clear true 5 10 boot_nvs_dirty)))
               = NVS) by (vm_compute; reflexivity).
  split; [reflexivity | split; [reflexivity | split; [exact Hd |]]].
  split; [vm_compute; reflexivity | split; [exact Hb |]].
  exact (dirty_flag_blocks_detection true 5 10 boot_nvs_dirty
           eq_refl eq_refl Hd Hb).
Defined.


(** Witness of C5: the partition cannot be initialised, the implicit
    [configure] fails, and the detection runs on the RTC cell. *)
Lemma check_and_clear_degrades_witness :
  let r := check_and_clear true 5 10 boot_nvs_unavailable in
  evaluated_ (det boot_nvs_unavailable) = false /\
  configured_ (det boot_nvs_unavailable) = false /\
  backend_ (det boot_nvs_unavailable) = NVS /\
  result (configure (mark_evaluated boot_nvs_unavailable)) <> ESP_OK /\
  backend_ (det (world r)) = RTC /\
  result r = true /\ s_rtc_magic (world r) = 0.
Proof.
  assert (Hf : result (configure (mark_evaluated boot_nvs_unavailable))
               <> ESP_OK) by (vm_compute; discriminate).
  split; [reflexivity | split; [reflexivity | split; [reflexivity |]]].
  split; [exact Hf |].
  destruct (check_and_clear_degrades true 5 10 [] boot_nvs_unavailable
              eq_refl eq_refl eq_refl Hf)
    as (_ & _ & _ & Hb & _ & _ & Hm & _).
  split; [exact Hb |].
  apply Hm; reflexivity.
Defined.

(** Witness of C6: the status of the failing open. *)
Lemma configure_status_witness :
  let r := configure boot_nvs_unavailable in
  configured_ (det boot_nvs_unavailable) = false /\
  backend_ (det boot_nvs_unavailable) = NVS /\
  configured_ (det (world r)) = true /\
  exists e_init e_open,
    calls (events r) = [EvNvsFlashInit e_init; EvNvsOpen "drd" e_open] /\
    result r = e_open /\
    nvs_ready_ (det (world r)) = bool_decide (e_open = ESP_OK).
Proof.
  split; [reflexivity | split; [reflexivity |]].
  destruct (configure_status boot_nvs_unavailable) as (Hc & _ & _ & _ & H).
  split; [exact Hc |].
  exact (H eq_refl eq_refl).
Defined.

(** Witness of C7: the arming commit fails; the answer is [false] and no
    timer is scheduled. *)
Lemma arming_failure_keeps_result_witness :
  let w := boot_nvs_commit_fails in
  let r := check_and_clear true 5 10 w in
  let post :=
    [EvNvsSet kKeyMagic (U32 kDrdMagic) ESP_OK;
     EvNvsCommit ESP_ERR_FLASH_OP_FAIL;
     EvLog LOGW "nvs_commit() after arming failed. err=%s"] in
  evaluated_ (det w) = false /\
  events_after is_firmware_clean_log (events r) = Some post /\
  result r = false /\
  ((exists e, e <> ESP_OK /\
      abandoned w (world r) (calls post) []
        (EvNvsSet kKeyMagic (U32 kDrdMagic) e)) \/
   (exists e, e <> ESP_OK /\
      abandoned w (world r) (calls post)
        [EvNvsSet kKeyMagic (U32 kDrdMagic) ESP_OK] (EvNvsCommit e)) \/
   (exists w1,
      calls post =
        [EvNvsSet kKeyMagic (U32 kDrdMagic) ESP_OK; EvNvsCommit ESP_OK]
        ++ calls (events (schedule_disarm 10 w1)) /\
      world r =
        with_det (set_cached_result_ false) (world (schedule_disarm 10 w1)) /\
      staged w1 !! kKeyMagic = Some (U32 kDrdMagic) /\
      durable w1 = staged w1)).
Proof.
  intros w r post.
  assert (Hp : events_after is_firmware_clean_log (events r) = Some post)
    by (vm_compute; reflexivity).
  split; [reflexivity | split; [exact Hp |]].
  exact (arming_failure_keeps_result true 5 10 w eq_refl post Hp).
Defined.


(** Witness of C9: [clear_flag] on a configured NVS detector. *)
Lemma clear_flag_nvs_erases_witness :
  let w := nvs_configured in
  let r := clear_flag w in
  backend_ (det w) = NVS /\
  nvs_ready_ (det w) = true /\
  exists es ec,
    length es = length clear_flag_keys /\
    calls (events r) =
      zip_with EvNvsEraseKey clear_flag_keys es ++ [EvNvsCommit ec] /\
    (forall i k e, clear_flag_keys !! i = Some k -> es !! i = Some e ->
       erased e -> staged (world r) !! k = None) /\
    (ec = ESP_OK -> durable (world r) = staged (world r)) /\
    (Forall erased es -> ec = ESP_OK ->
     forall k, k ∈ clear_flag_keys ->
       staged (world r) !! k = None /\ durable (world r) !! k = None).
Proof.
  intros w r.
  assert (Hb : backend_ (det w) = NVS) by (vm_compute; reflexivity).
  assert (Hr : nvs_ready_ (det w) = true) by (vm_compute; reflexivity).
  split; [exact Hb | split; [exact Hr |]].
  exact (clear_flag_nvs_erases w Hb Hr).
Defined.

(** Witness of C10: [configure] was called by the host and failed; the
    detector is configured, on the NVS backend, not ready. *)
Lemma check_and_clear_nvs_not_ready_witness :
  let w := world (configure boot_nvs_unavailable) in
  let r := check_and_clear true 5 10 w in
  evaluated_ (det w) = false /\
  configured_ (det w) = true /\
  backend_ (det w) = NVS /\
  nvs_ready_ (det w) = false /\
  result r = false /\
  world r = mark_evaluated w /\
  forallb quiet (events r) = true.
Proof.
  intros w r.
  assert (H1 : evaluated_ (det w) = false) by (vm_compute; reflexivity).
  assert (H2 : configured_ (det w) = true) by (vm_compute; reflexivity).
  assert (H3 : backend_ (det w) = NVS) by (vm_compute; reflexivity).
  assert (H4 : nvs_ready_ (det w) = false) by (vm_compute; reflexivity).
  split; [exact H1 | split; [exact H2 | split; [exact H3 | split; [exact H4 |]]]].
  exact (check_and_clear_nvs_not_ready true 5 10 w H1 H2 H3 H4).
Defined.

(** ** Witnesses of the further properties *)

(** Witness of X1: a reset by the USB bridge with the namespace armed. *)
Lemma tooling_reset_never_detects_witness :
  let w := boot NVS 0 ESP_RST_USB (Some sha_a) armed_namespace [] in
  evaluated_ (det w) = false /\
  is_tooling_reset true (reset_reason (plat w)) = true /\
  result (check_and_clear true 5 10 w) = false.
Proof.
  split; [reflexivity | split; [reflexivity |]].
  exact (proj1 (tooling_reset_never_detects true 5 10
                  (boot NVS 0 ESP_RST_USB (Some sha_a) armed_namespace [])
                  eq_refl eq_refl)).
Defined.

(** Witness of X2: the second reset within the window on the NVS backend. *)
Lemma detection_needs_marker_witness :
  let w := boot_nvs_double_reset in
  evaluated_ (det w) = false /\
  result (check_and_clear true 5 10 w) = true /\
  staged w !! kKeyMagic = Some (U32 kDrdMagic).
Proof.
  split; [reflexivity | split; [reflexivity |]].
  destruct (detection_needs_marker true 5 10 boot_nvs_double_reset
              eq_refl eq_refl) as [_ [[H _] | [_ H]]].
  - vm_compute in H. discriminate.
  - exact H.
Defined.


(** Witness of X6: fresh flash on the NVS backend, the arm timer expires,
    then the host clears the flag. *)
Lemma one_timer_of_each_kind_witness :
  let ss := [HostCall (CallCheckAndClear 10); TimerExpires 0;
             HostCall CallClearFlag] in
  forallb dispatched ss = true /\
  no_faults boot_nvs_fresh_flash /\
  timers_owned boot_nvs_fresh_flash /\
  one_pending_per_kind (world (run_steps true 5 ss boot_nvs_fresh_flash)).
Proof.
  assert (H : timers_owned boot_nvs_fresh_flash).
  { intros h t Hl. vm_compute in Hl. discriminate. }
  split; [reflexivity | split; [reflexivity | split; [exact H |]]].
  exact (proj2 (one_timer_of_each_kind true 5
                  [HostCall (CallCheckAndClear 10); TimerExpires 0;
                   HostCall CallClearFlag]
                  boot_nvs_fresh_flash eq_refl eq_refl H)).
Defined.

(** Witness of X8: a configured arm delay of [2 ^ 32 + 5], which the code
    takes for 5 s, on a freshly booted detector. *)
Lemma schedule_arm_defers_witness :
  let r := schedule_arm 4294967301 10 boot_nvs_fresh_flash in
  4294967301 mod 2 ^ 32 <> 0 /\
  arm_window_s_ (det (world r)) = 10 /\
  forallb no_storage_event (events r) = true /\
  arm_timer_ (det (world r)) = Some 0%nat /\
  timers (plat (world r)) !! 0%nat =
    Some (mkTimer ArmCb "drd_arm" (Some 5000000)).
Proof.
  assert (H : 4294967301 mod 2 ^ 32 <> 0) by (intros E; vm_compute in E; discriminate).
  split; [exact H |].
  destruct (schedule_arm_defers 4294967301 10 boot_nvs_fresh_flash H)
    as (H1 & H2 & _ & _ & _ & _ & H7).
  split; [exact H1 | split; [exact H2 |]].
  destruct (H7 eq_refl) as [H8 H9].
  split; [exact H8 | rewrite H9; reflexivity].
Defined.


(** Witness of X9: a power-on boot of the stored image, no window open. *)
Lemma clean_boot_arms_witness :
  let w := boot NVS 0 ESP_RST_POWERON (Some sha_a) clean_namespace [] in
  nvs_boot w /\ same_image sha_a w /\ dirty_flag_clear w /\
  is_tooling_reset true (reset_reason (plat w)) = false /\
  staged w !! kKeyMagic <> Some (U32 kDrdMagic) /\
  result (check_and_clear true 5 10 w) = false /\
  disarm_pending 10 (world (check_and_clear true 5 10 w)).
Proof.
  set (w := boot NVS 0 ESP_RST_POWERON (Some sha_a) clean_namespace []).
  assert (H1 : nvs_boot w) by (repeat split; try reflexivity; discriminate).
  assert (H2 : same_image sha_a w) by (repeat split; reflexivity).
  assert (H3 : dirty_flag_clear w) by (right; reflexivity).
  assert (H4 : is_tooling_reset true (reset_reason (plat w)) = false)
    by reflexivity.
  assert (H5 : staged w !! kKeyMagic <> Some (U32 kDrdMagic))
    by (intros H; vm_compute in H; discriminate).
  destruct (clean_boot_arms true 5 10 w sha_a H1 H2 H3 H4 H5) as (R1 & _ & _ & R4).
  exact (conj H1 (conj H2 (conj H3 (conj H4 (conj H5 (conj R1 R4)))))).
Defined.

(** Witness of X10: the second reset within the window. *)
Lemma armed_boot_detects_witness :
  let w := boot_nvs_double_reset in
  nvs_boot w /\ same_image sha_a w /\ dirty_flag_clear w /\
  is_tooling_reset true (reset_reason (plat w)) = false /\
  staged w !! kKeyMagic = Some (U32 kDrdMagic) /\
  result (check_and_clear true 5 10 w) = true.
Proof.
  set (w := boot_nvs_double_reset).
  assert (H1 : nvs_boot w) by (repeat split; try reflexivity; discriminate).
  assert (H2 : same_image sha_a w) by (repeat split; reflexivity).
  assert (H3 : dirty_flag_clear w) by (right; reflexivity).
  assert (H4 : is_tooling_reset true (reset_reason (plat w)) = false)
    by reflexivity.
  assert (H5 : staged w !! kKeyMagic = Some (U32 kDrdMagic)) by reflexivity.
  destruct (armed_boot_detects true 5 10 w sha_a H1 H2 H3 H4 H5) as (R1 & _).
  exact (conj H1 (conj H2 (conj H3 (conj H4 (conj H5 R1))))).
Defined.

(** Witness of X11: three boots of the stored image, resets by the
    external pin. *)
Lemma nvs_double_reset_detected_witness :
  let w := boot NVS 0 ESP_RST_POWERON (Some sha_a) clean_namespace [] in
  let boot_a := check_and_clear true 5 10 w in
  let boot_b := check_and_clear true 5 10 (reboot NVS ESP_RST_EXT [] (world boot_a)) in
  let boot_c := check_and_clear true 5 10 (reboot NVS ESP_RST_EXT [] (world boot_b)) in
  nvs_boot w /\ same_image sha_a w /\ dirty_flag_clear w /\
  is_tooling_reset true (reset_reason (plat w)) = false /\
  staged w !! kKeyMagic <> Some (U32 kDrdMagic) /\
  is_tooling_reset true ESP_RST_EXT = false /\
  result boot_a = false /\ result boot_b = true /\ result boot_c = false.
Proof.
  set (w := boot NVS 0 ESP_RST_POWERON (Some sha_a) clean_namespace []).
  assert (H1 : nvs_boot w) by (repeat split; try reflexivity; discriminate).
  assert (H2 : same_image sha_a w) by (repeat split; reflexivity).
  assert (H3 : dirty_flag_clear w) by (right; reflexivity).
  assert (H4 : is_tooling_reset true (reset_reason (plat w)) = false)
    by reflexivity.
  assert (H5 : staged w !! kKeyMagic <> Some (U32 kDrdMagic))
    by (intros H; vm_compute in H; discriminate).
  assert (H6 : is_tooling_reset true ESP_RST_EXT = false) by reflexivity.
  exact (conj H1 (conj H2 (conj H3 (conj H4 (conj H5 (conj H6
           (nvs_double_reset_detected true 5 10 10 10 w sha_a
              ESP_RST_EXT ESP_RST_EXT H1 H2 H3 H4 H5 H6))))))).
Defined.

(** Witness of X12: the disarm timer of the clean boot is timer 0. *)
Lemma nvs_window_expiry_disarms_witness :
  let w := boot NVS 0 ESP_RST_POWERON (Some sha_a) clean_namespace [] in
  let boot_a := check_and_clear true 5 10 w in
  let expired := world (expire 0 (world boot_a)) in
  nvs_boot w /\ same_image sha_a w /\ dirty_flag_clear w /\
  is_tooling_reset true (reset_reason (plat w)) = false /\
  staged w !! kKeyMagic <> Some (U32 kDrdMagic) /\
  disarm_timer_ (det (world boot_a)) = Some 0%nat /\
  durable expired !! kKeyMagic = None /\
  result (check_and_clear true 5 10 (reboot NVS ESP_RST_EXT [] expired)) = false.
Proof.
  set (w := boot NVS 0 ESP_RST_POWERON (Some sha_a) clean_namespace []).
  assert (H1 : nvs_boot w) by (repeat split; try reflexivity; discriminate).
  assert (H2 : same_image sha_a w) by (repeat split; reflexivity).
  assert (H3 : dirty_flag_clear w) by (right; reflexivity).
  assert (H4 : is_tooling_reset true (reset_reason (plat w)) = false)
    by reflexivity.
  assert (H5 : staged w !! kKeyMagic <> Some (U32 kDrdMagic))
    by (intros H; vm_compute in H; discriminate).
  assert (H6 : disarm_timer_ (det (world (check_and_clear true 5 10 w))) = Some 0%nat)
    by reflexivity.
  destruct (nvs_window_expiry_disarms true 5 10 10 w sha_a 0%nat ESP_RST_EXT
              H1 H2 H3 H4 H5 H6) as (_ & R2 & _ & R4).
  exact (conj H1 (conj H2 (conj H3 (conj H4 (conj H5 (conj H6 (conj R2 R4))))))).
Defined.

(** Witness of X13: fresh flash, an arm delay of 5 s. *)
Lemma firmware_change_blocks_detection_witness :
  let w := boot_nvs_fresh_flash in
  nvs_boot w /\ new_image sha_a w /\
  result (check_and_clear true 5 10 w) = false /\
  staged (world (check_and_clear true 5 10 w)) !! kKeyAppSha256 =
    Some (Blob sha_a) /\
  staged (world (check_and_clear true 5 10 w)) !! kKeyDirty = Some (U8 1).
Proof.
  set (w := boot_nvs_fresh_flash).
  assert (H0 : 5 mod 2 ^ 32 <> 0) by (intros E; vm_compute in E; discriminate).
  assert (H1 : nvs_boot w) by (repeat split; try reflexivity; discriminate).
  assert (H2 : new_image sha_a w).
  { repeat split; try reflexivity. intros H; vm_compute in H; discriminate. }
  destruct (firmware_change_blocks_detection true 5 10 w sha_a H1 H2)
    as (R1 & R2 & _ & R4).
  destruct (R4 H0) as (_ & R5 & _).
  exact (conj H1 (conj H2 (conj R1 (conj R2 R5)))).
Defined.

(** Witness of X14: fresh flash, the arm timer is timer 0. *)
Lemma arm_delay_completes_witness :
  let w := boot_nvs_fresh_flash in
  let boot_a := check_and_clear true 5 10 w in
  let fired := world (expire 0 (world boot_a)) in
  5 <> 0 /\ nvs_boot w /\ new_image sha_a w /\
  is_tooling_reset true ESP_RST_EXT = false /\
  arm_timer_ (det (world boot_a)) = Some 0%nat /\
  staged fired !! kKeyMagic = Some (U32 kDrdMagic) /\
  result (check_and_clear true 5 10 (reboot NVS ESP_RST_EXT [] fired)) = true.
Proof.
  set (w := boot_nvs_fresh_flash).
  assert (H0 : 5 <> 0) by lia.
  assert (H1 : nvs_boot w) by (repeat split; try reflexivity; discriminate).
  assert (H2 : new_image sha_a w).
  { repeat split; try reflexivity. intros H; vm_compute in H; discriminate. }
  assert (H3 : is_tooling_reset true ESP_RST_EXT = false) by reflexivity.
  assert (H4 : arm_timer_ (det (world (check_and_clear true 5 10 w))) = Some 0%nat)
    by reflexivity.
  destruct (arm_delay_completes true 5 10 10 w sha_a 0%nat ESP_RST_EXT
              H0 H1 H2 H3 H4) as (_ & _ & R3 & _ & _ & _ & R7).
  exact (conj H0 (conj H1 (conj H2 (conj H3 (conj H4 (conj R3 R7)))))).
Defined.

(** Witness of X16: a configured detector on the armed namespace. *)
Lemma unchanged_identity_writes_nothing_witness :
  store_usable 1 nvs_configured /\ same_image sha_a nvs_configured /\
  result (track_identity 1 nvs_configured) = false /\
  world (track_identity 1 nvs_configured) = nvs_configured.
Proof.
  assert (H1 : store_usable 1 nvs_configured) by (split; reflexivity).
  assert (H2 : same_image sha_a nvs_configured) by (repeat split; reflexivity).
  destruct (unchanged_identity_writes_nothing 1 nvs_configured sha_a H1 H2)
    as (R1 & R2 & _).
  exact (conj H1 (conj H2 (conj R1 R2))).
Defined.

(** Witness of X17: a configured detector on the namespace of another
    image. *)
Lemma changed_identity_resets_state_witness :
  let w := world (configure boot_nvs_fresh_flash) in
  store_usable 1 w /\ new_image sha_a w /\
  result (track_identity 1 w) = true /\
  staged (world (track_identity 1 w)) !! kKeyDirty = Some (U8 1).
Proof.
  set (w := world (configure boot_nvs_fresh_flash)).
  assert (H1 : store_usable 1 w) by (split; reflexivity).
  assert (H2 : new_image sha_a w).
  { repeat split; try reflexivity. intros H; vm_compute in H; discriminate. }
  destruct (changed_identity_resets_state 1 w sha_a H1 H2)
    as (R1 & _ & _ & R4 & _).
  exact (conj H1 (conj H2 (conj R1 R4))).
Defined.

(** Witness of X18: fresh flash with a zero arm delay. *)
Lemma zero_delay_arms_at_once_witness :
  let w := boot_nvs_fresh_flash in
  0 = 0 /\ nvs_boot w /\ new_image sha_a w /\
  result (check_and_clear true 0 10 w) = false /\
  staged (world (check_and_clear true 0 10 w)) !! kKeyMagic = Some (U32 kDrdMagic).
Proof.
  set (w := boot_nvs_fresh_flash).
  assert (H1 : nvs_boot w) by (repeat split; try reflexivity; discriminate).
  assert (H2 : new_image sha_a w).
  { repeat split; try reflexivity. intros H; vm_compute in H; discriminate. }
  destruct (zero_delay_arms_at_once true 0 10 w sha_a eq_refl H1 H2)
    as (R1 & R2 & _).
  exact (conj eq_refl (conj H1 (conj H2 (conj R1 R2)))).
Defined.

(** Witness of X19: a cold boot on the RTC backend, then a reset by the
    external pin. *)
Lemma rtc_double_reset_detected_witness :
  let w := boot_rtc_cold in
  let boot_a := check_and_clear true 5 10 w in
  evaluated_ (det w) = false /\ backend_ (det w) = RTC /\
  is_tooling_reset true (reset_reason (plat w)) = false /\
  s_rtc_magic w <> kDrdMagic /\
  is_tooling_reset true ESP_RST_EXT = false /\ ESP_RST_EXT <> ESP_RST_POWERON /\
  result (check_and_clear true 5 10 (reboot RTC ESP_RST_EXT [] (world boot_a))) = true.
Proof.
  set (w := boot_rtc_cold).
  assert (H1 : s_rtc_magic w <> kDrdMagic) by discriminate.
  assert (H2 : ESP_RST_EXT <> ESP_RST_POWERON) by discriminate.
  destruct (rtc_double_reset_detected true 5 10 10 w ESP_RST_EXT [] []
              eq_refl eq_refl eq_refl H1 eq_refl H2) as (_ & _ & R3 & _).
  exact (conj eq_refl (conj eq_refl (conj eq_refl (conj H1 (conj eq_refl
           (conj H2 R3)))))).
Defined.

(** Witness of X20: the disarm timer of the cold boot is timer 0. *)
Lemma rtc_window_expiry_disarms_witness :
  let w := boot_rtc_cold in
  let boot_a := check_and_clear true 5 10 w in
  let expired := world (expire 0 (world boot_a)) in
  evaluated_ (det w) = false /\ backend_ (det w) = RTC /\
  is_tooling_reset true (reset_reason (plat w)) = false /\
  s_rtc_magic w <> kDrdMagic /\
  disarm_timer_ (det (world boot_a)) = Some 0%nat /\
  s_rtc_magic expired = 0 /\
  result (check_and_clear true 5 10 (reboot RTC ESP_RST_EXT [] expired)) = false.
Proof.
  set (w := boot_rtc_cold).
  assert (H1 : s_rtc_magic w <> kDrdMagic) by discriminate.
  assert (H2 : disarm_timer_ (det (world (check_and_clear true 5 10 w))) = Some 0%nat)
    by reflexivity.
  destruct (rtc_window_expiry_disarms true 5 10 10 w 0%nat ESP_RST_EXT []
              eq_refl eq_refl eq_refl H1 H2) as (R1 & R2).
  exact (conj eq_refl (conj eq_refl (conj eq_refl (conj H1 (conj H2
           (conj R1 R2)))))).
Defined.


(** Witness of X21: two bytes into a buffer of six chars. *)
Lemma sha256_to_hex_digits_witness :
  [0xAB; 0x01] <> [] /\
  Forall (fun v => 0 <= v < 256) [0xAB; 0x01] /\
  (2 * length [0xAB; 0x01] + 1 <= length (replicate 6 Ascii.zero))%nat /\
  Z.of_nat (length (replicate 6 Ascii.zero)) < 2 ^ 32 /\
  exists out,
    sha256_to_hex (Some [0xAB; 0x01]) 2 (Some (replicate 6 Ascii.zero)) 6 =
      Some out /\
    take 4 out = String.list_ascii_of_string "ab01".
Proof.
  assert (H1 : [0xAB; 0x01] <> []) by discriminate.
  assert (H2 : Forall (fun v => 0 <= v < 256) [0xAB; 0x01])
    by (repeat constructor; lia).
  assert (H3 : (2 * length [0xAB; 0x01] + 1 <= length (replicate 6 Ascii.zero))%nat)
    by (simpl; lia).
  assert (H4 : Z.of_nat (length (replicate 6 Ascii.zero)) < 2 ^ 32)
    by (simpl; lia).
  destruct (sha256_to_hex_digits [0xAB; 0x01] (replicate 6 Ascii.zero) H1 H2 H3 H4)
    as (out & R1 & _ & R3 & _).
  exact (conj H1 (conj H2 (conj H3 (conj H4
           (ex_intro _ out (conj R1 R3)))))).
Defined.

(** Witness of X22: the same digest rendered into two buffers. *)
Lemma sha256_to_hex_injective_witness :
  let b := [0x5A] in
  let buf1 := replicate 3 Ascii.zero in
  let buf2 := replicate 3 Ascii.zero in
  b <> [] /\ length b = length b /\
  Forall (fun v => 0 <= v < 256) b /\
  (2 * length b + 1 <= length buf1)%nat /\ Z.of_nat (length buf1) < 2 ^ 32 /\
  sha256_to_hex (Some b) 1 (Some buf1) 3 = sha256_to_hex (Some b) 1 (Some buf2) 3 /\
  b = b.
Proof.
  assert (H1 : [0x5A] <> []) by discriminate.
  assert (H2 : Forall (fun v => 0 <= v < 256) [0x5A]) by (repeat constructor; lia).
  assert (H3 : (2 * length [0x5A] + 1 <= length (replicate 3 Ascii.zero))%nat)
    by (simpl; lia).
  assert (H4 : Z.of_nat (length (replicate 3 Ascii.zero)) < 2 ^ 32) by (simpl; lia).
  exact (conj H1 (conj eq_refl (conj H2 (conj H3 (conj H4 (conj eq_refl
           (sha256_to_hex_injective [0x5A] [0x5A] (replicate 3 Ascii.zero)
              (replicate 3 Ascii.zero) H1 eq_refl H2 H2 H3 H4 H3 H4 eq_refl))))))).
Defined.



(** Witness of X26: a clean boot on the NVS backend. *)
Lemma explicit_configure_is_optional_witness :
  let w := boot NVS 0 ESP_RST_POWERON (Some sha_a) clean_namespace [] in
  configured_ (det w) = false /\ evaluated_ (det w) = false /\
  result (configure w) = ESP_OK /\
  result (check_and_clear true 5 10 (world (configure w))) =
    result (check_and_clear true 5 10 w).
Proof.
  exact (conj eq_refl (conj eq_refl (conj eq_refl
           (proj1 (explicit_configure_is_optional true 5 10
                     (boot NVS 0 ESP_RST_POWERON (Some sha_a) clean_namespace [])
                     eq_refl eq_refl eq_refl))))).
Defined.

(** Witness of C4: on a boot that detects, [clear_flag], a disarm timer
    firing and further calls leave the answer [true] and do nothing; a call
    that enters at the first step of the decision gets [false], the value
    the cache holds then, while the first call goes on to return [true]. *)
Lemma check_and_clear_memoised_witness :
  let w := boot_nvs_double_reset in
  let first := check_and_clear true 5 10 w in
  let later :=
    world (run_entries true 5
             [CallClearFlag; CallCheckAndClear 3; FireDisarmTimer; CallConfigure]
             (world first)) in
  let inside := points (evaluate_steps true 5 10) (mark_evaluated w) in
  let cached := fun w' : World => cached_result_ (det w') in
  evaluated_ (det w) = false /\
  result first = true /\
  check_and_clear true 5 60 later = (true, later, []) /\
  head (map cached inside) = Some false /\
  Forall (fun w' => evaluated_ (det w') = true /\
                    check_and_clear true 5 60 w' = (cached w', w', [])) inside /\
  reentered (check_and_clear true 5 60) (evaluate_steps true 5 10)
    (mark_evaluated w) =
    ((result first, map cached inside), world first, events first).
Proof.
  intros w first later inside cached.
  destruct (check_and_clear_memoised true 5 10 60
              [CallClearFlag; CallCheckAndClear 3; FireDisarmTimer; CallConfigure]
              w eq_refl)
    as (H1 & _ & _ & _ & _ & _ & _ & _ & _ & H10 & H11).
  split; [reflexivity | split; [vm_compute; reflexivity |]].
  split; [exact H1 |].
  split; [vm_compute; reflexivity |].
  split; [exact H10 | exact H11].
Defined.

(** Witness of C8: the callback on a configured NVS detector whose store
    is usable. *)
Lemma arm_timer_cb_order_witness :
  let w := nvs_configured in
  let r := arm_timer_cb w in
  backend_ (det w) = NVS /\
  nvs_ready_ (det w) = true /\
  store_usable (nvs_handle_ (det w)) w /\
  staged (world r) !! kKeyDirty = Some (U8 0) /\
  staged (world r) !! kKeyMagic = Some (U32 kDrdMagic) /\
  durable (world r) = staged (world r) /\
  disarm_pending (arm_window_s_ (det w)) (world r).
Proof.
  intros w r.
  assert (Hb : backend_ (det w) = NVS) by (vm_compute; reflexivity).
  assert (Hr : nvs_ready_ (det w) = true) by (vm_compute; reflexivity).
  assert (Hu : store_usable (nvs_handle_ (det w)) w) by (split; reflexivity).
  destruct (proj2 (proj2 (arm_timer_cb_order w)) Hb Hr Hu)
    as (_ & R1 & R2 & R3 & R4).
  exact (conj Hb (conj Hr (conj Hu (conj R1 (conj R2 (conj R3 R4)))))).
Defined.
